(** * ImbalancedLearningClassifier: model selection for imbalanced data

    A shallow embedding of [asid/automl_imbalanced/tools_ilc.py] and
    [asid/automl_imbalanced/ilc.py], and the properties of the selection
    engine proved on it.

    Conventions of the embedding.
    - Python exceptions are values of [exn]; a computation that may raise
      has type [result A].
    - A NumPy/Python float is a [pyfloat]: an exact rational extended with
      [+inf], [-inf] and [nan].  Binary64 rounding is not modelled; the
      special values and the division by zero of NumPy are.
    - A Python [dict] is an association list in insertion order.
    - scikit-learn, imbalanced-learn, hyperopt and the classifiers are
      external: they appear as the fields of the class [Externals]; the
      calls that split, search, set parameters, fit and predict are
      appended to a log.
    - The parameter dictionary of a search trial is shared with the caller:
      it lives in a heap and the objective receives a reference to it. *)

From Stdlib Require Import ZArith QArith Qround Qminmax Ascii String List Bool Lia Lqa.
From Stdlib Require Import Permutation Sorted.
Import ListNotations.

Set Implicit Arguments.

Open Scope Z_scope.

(** ** Exceptions and fallible computations *)

Inductive exn : Type :=
| ValueError
| KeyError
| IndexError
| OverflowError
| UnboundLocalError
| TypeError
| AttributeError
| ExternalError (origin : string).

Inductive result (A : Type) : Type :=
| Ok (a : A)
| Raise (e : exn).

Arguments Ok {A} a.
Arguments Raise {A} e.

Definition rbind {A B} (r : result A) (k : A -> result B) : result B :=
  match r with
  | Ok a => k a
  | Raise e => Raise e
  end.

Declare Scope result_scope.
Delimit Scope result_scope with result.
Notation "x <- e ;; k" := (rbind e (fun x => k))
  (at level 61, e at next level, right associativity) : result_scope.
Notation "' pat <- e ;; k" := (rbind e (fun x => match x with pat => k end))
  (at level 61, pat pattern, e at next level, right associativity) : result_scope.

(** ** Floats *)

Inductive pyfloat : Type :=
| Fin (q : Q)
| PInf
| NInf
| NaN.

Module Float.

Definition of_Z (z : Z) : pyfloat := Fin (inject_Z z).
Definition of_nat (n : nat) : pyfloat := of_Z (Z.of_nat n).

Definition neg (x : pyfloat) : pyfloat :=
  match x with
  | Fin q => Fin (- q)
  | PInf => NInf
  | NInf => PInf
  | NaN => NaN
  end.

Definition add (x y : pyfloat) : pyfloat :=
  match x, y with
  | NaN, _ | _, NaN => NaN
  | Fin a, Fin b => Fin (a + b)
  | PInf, NInf | NInf, PInf => NaN
  | PInf, _ | _, PInf => PInf
  | NInf, _ | _, NInf => NInf
  end.

Definition sub (x y : pyfloat) : pyfloat := add x (neg y).

(** [inf * 0] is [nan]; otherwise the sign of the product. *)
Definition signed_inf (c : comparison) : pyfloat :=
  match c with
  | Gt => PInf
  | Lt => NInf
  | Eq => NaN
  end.

Definition mul (x y : pyfloat) : pyfloat :=
  match x, y with
  | NaN, _ | _, NaN => NaN
  | Fin a, Fin b => Fin (a * b)
  | PInf, Fin b | Fin b, PInf => signed_inf (b ?= 0)%Q
  | NInf, Fin b | Fin b, NInf => signed_inf (0 ?= b)%Q
  | PInf, PInf | NInf, NInf => PInf
  | PInf, NInf | NInf, PInf => NInf
  end.

(** NumPy's true division: dividing by zero warns and yields an infinity
    (or [nan] for [0/0]); it does not raise. *)
Definition div (x y : pyfloat) : pyfloat :=
  match x, y with
  | NaN, _ | _, NaN => NaN
  | Fin a, Fin b =>
      if Qeq_bool b 0 then signed_inf (a ?= 0)%Q else Fin (a / b)
  | Fin _, PInf | Fin _, NInf => Fin 0
  | PInf, Fin b => if Qle_bool 0 b then PInf else NInf
  | NInf, Fin b => if Qle_bool 0 b then NInf else PInf
  | _, _ => NaN
  end.

(** [x < y]; every comparison with [nan] is false. *)
Definition ltb (x y : pyfloat) : bool :=
  match x, y with
  | NaN, _ | _, NaN => false
  | Fin a, Fin b => negb (Qle_bool b a)
  | NInf, NInf => false
  | NInf, _ => true
  | _, PInf => match x with PInf => false | _ => true end
  | _, _ => false
  end.

Definition gtb (x y : pyfloat) : bool := ltb y x.

(** Round half to even, the rule of [round(x, 0)] and of [numpy.round]. *)
Definition round_half_even (x : Q) : Z :=
  let f := Qfloor x in
  match (x - inject_Z f ?= 1 # 2)%Q with
  | Lt => f
  | Gt => f + 1
  | Eq => if Z.even f then f else f + 1
  end.

Definition round (x : pyfloat) : pyfloat :=
  match x with
  | Fin q => of_Z (round_half_even q)
  | _ => x
  end.

(** [int(x)]: truncation; [OverflowError] on an infinity, [ValueError] on
    [nan]. *)
Definition to_int (x : pyfloat) : result Z :=
  match x with
  | Fin q => Ok (if Qle_bool 0 q then Qfloor q else Qceiling q)
  | PInf | NInf => Raise OverflowError
  | NaN => Raise ValueError
  end.

Definition sum (l : list pyfloat) : pyfloat := fold_left add l (Fin 0).

(** [numpy.mean]: the mean of the empty sequence is [nan] (with a
    warning). *)
Definition mean (l : list pyfloat) : pyfloat :=
  div (sum l) (of_nat (length l)).

End Float.

(** ** Python builtins *)

(** [max(a, b)] and [min(a, b)] keep the first argument unless the second
    one is strictly better. *)
Definition py_max_float (a b : pyfloat) : pyfloat :=
  if Float.gtb b a then b else a.

Definition py_max (a b : Z) : Z := if b >? a then b else a.
Definition py_min (a b : Z) : Z := if b <? a then b else a.

Definition getitem {A} (l : list A) (i : nat) : result A :=
  match nth_error l i with
  | Some a => Ok a
  | None => Raise IndexError
  end.

(** A [dict] keeps insertion order; assigning to a present key keeps its
    place. *)
Section Dict.
Context {K V : Type} (eqb : K -> K -> bool).

Fixpoint dict_get (d : list (K * V)) (k : K) : option V :=
  match d with
  | [] => None
  | (k', v) :: d' => if eqb k k' then Some v else dict_get d' k
  end.

Fixpoint dict_set (d : list (K * V)) (k : K) (v : V) : list (K * V) :=
  match d with
  | [] => [(k, v)]
  | (k', v') :: d' =>
      if eqb k k' then (k', v) :: d' else (k', v') :: dict_set d' k v
  end.

Definition dict_mem (d : list (K * V)) (k : K) : bool :=
  match dict_get d k with Some _ => true | None => false end.

Definition dict_getitem (d : list (K * V)) (k : K) : result V :=
  match dict_get d k with
  | Some v => Ok v
  | None => Raise KeyError
  end.
End Dict.

(** [for i, val in enumerate(l): s = body i val s], stopping at the first
    exception. *)
Fixpoint for_enumerate_from {A St} (i : nat) (l : list A)
    (body : nat -> A -> St -> result St) (s : St) : result St :=
  match l with
  | [] => Ok s
  | a :: l' =>
      (s' <- body i a s ;; for_enumerate_from (S i) l' body s')%result
  end.

Definition for_enumerate {A St} := @for_enumerate_from A St 0%nat.

(** ** NumPy on integer vectors *)

(** Index of the first smallest (largest) entry; [ValueError] on an empty
    array. *)
Fixpoint argbest_from (better : Z -> Z -> bool) (l : list Z)
    (i : nat) (best_i : nat) (best : Z) : nat :=
  match l with
  | [] => best_i
  | a :: l' =>
      if better a best then argbest_from better l' (S i) i a
      else argbest_from better l' (S i) best_i best
  end.

Definition np_argmin (l : list Z) : result nat :=
  match l with
  | [] => Raise ValueError
  | a :: l' => Ok (argbest_from Z.ltb l' 1 0 a)
  end.

Definition np_argmax (l : list Z) : result nat :=
  match l with
  | [] => Raise ValueError
  | a :: l' => Ok (argbest_from Z.gtb l' 1 0 a)
  end.

(** [numpy.unique(y, return_counts=True)]: the sorted distinct labels and
    how often each occurs. *)
Fixpoint count_insert (v : Z) (acc : list (Z * Z)) : list (Z * Z) :=
  match acc with
  | [] => [(v, 1)]
  | (u, n) :: acc' =>
      if v <? u then (v, 1) :: acc
      else if v =? u then (u, n + 1) :: acc'
      else (u, n) :: count_insert v acc'
  end.

Definition np_unique_counts (y : list Z) : list Z * list Z :=
  let acc := fold_left (fun acc v => count_insert v acc) y [] in
  (map fst acc, map snd acc).

(** ** The sampling-strategy corrector *)

(** The adjusted parameter is a ratio (two classes) or a target count per
    class (more than two). *)
Inductive sampling_strategy : Type :=
| SSFloat (ratio : pyfloat)
| SSDict (targets : list (Z * Z)).

Definition get_sampl_strat_for_case (ss : pyfloat)
    (count_class : list Z * list Z) (balance_method : string)
  : result sampling_strategy :=
  (let classes := fst count_class in
   let counts := snd count_class in
   min_cl_arg <- np_argmin counts ;;
   max_cl_arg <- np_argmax counts ;;
   if (2 <? length classes)%nat then
     if (balance_method =? "RandomUnderSampler")%string then
       new_dict <- for_enumerate classes (fun i val new_dict =>
         if (i =? min_cl_arg)%nat then
           c <- getitem counts i ;;
           Ok (dict_set Z.eqb new_dict val c)
         else
           cmin <- getitem counts min_cl_arg ;;
           target <- Float.to_int (Float.round (Float.div (Float.of_Z cmin) ss)) ;;
           c <- getitem counts i ;;
           Ok (dict_set Z.eqb new_dict val (py_min target c))) [] ;;
       Ok (SSDict new_dict)
     else
       new_dict <- for_enumerate classes (fun i val new_dict =>
         if (i =? max_cl_arg)%nat then
           c <- getitem counts i ;;
           Ok (dict_set Z.eqb new_dict val c)
         else
           cmax <- getitem counts max_cl_arg ;;
           target <- Float.to_int (Float.round (Float.mul (Float.of_Z cmax) ss)) ;;
           c <- getitem counts i ;;
           Ok (dict_set Z.eqb new_dict val (py_max target c))) [] ;;
       Ok (SSDict new_dict)
   else
     cmin <- getitem counts min_cl_arg ;;
     cmax <- getitem counts max_cl_arg ;;
     Ok (SSFloat (py_max_float (Float.div (Float.of_Z cmin) (Float.of_Z cmax)) ss)))%result.

(** ** Data, parameters and pipelines *)

Definition row : Type := list Q.
Definition matrix : Type := list row.
Definition labels : Type := list Z.

(** [a[index]] with an integer index array. *)
Fixpoint np_take {A} (a : list A) (index : list nat) : result (list A) :=
  match index with
  | [] => Ok []
  | i :: index' =>
      (v <- getitem a i ;; vs <- np_take a index' ;; Ok (v :: vs))%result
  end.

Inductive pyval : Type :=
| VFloat (f : pyfloat)
| VInt (z : Z)
| VBool (b : bool)
| VStrategy (targets : list (Z * Z)).

Definition paramdict : Type := list (string * pyval).

Definition of_strategy (s : sampling_strategy) : pyval :=
  match s with
  | SSFloat f => VFloat f
  | SSDict d => VStrategy d
  end.

(** The number behind a parameter value; a mapping is not a number. *)
Definition as_float (v : pyval) : result pyfloat :=
  match v with
  | VFloat f => Ok f
  | VInt z => Ok (Float.of_Z z)
  | VBool b => Ok (Float.of_Z (if b then 1 else 0))
  | VStrategy _ => Raise TypeError
  end.

(** [int(v)]. *)
Definition py_int (v : pyval) : result Z :=
  match v with
  | VFloat f => Float.to_int f
  | VInt z => Ok z
  | VBool b => Ok (if b then 1 else 0)
  | VStrategy _ => Raise TypeError
  end.

Inductive resampler_kind : Type := SMOTE | RandomOverSampler | ADASYN | RandomUnderSampler.
Inductive classifier_kind : Type := XGBClassifier | RandomForestClassifier | LGBMClassifier | CatBoostClassifier.

(** A prototype instance: its class and the keyword arguments it was built
    with. *)
Record resampler : Type := { r_kind : resampler_kind; r_args : paramdict }.
Record classifier : Type := { c_kind : classifier_kind; c_args : paramdict }.

Definition balance_dict : list (string * resampler) :=
  [ ("SMOTE", {| r_kind := SMOTE; r_args := [("random_state", VInt 42)] |});
    ("RandomOverSampler",
      {| r_kind := RandomOverSampler; r_args := [("random_state", VInt 42)] |});
    ("ADASYN",
      {| r_kind := ADASYN;
         r_args := [("random_state", VInt 42); ("n_jobs", VInt (-1))] |});
    ("RandomUnderSampler",
      {| r_kind := RandomUnderSampler; r_args := [("random_state", VInt 42)] |}) ]%string.

Definition classificator_dict : list (string * classifier) :=
  [ ("XGB",
      {| c_kind := XGBClassifier;
         c_args := [("seed", VInt 10); ("verbosity", VInt 0);
                    ("use_label_encoder", VBool false)] |});
    ("RF",
      {| c_kind := RandomForestClassifier;
         c_args := [("random_state", VInt 42); ("n_jobs", VInt (-1))] |});
    ("LGBM",
      {| c_kind := LGBMClassifier; c_args := [("random_state", VInt 42)] |});
    ("catboost",
      {| c_kind := CatBoostClassifier;
         c_args := [("random_seed", VInt 42); ("verbose", VBool false)] |}) ]%string.

(** [Pipeline([('balancing', ...), ('classification', ...)])]; [applied]
    holds what [set_params] has set since, empty for a pipeline left at the
    defaults of its prototypes. *)
Record pipeline : Type := {
  balancing : resampler;
  classification : classifier;
  applied : paramdict
}.

Definition new_pipeline (bal_alg alg : string) : result pipeline :=
  (b <- dict_getitem String.eqb balance_dict bal_alg ;;
   c <- dict_getitem String.eqb classificator_dict alg ;;
   Ok {| balancing := b; classification := c; applied := [] |})%result.

(** [estimator.set_params], called with the dictionary unpacked as keyword
    arguments.  The names come from the search-space table of the
    resampler and are taken to be parameters it has, so the call does not
    raise. *)
Definition set_params (est : pipeline) (params : paramdict) : pipeline :=
  {| balancing := balancing est;
     classification := classification est;
     applied := fold_left (fun d kv => dict_set String.eqb d (fst kv) (snd kv))
                  params (applied est) |}.

(** ** Splitters *)

Inductive splitter : Type :=
| StratifiedShuffleSplit (n_splits : Z) (test_size : Q) (random_state : Z)
| StratifiedKFold (n_splits : Z) (shuffle : bool) (random_state : Z).

Definition get_n_splits (skf : splitter) : Z :=
  match skf with
  | StratifiedShuffleSplit n _ _ => n
  | StratifiedKFold n _ _ => n
  end.

Definition fold : Type := (list nat * list nat)%type.

(** ** The world: log of external calls, clock, and the heap of shared
       parameter dictionaries *)

Inductive event : Type :=
| EvSplit (skf : splitter)
| EvFmin (bal_alg alg : string) (timeout : Z)
| EvSetParams (params : paramdict)
| EvFit (est : pipeline)
| EvPredict (proba : bool)
| EvAbbFit
| EvAbbPredict (proba : bool)
| EvPrint (line : string).

Definition ref : Type := nat.

Record world : Type := {
  log : list event;
  now_calls : nat;
  heap : list paramdict
}.

Definition empty_world : world := {| log := []; now_calls := 0; heap := [] |}.

Definition M (A : Type) : Type := world -> result A * world.

Definition ret {A} (a : A) : M A := fun w => (Ok a, w).
Definition raise {A} (e : exn) : M A := fun w => (Raise e, w).

Definition bind {A B} (m : M A) (k : A -> M B) : M B :=
  fun w =>
    match m w with
    | (Ok a, w') => k a w'
    | (Raise e, w') => (Raise e, w')
    end.

Definition lift {A} (r : result A) : M A := fun w => (r, w).

(** [try: body except: handler] with a bare [except]. *)
Definition try_except {A} (body : M A) (handler : M A) : M A :=
  fun w =>
    match body w with
    | (Ok a, w') => (Ok a, w')
    | (Raise _, w') => handler w'
    end.

Declare Scope m_scope.
Delimit Scope m_scope with M.
Notation "x <- e ;; k" := (bind e (fun x => k))
  (at level 61, e at next level, right associativity) : m_scope.
Notation "' pat <- e ;; k" := (bind e (fun x => match x with pat => k end))
  (at level 61, pat pattern, e at next level, right associativity) : m_scope.
Notation "e ;;; k" := (bind e (fun _ => k))
  (at level 61, right associativity) : m_scope.

Definition emit (e : event) : M unit :=
  fun w => (Ok tt, {| log := log w ++ [e]; now_calls := now_calls w; heap := heap w |}).

Definition alloc (d : paramdict) : M ref :=
  fun w => (Ok (List.length (heap w)),
            {| log := log w; now_calls := now_calls w; heap := heap w ++ [d] |}).

Definition load (r : ref) : M paramdict :=
  fun w => (getitem (heap w) r, w).

Fixpoint list_update {A} (l : list A) (i : nat) (a : A) : list A :=
  match l, i with
  | [], _ => []
  | _ :: l', O => a :: l'
  | b :: l', S i' => b :: list_update l' i' a
  end.

Definition store (r : ref) (d : paramdict) : M unit :=
  fun w => (Ok tt, {| log := log w; now_calls := now_calls w;
                      heap := list_update (heap w) r d |}).

(** [params[k] = v] on the shared dictionary behind [r]. *)
Definition setitem (r : ref) (k : string) (v : pyval) : M unit :=
  (d <- load r ;; store r (dict_set String.eqb d k v))%M.

Fixpoint for_each {A St} (l : list A) (body : A -> St -> M St) (s : St) : M St :=
  match l with
  | [] => ret s
  | a :: l' => (s' <- body a s ;; for_each l' body s')%M
  end.

(** ** External collaborators *)

Inductive prediction : Type :=
| PredLabels (l : labels)
| PredProba (p : list (list Q))
| PredColumn (c : list Q).

(** Search-space entries: [hp.uniform(label, low, high)], or an entry of the
    pickled table. *)
Inductive hp_expr : Type :=
| HpUniform (label : string) (low high : pyfloat)
| HpTable (id : nat).

Definition space : Type := list (string * hp_expr).

(** What the engine consumes from scikit-learn, imbalanced-learn, the
    classifiers, hyperopt, [random], [datetime] and [check_tools].  Every
    one is a function of its arguments (fixed seeds). *)
Class Externals : Type := {
  scaler : Type;
  fitted : Type;
  abb_model : Type;
  (** [skf.split(x, y)] validates the data and then yields [n_splits] index
      pairs; [split_nth] is the pair yielded at a position. *)
  split_check : splitter -> matrix -> labels -> result unit;
  split_nth : splitter -> matrix -> labels -> nat -> fold;
  standard_scaler_fit : matrix -> result scaler;
  standard_scaler_transform : scaler -> matrix -> result matrix;
  pipeline_fit : pipeline -> matrix -> labels -> result fitted;
  pipeline_predict : fitted -> matrix -> result labels;
  pipeline_predict_proba : fitted -> matrix -> result (list (list Q));
  f1_score : labels -> prediction -> string -> result Q;
  accuracy_score : labels -> prediction -> result Q;
  roc_auc_score : labels -> prediction -> result Q;
  log_loss : labels -> prediction -> result Q;
  abb_fit : matrix -> labels -> result abb_model;
  abb_predict : abb_model -> matrix -> result labels;
  abb_predict_proba : abb_model -> matrix -> result (list (list Q));
  (** The pickled table of search spaces, one per resampler label. *)
  space_dict : list (string * space);
  (** [fmin] allocates a parameter dictionary per trial and hands it to the
      objective. *)
  fmin : (ref -> M pyfloat) -> space -> Z -> M paramdict;
  space_eval : space -> paramdict -> result paramdict;
  (** The reading of the clock at its n-th call. *)
  clock : nat -> Z;
  (** [random.seed(42); random.sample(list(range(n)), k)[i]]. *)
  mt_sample : Z -> Z -> nat -> Z;
  check_x_y : matrix -> labels -> result unit;
  np_percentile : list Q -> Q -> pyfloat
}.

Section Engine.
Context {ext : Externals}.

Open Scope string_scope.
Open Scope list_scope.
Open Scope m_scope.

Definition now : M Z :=
  fun w => (Ok (clock (now_calls w)),
            {| log := log w; now_calls := S (now_calls w); heap := heap w |}).

Definition skf_split (skf : splitter) (x : matrix) (y : labels) : M (list fold) :=
  emit (EvSplit skf) ;;;
  lift (split_check skf x y) ;;;
  ret (map (split_nth skf x y) (seq 0 (Z.to_nat (get_n_splits skf)))).

(** [random.sample] refuses a negative size and a size larger than the
    population. *)
Definition random_sample (population k : Z) : result (list Z) :=
  if (k <? 0)%Z || (population <? k)%Z then Raise ValueError
  else Ok (map (mt_sample population k) (seq 0 (Z.to_nat k))).

Definition call_fit (est : pipeline) (x : matrix) (y : labels) : M fitted :=
  emit (EvFit est) ;;; lift (pipeline_fit est x y).

Definition call_predict (f : fitted) (x : matrix) : M prediction :=
  emit (EvPredict false) ;;;
  l <- lift (pipeline_predict f x) ;; ret (PredLabels l).

Definition call_predict_proba (f : fitted) (x : matrix) : M prediction :=
  emit (EvPredict true) ;;;
  p <- lift (pipeline_predict_proba f x) ;; ret (PredProba p).

(** *** [get_cv_type] *)
Definition get_cv_type (split_num : Z) : string :=
  if (split_num mod 5 =? 0)%Z then "kfold" else "split".

(** *** [scale_data] *)
Definition scale_data (x_train : matrix) : result (matrix * scaler) :=
  (scaler <- standard_scaler_fit x_train ;;
   x_train_scaled <- standard_scaler_transform scaler x_train ;;
   Ok (x_train_scaled, scaler))%result.

(** *** [calc_metric] *)

(** [s.split("_")[0]]. *)
Fixpoint split_head (sep : Ascii.ascii) (s : string) : string :=
  match s with
  | EmptyString => EmptyString
  | String c s' =>
      if Ascii.eqb c sep then EmptyString else String c (split_head sep s')
  end.

(** [pred[:, 1]]. *)
Definition column1 (pred : prediction) : result prediction :=
  match pred with
  | PredProba p =>
      (c <- (fix go (rows : list (list Q)) : result (list Q) :=
               match rows with
               | [] => Ok []
               | r :: rows' =>
                   (v <- getitem r 1 ;; vs <- go rows' ;; Ok (v :: vs))
               end) p ;;
       Ok (PredColumn c))%result
  | _ => Raise IndexError
  end.

Definition calc_metric (y_test : labels) (pred : prediction) (metric : string)
  : result Q :=
  if split_head "_"%char metric =? "f1" then
    if metric =? "f1_macro" then f1_score y_test pred "macro"
    else if metric =? "f1_micro" then f1_score y_test pred "micro"
    else if metric =? "f1_weighted" then f1_score y_test pred "weighted"
    else Raise UnboundLocalError
  else if metric =? "accuracy" then accuracy_score y_test pred
  else if metric =? "roc_auc" then
    if (List.length (fst (np_unique_counts y_test)) =? 2)%nat then
      (c <- column1 pred ;; roc_auc_score y_test c)%result
    else roc_auc_score y_test pred
  else if metric =? "log_loss" then log_loss y_test pred
  else Raise UnboundLocalError.

Definition wants_proba (metric : string) : bool :=
  (metric =? "roc_auc") || (metric =? "log_loss").

(** *** [calc_pipeline_acc] *)

(** The [if ... elif ...] that turns a neighbour count into an integer, on
    the shared dictionary. *)
Definition coerce_neighbors_shared (params : ref) : M unit :=
  d <- load params ;;
  if dict_mem String.eqb d "balancing__k_neighbors" then
    v <- lift (dict_getitem String.eqb d "balancing__k_neighbors") ;;
    n <- lift (py_int v) ;;
    setitem params "balancing__k_neighbors" (VInt n)
  else if dict_mem String.eqb d "balancing__n_neighbors" then
    v <- lift (dict_getitem String.eqb d "balancing__n_neighbors") ;;
    n <- lift (py_int v) ;;
    setitem params "balancing__n_neighbors" (VInt n)
  else ret tt.

(** The body of [if count == 0:]. *)
Definition correct_on_first_fold (params : ref) (y_train : labels)
    (bal_alg : string) : M unit :=
  let count_class := np_unique_counts y_train in
  d <- load params ;;
  v <- lift (dict_getitem String.eqb d "balancing__sampling_strategy") ;;
  ss <- lift (as_float v) ;;
  ss_corr <- lift (get_sampl_strat_for_case ss count_class bal_alg) ;;
  setitem params "balancing__sampling_strategy" (of_strategy ss_corr) ;;;
  coerce_neighbors_shared params.

(** The [try] block: fit, predict, score. *)
Definition fit_and_score (estimator : pipeline) (scaler : scaler)
    (x_train_scaled : matrix) (y_train : labels) (x_test : matrix)
    (y_test : labels) (metric : string) : M pyfloat :=
  f <- call_fit estimator x_train_scaled y_train ;;
  x_test_scaled <- lift (standard_scaler_transform scaler x_test) ;;
  if wants_proba metric then
    pred <- call_predict_proba f x_test_scaled ;;
    s <- lift (calc_metric y_test pred metric) ;;
    ret (Fin s)
  else
    pred <- call_predict f x_test_scaled ;;
    s <- lift (calc_metric y_test pred metric) ;;
    ret (Fin s).

(** The [except] block. *)
Definition worst_score (metric : string) : pyfloat :=
  if metric =? "log_loss" then PInf else Fin 0.

(** One iteration of the loop over the five internal folds, up to the
    [try]: slicing, the pipeline, the correction on the first fold,
    [set_params], scaling. *)
Definition prepare_fold (params : ref) (x : matrix) (y : labels)
    (bal_alg alg : string) (fd : fold) (count : Z)
  : M (pipeline * scaler * matrix * labels * matrix * labels) :=
  let '(train_index, test_index) := fd in
  x_train <- lift (np_take x train_index) ;;
  x_test <- lift (np_take x test_index) ;;
  y_train <- lift (np_take y train_index) ;;
  y_test <- lift (np_take y test_index) ;;
  estimator <- lift (new_pipeline bal_alg alg) ;;
  (if (count =? 0)%Z then correct_on_first_fold params y_train bal_alg
   else ret tt) ;;;
  d <- load params ;;
  emit (EvSetParams d) ;;;
  let estimator := set_params estimator d in
  '(x_train_scaled, scaler) <- lift (scale_data x_train) ;;
  ret (estimator, scaler, x_train_scaled, y_train, x_test, y_test).

(** The whole iteration; the loop state is [(score_list, count)]. *)
Definition calc_pipeline_acc_fold (params : ref) (x : matrix) (y : labels)
    (bal_alg alg metric : string) (fd : fold) (st : list pyfloat * Z)
  : M (list pyfloat * Z) :=
  let '(score_list, count) := st in
  '(estimator, scaler, x_train_scaled, y_train, x_test, y_test) <-
    prepare_fold params x y bal_alg alg fd count ;;
  s <- try_except
         (fit_and_score estimator scaler x_train_scaled y_train x_test y_test metric)
         (ret (worst_score metric)) ;;
  ret (score_list ++ [s], (count + 1)%Z).

(** The loop of [calc_pipeline_acc]: the list of fold scores. *)
Definition calc_pipeline_acc_scores (params : ref) (x : matrix) (y : labels)
    (bal_alg alg metric : string) : M (list pyfloat) :=
  let skf := StratifiedKFold 5 true 42 in
  folds <- skf_split skf x y ;;
  '(score_list, _) <-
    for_each folds (calc_pipeline_acc_fold params x y bal_alg alg metric) ([], 0%Z) ;;
  ret score_list.

Definition calc_pipeline_acc (params : ref) (x : matrix) (y : labels)
    (bal_alg alg metric : string) : M pyfloat :=
  score_list <- calc_pipeline_acc_scores params x y bal_alg alg metric ;;
  let score := Float.mean score_list in
  ret (if negb (metric =? "log_loss") then Float.neg score else score).

(** *** [get_balance_params] *)

Definition np_max (l : list Z) : result Z :=
  match l with
  | [] => Raise ValueError
  | a :: l' => Ok (fold_left Z.max l' a)
  end.

(** The same [if ... elif ...] on a dictionary the caller owns alone. *)
Definition coerce_neighbors (best : paramdict) : result paramdict :=
  (if dict_mem String.eqb best "balancing__k_neighbors" then
     v <- dict_getitem String.eqb best "balancing__k_neighbors" ;;
     n <- py_int v ;;
     Ok (dict_set String.eqb best "balancing__k_neighbors" (VInt n))
   else if dict_mem String.eqb best "balancing__n_neighbors" then
     v <- dict_getitem String.eqb best "balancing__n_neighbors" ;;
     n <- py_int v ;;
     Ok (dict_set String.eqb best "balancing__n_neighbors" (VInt n))
   else Ok best)%result.

Definition get_balance_params (x : matrix) (y : labels)
    (bal_alg alg : string) (hyp_time : Z) (metric : string) : M paramdict :=
  let count_class := np_unique_counts y in
  space_ds <- lift (dict_getitem String.eqb space_dict bal_alg) ;;
  min_cl_arg <- lift (np_argmin (snd count_class)) ;;
  cmin <- lift (getitem (snd count_class) min_cl_arg) ;;
  cmax <- lift (np_max (snd count_class)) ;;
  let min_class := Float.div (Float.of_Z cmin) (Float.of_Z cmax) in
  let space_ds :=
    dict_set String.eqb space_ds "balancing__sampling_strategy"
      (HpUniform "balancing__sampling_strategy" min_class (Fin 1)) in
  emit (EvFmin bal_alg alg hyp_time) ;;;
  best <- fmin (fun params => calc_pipeline_acc params x y bal_alg alg metric)
            space_ds hyp_time ;;
  best <- lift (space_eval space_ds best) ;;
  lift (coerce_neighbors best).

(** [params[key] = get_sampl_strat_for_case(params[key], ...)] on a
    dictionary the caller owns alone. *)
Definition correct_strategy (balance_params : paramdict) (y : labels)
    (bal_alg : string) : result paramdict :=
  (v <- dict_getitem String.eqb balance_params "balancing__sampling_strategy" ;;
   ss <- as_float v ;;
   ss_corr <- get_sampl_strat_for_case ss (np_unique_counts y) bal_alg ;;
   Ok (dict_set String.eqb balance_params "balancing__sampling_strategy"
         (of_strategy ss_corr)))%result.

(** *** [balance_exp] *)

Definition time_dict : Type := list (string * Z).

(** [if balance_params:] is false for [None] and for an empty mapping. *)
Definition truthy (balance_params : option paramdict) : bool :=
  match balance_params with
  | Some (_ :: _) => true
  | _ => false
  end.

Definition apply_params (est : pipeline) (balance_params : option paramdict)
  : M pipeline :=
  match balance_params with
  | Some d =>
      if truthy balance_params then
        emit (EvSetParams d) ;;; ret (set_params est d)
      else ret est
  | None => ret est
  end.

Definition balance_exp_fold (x : matrix) (y : labels) (bal_alg alg : string)
    (hyperopt_time : Z) (metric : string) (fd : fold)
    (st : list Q * list time_dict) : M (list Q * list time_dict) :=
  let '(train_index, test_index) := fd in
  let '(score_list, time_list) := st in
  let time_dict : time_dict := [] in
  x_train <- lift (np_take x train_index) ;;
  x_test <- lift (np_take x test_index) ;;
  y_train <- lift (np_take y train_index) ;;
  y_test <- lift (np_take y test_index) ;;
  balance_params <-
    (if negb (hyperopt_time =? 0)%Z then
       balance_params <- get_balance_params x_train y_train bal_alg alg
                           hyperopt_time metric ;;
       balance_params <- lift (correct_strategy balance_params y_train bal_alg) ;;
       ret (Some balance_params)
     else ret None) ;;
  '(x_train_scaled, scaler) <- lift (scale_data x_train) ;;
  estimator <- lift (new_pipeline bal_alg alg) ;;
  estimator <- apply_params estimator balance_params ;;
  t0 <- now ;;
  f <- call_fit estimator x_train_scaled y_train ;;
  t1 <- now ;;
  let time_dict := dict_set String.eqb time_dict "train_time" (t1 - t0)%Z in
  x_test_scaled <- lift (standard_scaler_transform scaler x_test) ;;
  if wants_proba metric then
    t0 <- now ;;
    pred <- call_predict_proba f x_test_scaled ;;
    t1 <- now ;;
    let time_dict := dict_set String.eqb time_dict "predict_time" (t1 - t0)%Z in
    s <- lift (calc_metric y_test pred metric) ;;
    ret (score_list ++ [s], time_list ++ [time_dict])
  else
    t0 <- now ;;
    pred <- call_predict f x_test_scaled ;;
    t1 <- now ;;
    let time_dict := dict_set String.eqb time_dict "predict_time" (t1 - t0)%Z in
    s <- lift (calc_metric y_test pred metric) ;;
    ret (score_list ++ [s], time_list ++ [time_dict]).

Definition balance_exp (x : matrix) (y : labels) (skf : splitter)
    (bal_alg alg : string) (hyperopt_time : Z) (metric : string)
  : M (list Q * list time_dict) :=
  folds <- skf_split skf x y ;;
  for_each folds (balance_exp_fold x y bal_alg alg hyperopt_time metric) ([], []).

(** *** [abb_exp] *)

Definition abb_exp_fold (x : matrix) (y : labels) (metric : string) (fd : fold)
    (st : list Q * list time_dict) : M (list Q * list time_dict) :=
  let '(train_index, test_index) := fd in
  let '(score_list, time_list) := st in
  x_train <- lift (np_take x train_index) ;;
  x_test <- lift (np_take x test_index) ;;
  y_train <- lift (np_take y train_index) ;;
  y_test <- lift (np_take y test_index) ;;
  let time_dict : time_dict := [] in
  t0 <- now ;;
  emit EvAbbFit ;;;
  model <- lift (abb_fit x_train y_train) ;;
  t1 <- now ;;
  let time_dict := dict_set String.eqb time_dict "train_time" (t1 - t0)%Z in
  if wants_proba metric then
    t0 <- now ;;
    emit (EvAbbPredict true) ;;;
    pred <- lift (abb_predict_proba model x_test) ;;
    t1 <- now ;;
    let time_dict := dict_set String.eqb time_dict "predict_time" (t1 - t0)%Z in
    s <- lift (calc_metric y_test (PredProba pred) metric) ;;
    ret (score_list ++ [s], time_list ++ [time_dict])
  else
    t0 <- now ;;
    emit (EvAbbPredict false) ;;;
    pred <- lift (abb_predict model x_test) ;;
    t1 <- now ;;
    let time_dict := dict_set String.eqb time_dict "predict_time" (t1 - t0)%Z in
    s <- lift (calc_metric y_test (PredLabels pred) metric) ;;
    ret (score_list ++ [s], time_list ++ [time_dict]).

Definition abb_exp (x : matrix) (y : labels) (skf : splitter) (metric : string)
  : M (list Q * list time_dict) :=
  folds <- skf_split skf x y ;;
  for_each folds (abb_exp_fold x y metric) ([], []).

(** *** [fit_alg] *)

(** The resampler label is [None] only for AutoBalanceBoost; a [None]
    reaching [balance_exp] fails at its first table lookup. *)
Definition run_exp (x : matrix) (y : labels) (skf : splitter)
    (bal_alg : option string) (alg : string) (hyperopt_time : Z)
    (metric : string) : M (list Q * list time_dict) :=
  if alg =? "AutoBalanceBoost" then abb_exp x y skf metric
  else
    match bal_alg with
    | Some b => balance_exp x y skf b alg hyperopt_time metric
    | None => raise KeyError
    end.

Definition fit_alg (cv_type : string) (x : matrix) (y : labels)
    (bal_alg : option string) (alg : string) (hyperopt_time split_num : Z)
    (metric : string) : M (list Q * list time_dict) :=
  let score_list : list Q := [] in
  let time_list : list time_dict := [] in
  if cv_type =? "split" then
    let skf := StratifiedShuffleSplit split_num (2 # 10) 42 in
    '(sub_score_list, sub_time_list) <-
      run_exp x y skf bal_alg alg hyperopt_time metric ;;
    ret (score_list ++ sub_score_list, time_list ++ sub_time_list)
  else
    seed_val <- lift (random_sample 100000 (split_num / 5)) ;;
    for_each seed_val
      (fun seed '(score_list, time_list) =>
         let skf := StratifiedKFold 5 true seed in
         '(sub_score_list, sub_time_list) <-
           run_exp x y skf bal_alg alg hyperopt_time metric ;;
         ret (score_list ++ sub_score_list, time_list ++ sub_time_list))
      (score_list, time_list).

(** *** [fit_res_model] *)

Inductive model : Type :=
| AutoBalanceBoost (m : abb_model)
| FittedPipeline (f : fitted).

(** [s.split(sep)]. *)
Fixpoint py_split (sep : Ascii.ascii) (s : string) : list string :=
  match s with
  | EmptyString => [EmptyString]
  | String c s' =>
      if Ascii.eqb c sep then EmptyString :: py_split sep s'
      else
        match py_split sep s' with
        | [] => [String c EmptyString]
        | w :: ws => String c w :: ws
        end
  end.

Definition fit_res_model (option_label : string) (x : matrix) (y : labels)
    (hyp_time : Z) (metric : string) : M (model * option scaler) :=
  if option_label =? "AutoBalanceBoost" then
    emit EvAbbFit ;;;
    m <- lift (abb_fit x y) ;;
    ret (AutoBalanceBoost m, None)
  else
    let ol := py_split "+"%char option_label in
    bal_alg <- lift (getitem ol 0) ;;
    alg <- lift (getitem ol 1) ;;
    balance_params <-
      (if negb (hyp_time =? 0)%Z then
         balance_params <- get_balance_params x y bal_alg alg hyp_time metric ;;
         ret (Some balance_params)
       else ret None) ;;
    '(x_scaled, scaler) <- lift (scale_data x) ;;
    model <- lift (new_pipeline bal_alg alg) ;;
    model <-
      (match balance_params with
       | Some d =>
           if truthy balance_params then
             d <- lift (correct_strategy d y bal_alg) ;;
             emit (EvSetParams d) ;;;
             ret (set_params model d)
           else ret model
       | None => ret model
       end) ;;
    f <- call_fit model x_scaled y ;;
    ret (FittedPipeline f, Some scaler).

(** *** [choose_and_fit_ilc] *)

(** [sorted(items, key=lambda item: item[1])]: a stable sort that uses
    only [<] on the keys; with [reverse=True] the list is reversed, sorted
    and reversed again, which keeps equal keys in their original order. *)
Fixpoint insert_by {A} (key : A -> pyfloat) (a : A) (l : list A) : list A :=
  match l with
  | [] => [a]
  | b :: l' =>
      if Float.ltb (key b) (key a) then b :: insert_by key a l'
      else a :: b :: l'
  end.

Definition sort_by {A} (key : A -> pyfloat) (l : list A) : list A :=
  fold_right (insert_by key) [] l.

Definition py_sorted {A} (key : A -> pyfloat) (reverse : bool) (l : list A)
  : list A :=
  if reverse then rev (sort_by key (rev l)) else sort_by key l.

(** [{k: v for k, v in items}]. *)
Definition dict_of_items {V} (items : list (string * V)) : list (string * V) :=
  fold_left (fun d kv => dict_set String.eqb d (fst kv) (snd kv)) items [].

(** Sorting a mapping by value, in the direction of the metric. *)
Definition sort_by_metric (metric : string) (d : list (string * pyfloat))
  : list (string * pyfloat) :=
  if metric =? "log_loss" then dict_of_items (py_sorted snd false d)
  else dict_of_items (py_sorted snd true d).

Definition scores_dict : Type := list (string * list Q).
Definition times_dict : Type := list (string * list time_dict).

(** What an attribute or a tuple component can hold. *)
Inductive obj : Type :=
| OModel (m : model)
| OStr (s : string)
| OFloat (f : pyfloat)
| OScaler (s : option scaler)
| OScores (d : scores_dict)
| OTimes (d : times_dict)
| OInterval (low high : pyfloat).

Record ilc : Type := {
  classifer_ : option obj;
  classifer_label_ : option obj;
  split_num : Z;
  hyperopt_time : Z;
  score_ : option obj;
  scaler_ : option obj;
  evaluated_models_scores_ : option obj;
  evaluated_models_time_ : option obj;
  eval_metric : string
}.

(** The assignments of [__init__]; the validation of the three settings
    lives in [check_tools]. *)
Definition ilc_init (split_num hyperopt_time : Z) (eval_metric : string) : ilc :=
  {| classifer_ := None;
     classifer_label_ := None;
     split_num := split_num;
     hyperopt_time := hyperopt_time;
     score_ := None;
     scaler_ := None;
     evaluated_models_scores_ := None;
     evaluated_models_time_ := None;
     eval_metric := eval_metric |}.

Definition np_mean_scores (score_list : list Q) : pyfloat :=
  Float.mean (map Fin score_list).

(** The state of the enumeration: [res_dict], [score_dict], [time_dict]
    and [option_list]. *)
Record tables : Type := {
  res_dict : list (string * pyfloat);
  score_dict : scores_dict;
  time_dict_ : times_dict;
  option_list : list string
}.

Definition record_option (label : string) (score_list : list Q)
    (time_list : list time_dict) (t : tables) : tables :=
  let option_list := option_list t ++ [label] in
  {| res_dict := dict_set String.eqb (res_dict t) label (np_mean_scores score_list);
     score_dict := dict_set String.eqb (score_dict t) label score_list;
     time_dict_ := dict_set String.eqb (time_dict_ t) label time_list;
     option_list := option_list |}.

Definition classifier_labels : list string := ["catboost"; "RF"; "LGBM"; "XGB"].
Definition resampler_labels : list string :=
  ["RandomOverSampler"; "SMOTE"; "RandomUnderSampler"; "ADASYN"].

(** The two nested loops and the run of the dedicated classifier. *)
Definition evaluate_options (self : ilc) (x : matrix) (y : labels) : M tables :=
  let cv_type := get_cv_type (split_num self) in
  t <- for_each classifier_labels (fun alg t =>
         for_each resampler_labels (fun bal_alg t =>
           '(score_list, time_list) <-
             fit_alg cv_type x y (Some bal_alg) alg (hyperopt_time self)
               (split_num self) (eval_metric self) ;;
           ret (record_option (String.append bal_alg (String.append "+" alg))
                  score_list time_list t)) t)
       {| res_dict := []; score_dict := []; time_dict_ := []; option_list := [] |} ;;
  '(score_list, time_list) <-
    fit_alg cv_type x y None "AutoBalanceBoost" (hyperopt_time self)
      (split_num self) (eval_metric self) ;;
  ret (record_option "AutoBalanceBoost" score_list time_list t).

Definition choose_and_fit_ilc (self : ilc) (x : matrix) (y : labels)
  : M (list obj) :=
  t <- evaluate_options self x y ;;
  let res_dict := sort_by_metric (eval_metric self) (res_dict t) in
  option_label <- lift (getitem (map fst res_dict) 0) ;;
  score <- lift (getitem (map snd res_dict) 0) ;;
  '(classifier, scaler) <-
    fit_res_model option_label x y (hyperopt_time self) (eval_metric self) ;;
  series <- lift (dict_getitem String.eqb (score_dict t) option_label) ;;
  let conf_int :=
    OInterval (np_percentile series (25 # 10)) (np_percentile series (975 # 10)) in
  ret [OModel classifier; OStr option_label; OFloat score; OScaler scaler;
       OScores (score_dict t); OTimes (time_dict_ t); conf_int].

(** *** [ImbalancedLearningClassifier.fit] *)

(** Assigning a tuple to six targets: the length is checked before any
    target is stored. *)
Definition unpack6 (t : list obj) : result (obj * obj * obj * obj * obj * obj) :=
  match t with
  | [a; b; c; d; e; f] => Ok (a, b, c, d, e, f)
  | _ => Raise ValueError
  end.

Definition str_of (o : option obj) : result string :=
  match o with
  | Some (OStr s) => Ok s
  | _ => Raise TypeError
  end.

Definition fit (self : ilc) (X : matrix) (y : labels) : M ilc :=
  lift (check_x_y X y) ;;;
  t0 <- now ;;
  t <- choose_and_fit_ilc self X y ;;
  '(a, b, c, d, e, f) <- lift (unpack6 t) ;;
  let self :=
    {| classifer_ := Some a;
       classifer_label_ := Some b;
       split_num := split_num self;
       hyperopt_time := hyperopt_time self;
       score_ := Some c;
       scaler_ := Some d;
       evaluated_models_scores_ := Some e;
       evaluated_models_time_ := Some f;
       eval_metric := eval_metric self |} in
  label <- lift (str_of (classifer_label_ self)) ;;
  emit (EvPrint (String.append "The best generative model is " label)) ;;;
  emit (EvPrint (String.append "Leader " (String.append (eval_metric self) " score: "))) ;;;
  t1 <- now ;;
  emit (EvPrint "Fitting time: ") ;;;
  ret self.

(** *** [calc_leaderboard] *)

(** [scipy.stats.rankdata(a, method='dense')]: one plus the number of
    distinct values below. *)
Fixpoint distinct (l : list Q) : list Q :=
  match l with
  | [] => []
  | a :: l' => if existsb (Qeq_bool a) l' then distinct l' else a :: distinct l'
  end.

Definition rankdata_dense (a : list Q) : list Z :=
  map (fun v =>
         (1 + Z.of_nat (List.length
                          (distinct (filter (fun u => negb (Qle_bool v u)) a))))%Z)
      a.

(** [sub_rank_list[i].append(v)]. *)
Fixpoint append_at {A} (rows : list (list A)) (i : nat) (v : A)
  : result (list (list A)) :=
  match rows, i with
  | [], _ => Raise IndexError
  | r :: rows', O => Ok ((r ++ [v]) :: rows')
  | r :: rows', S i' =>
      (rows'' <- append_at rows' i' v ;; Ok (r :: rows''))%result
  end.

(** [np.array(rows)]: the rows must have one length. *)
Definition np_array2 (rows : list (list Z)) : result (list (list Z)) :=
  match rows with
  | [] => Ok []
  | r :: rows' =>
      if forallb (fun r' => (List.length r' =? List.length r)%nat) rows'
      then Ok rows else Raise ValueError
  end.

(** The entries at position [i] of every row. *)
Fixpoint take_column (rows : list (list Z)) (i : nat) : result (list Z) :=
  match rows with
  | [] => Ok []
  | r :: rows' =>
      (v <- getitem r i ;; vs <- take_column rows' i ;; Ok (v :: vs))%result
  end.

(** [model_rank[:, i]]; an array built from no row has one axis only. *)
Definition np_column (a : list (list Z)) (i : nat) : result (list Z) :=
  match a with
  | [] => Raise IndexError
  | _ => take_column a i
  end.

Fixpoint map2 {A B C} (f : A -> B -> C) (a : list A) (b : list B) : list C :=
  match a, b with
  | u :: a', v :: b' => f u v :: map2 f a' b'
  | _, _ => []
  end.

(** An elementwise operation on two arrays, with broadcasting of a
    one-element array. *)
Definition np_elementwise (f : pyfloat -> pyfloat -> pyfloat)
    (a b : list pyfloat) : result (list pyfloat) :=
  if (List.length a =? List.length b)%nat then Ok (map2 f a b)
  else
    match a, b with
    | _, [v] => Ok (map (fun u => f u v) a)
    | [u], _ => Ok (map (f u) b)
    | _, _ => Raise ValueError
    end.

Definition leaderboard : Type := list (string * list (string * pyfloat)).

Definition scores_of (self : ilc) : result scores_dict :=
  match evaluated_models_scores_ self with
  | Some (OScores d) => Ok d
  | _ => Raise AttributeError
  end.

(** The body of the first loop: the mean of one candidate and its scores
    appended to the per-fold columns to rank. *)
Definition collect_step (self : ilc) (scores : scores_dict)
    (st : list (string * pyfloat) * list (list Q)) (el : string)
  : result (list (string * pyfloat) * list (list Q)) :=
  (let '(mean_dict, sub_rank_list) := st in
   series <- dict_getitem String.eqb scores el ;;
   let mean_dict := dict_set String.eqb mean_dict el (np_mean_scores series) in
   sub_rank_list <-
     for_enumerate series
       (fun i val sub_rank_list =>
          if eval_metric self =? "log_loss"
          then append_at sub_rank_list i val
          else append_at sub_rank_list i (- val)%Q)
       sub_rank_list ;;
   Ok (mean_dict, sub_rank_list))%result.

(** The first loop. *)
Definition collect_means_and_columns (self : ilc) (scores : scores_dict)
  : result (list (string * pyfloat) * list (list Q)) :=
  fold_left
    (fun acc el => (st <- acc ;; collect_step self scores st el)%result)
    (map fst scores)
    (Ok ([], repeat [] (Z.to_nat (split_num self)))).

Record board : Type := {
  rank_dict : list (string * pyfloat);
  leader_share : list (string * pyfloat);
  diff_dict : list (string * pyfloat)
}.

Definition count_ones (col : list Z) : nat :=
  List.length (filter (fun r => (r =? 1)%Z) col).

(** The body of the second loop: mean rank, share of first places and, for
    every candidate but the leader, the gap to the leader. *)
Definition board_step (scores : scores_dict) (leader : string)
    (model_rank : list (list Z)) (i : nat) (el : string) (b : board) : result board :=
  (col <- np_column model_rank i ;;
   let rank_dict :=
     dict_set String.eqb (rank_dict b) el (Float.mean (map Float.of_Z col)) in
   let leader_share :=
     dict_set String.eqb (leader_share b) el
       (Float.mul (Float.div (Float.of_nat (count_ones col))
                     (Float.of_nat (List.length model_rank)))
          (Float.of_Z 100)) in
   if negb (el =? leader) then
     s_el <- dict_getitem String.eqb scores el ;;
     s_leader <- dict_getitem String.eqb scores leader ;;
     d <- np_elementwise Float.sub (map Fin s_el) (map Fin s_leader) ;;
     d <- np_elementwise Float.div d (map Fin s_leader) ;;
     let diff := map (fun v => Float.mul v (Float.of_Z 100)) d in
     Ok {| rank_dict := rank_dict; leader_share := leader_share;
           diff_dict := dict_set String.eqb (diff_dict b) el (Float.mean diff) |}
   else
     Ok {| rank_dict := rank_dict; leader_share := leader_share;
           diff_dict := diff_dict b |})%result.

(** The second loop. *)
Definition collect_board (scores : scores_dict) (leader : string)
    (model_rank : list (list Z)) : result board :=
  for_enumerate (map fst scores) (board_step scores leader model_rank)
    {| rank_dict := []; leader_share := []; diff_dict := [] |}.

Definition calc_leaderboard (self : ilc) : result leaderboard :=
  (scores <- scores_of self ;;
   '(mean_dict, sub_rank_list) <- collect_means_and_columns self scores ;;
   let mean_dict := sort_by_metric (eval_metric self) mean_dict in
   leader <- getitem (map fst mean_dict) 0 ;;
   let ls := dict_set String.eqb [] "Mean score" mean_dict in
   model_rank <- np_array2 (map rankdata_dense sub_rank_list) ;;
   b <- collect_board scores leader model_rank ;;
   let rank_dict := dict_of_items (py_sorted snd false (rank_dict b)) in
   let leader_share := dict_of_items (py_sorted snd true (leader_share b)) in
   let diff_dict := dict_of_items (py_sorted snd true (diff_dict b)) in
   let ls := dict_set String.eqb ls "Mean rank" rank_dict in
   let ls := dict_set String.eqb ls "Share of experiments with the first place, %"
               leader_share in
   let ls := dict_set String.eqb ls "Average difference with the leader, %"
               diff_dict in
   Ok ls)%result.

End Engine.

(** * Vocabulary of the statements *)

(** What [numpy.unique(y, return_counts=True)] returns: distinct labels,
    one positive count for each. *)
Definition count_summary (cc : list Z * list Z) : Prop :=
  List.length (fst cc) = List.length (snd cc) /\
  NoDup (fst cc) /\
  Forall (fun c => 0 < c) (snd cc).

Definition is_min (m : Z) (l : list Z) : Prop :=
  In m l /\ forall c, In c l -> m <= c.

Definition is_max (m : Z) (l : list Z) : Prop :=
  In m l /\ forall c, In c l -> c <= m.

Definition pick (better : Z -> Z -> bool) (b a : Z) : Z :=
  if better a b then a else b.

(** The seventeen candidates, in the order of enumeration. *)
Definition candidates : list string :=
  [ "RandomOverSampler+catboost"; "SMOTE+catboost"; "RandomUnderSampler+catboost";
    "ADASYN+catboost";
    "RandomOverSampler+RF"; "SMOTE+RF"; "RandomUnderSampler+RF"; "ADASYN+RF";
    "RandomOverSampler+LGBM"; "SMOTE+LGBM"; "RandomUnderSampler+LGBM"; "ADASYN+LGBM";
    "RandomOverSampler+XGB"; "SMOTE+XGB"; "RandomUnderSampler+XGB"; "ADASYN+XGB";
    "AutoBalanceBoost" ]%string.

(** The split regime in the words of the specification: repeated 5-fold
    with derived seeds when the number of splits is divisible by 5, one
    shuffle-split with that many iterations and a 20% hold-out otherwise. *)
Definition cv_plan {ext : Externals} (split_num : Z) : list splitter :=
  if split_num mod 5 =? 0 then
    map (fun i => StratifiedKFold 5 true (mt_sample 100000 (split_num / 5) i))
      (seq 0 (Z.to_nat (split_num / 5)))
  else [StratifiedShuffleSplit split_num (2 # 10) 42].

(** Appending the series of one run to the series so far. *)
Definition append_run {ext : Externals} (x : matrix) (y : labels)
    (bal_alg : option string) (alg : string) (hyperopt_time : Z) (metric : string)
    (skf : splitter) (st : list Q * list time_dict)
  : M (list Q * list time_dict) :=
  ('(sub_score_list, sub_time_list) <-
     run_exp x y skf bal_alg alg hyperopt_time metric ;;
   ret (fst st ++ sub_score_list, snd st ++ sub_time_list))%M.

(** [on_ok P m]: whenever [m] returns normally, its value satisfies [P]. *)
Definition on_ok {A} (P : A -> Prop) (m : M A) : Prop :=
  forall w a w', m w = (Ok a, w') -> P a.

(** A loop whose body adds [c] entries to both series adds [c] entries per
    iteration. *)
Definition grows_by {S T} (c : nat) (st st' : list S * list T) : Prop :=
  List.length (fst st') = (List.length (fst st) + c)%nat /\
  List.length (snd st') = (List.length (snd st) + c)%nat.

(** [emits P m]: from every world, [m] appends to the log only events that
    satisfy [P], whether it returns or raises. *)
Definition emits {A} (P : event -> Prop) (m : M A) : Prop :=
  forall w, exists evs, log (snd (m w)) = log w ++ evs /\ Forall P evs.

(** [first_best key better l a]: [a] occurs in [l], it is better than
    everything before it and nothing after it is better: the first of the
    best entries of [l]. *)
Definition first_best {A} (key : A -> pyfloat) (better : pyfloat -> pyfloat -> bool)
    (l : list A) (a : A) : Prop :=
  exists pre post,
    l = pre ++ a :: post /\
    (forall b, In b pre -> better (key a) (key b) = true) /\
    (forall b, In b post -> better (key b) (key a) = false).


Definition finite_keys {A} (key : A -> pyfloat) (l : list A) : Prop :=
  Forall (fun a => exists q, key a = Fin q) l.

(** The mean score of every candidate of a score dictionary. *)
Definition means_of (sd : list (string * list Q)) : list (string * pyfloat) :=
  map (fun kv => (fst kv, Float.mean (map Fin (snd kv)))) sd.

(** Ascending order of the keys: [a] is not above [b]. *)
Definition not_above {A} (key : A -> pyfloat) (a b : A) : Prop :=
  Float.ltb (key b) (key a) = false.

(** The relative gap to the leader in the words of the specification: the
    mean over the folds of (candidate - leader) / leader * 100. *)
Definition gap_to_leader (candidate leader : list Q) : pyfloat :=
  Float.mean
    (map2 (fun c l =>
             Float.mul (Float.div (Float.sub (Fin c) (Fin l)) (Fin l)) (Float.of_Z 100))
       candidate leader).

(** The gaps of all candidates but the leader, in the order of the
    candidates. *)
Definition gaps_of (leader : string) (leader_series : list Q) (l : scores_dict)
  : list (string * pyfloat) :=
  map (fun kv => (fst kv, gap_to_leader (snd kv) leader_series))
    (filter (fun kv => negb (fst kv =? leader)%string) l).


(** An event of a run that tunes nothing: no search, no [set_params], and
    every fit on a pipeline left at its defaults. *)
Definition untuned (e : event) : Prop :=
  match e with
  | EvFmin _ _ _ => False
  | EvSetParams _ => False
  | EvFit est => applied est = []
  | _ => True
  end.


(** ** A small instance of the externals

    Folds hold out one row; a fitted pipeline remembers its description and
    predicts one label for every row, chosen by the classifier; a fit fails
    when [fit_fails] says so. *)
Definition demo_label (c : classifier_kind) : Z :=
  match c with
  | CatBoostClassifier => 1
  | _ => 0
  end.

Definition demo_accuracy (y : labels) (pred : prediction) : result Q :=
  match pred with
  | PredLabels l =>
      Ok (inject_Z (Z.of_nat (List.length (filter (fun p => fst p =? snd p) (combine y l))))
          / inject_Z (Z.of_nat (List.length y)))%Q
  | _ => Ok (1 # 2)
  end.

Definition demo_fold (n i : nat) : fold :=
  (filter (fun j => negb (j =? i mod n)%nat) (seq 0 n), [(i mod n)%nat]).

Definition demo_fmin (fn : ref -> M pyfloat) (sp : space) (timeout : Z) : M paramdict :=
  (let trial := [("balancing__sampling_strategy"%string, VFloat (Fin (1 # 2)))] in
   r <- alloc trial ;;
   fn r ;;;
   ret trial)%M.

Definition demo_externals (fit_fails : pipeline -> bool) : Externals :=
  {| scaler := unit;
     fitted := pipeline;
     abb_model := unit;
     split_check := fun _ _ _ => Ok tt;
     split_nth := fun _ x _ i => demo_fold (List.length x) i;
     standard_scaler_fit := fun _ => Ok tt;
     standard_scaler_transform := fun _ x => Ok x;
     pipeline_fit := fun est _ _ =>
       if fit_fails est then Raise (ExternalError "fit") else Ok est;
     pipeline_predict := fun f x =>
       Ok (map (fun _ => demo_label (c_kind (classification f))) x);
     pipeline_predict_proba := fun _ x => Ok (map (fun _ => [1 # 2; 1 # 2]) x);
     f1_score := fun y pred _ => demo_accuracy y pred;
     accuracy_score := demo_accuracy;
     roc_auc_score := demo_accuracy;
     log_loss := demo_accuracy;
     abb_fit := fun _ _ => Ok tt;
     abb_predict := fun _ x => Ok (map (fun _ => 0) x);
     abb_predict_proba := fun _ x => Ok (map (fun _ => [1 # 2; 1 # 2]) x);
     space_dict :=
       [ ("SMOTE", [("balancing__k_neighbors", HpTable 0)]);
         ("RandomOverSampler", []);
         ("ADASYN", [("balancing__n_neighbors", HpTable 1)]);
         ("RandomUnderSampler", []) ]%string;
     fmin := demo_fmin;
     space_eval := fun _ best => Ok best;
     clock := fun n => Z.of_nat n;
     mt_sample := fun _ _ i => Z.of_nat i;
     check_x_y := fun _ _ => Ok tt;
     np_percentile := fun l _ => Float.mean (map Fin l) |}.

Definition never_fails (est : pipeline) : bool := false.

Definition smote_fails (est : pipeline) : bool :=
  match r_kind (balancing est) with
  | SMOTE => true
  | _ => false
  end.

Definition demo_x : matrix :=
  [[0]; [1]; [2]; [3]; [4]; [5]]%Q.

Definition demo_y : labels := [0; 0; 0; 0; 1; 1].


(** A trial of the search: the raw ratio 1/2, in a dictionary on the heap. *)
Definition demo_params : paramdict :=
  [("balancing__sampling_strategy"%string, VFloat (Fin (1 # 2)))].

Definition demo_world : world := {| log := []; now_calls := 0; heap := [demo_params] |}.

(** The six metric names [calc_metric] knows. *)
Definition supported_metrics : list string :=
  ["accuracy"; "roc_auc"; "log_loss"; "f1_macro"; "f1_micro"; "f1_weighted"]%string.

(** What a fold of the search objective can record: a finite score, or
    +infinity, the latter only under log_loss. *)
Definition objective_score (metric : string) (s : pyfloat) : Prop :=
  (exists q, s = Fin q) \/ (metric = "log_loss"%string /\ s = PInf).

(** The events of a run of the dedicated classifier: a split, a fit or a
    prediction of AutoBalanceBoost. *)
Definition dedicated_event (e : event) : Prop :=
  match e with
  | EvSplit _ | EvAbbFit | EvAbbPredict _ => True
  | _ => False
  end.

(** [c in s]. *)
Fixpoint contains (c : Ascii.ascii) (s : string) : bool :=
  match s with
  | EmptyString => false
  | String a s' => Ascii.eqb a c || contains c s'
  end.

(** The time entry of a fold whose first clock reading is the [n]-th: the
    training time is the difference of the readings [n] and [n+1], the
    prediction time that of the readings [n+2] and [n+3]. *)
Definition time_entry_at {ext : Externals} (n : nat) : time_dict :=
  [ ("train_time"%string, clock (S n) - clock n);
    ("predict_time"%string, clock (S (S (S n))) - clock (S (S n))) ].

(** The scores of fold [j] as they are ranked: as they are when smaller is
    better (log_loss), negated otherwise. *)
Definition ranked_row (metric : string) (scores : list (string * list Q)) (j : nat)
  : list Q :=
  map (fun kv => if (metric =? "log_loss")%string then nth j (snd kv) 0%Q
                 else (- nth j (snd kv) 0)%Q) scores.

(** In fold [j] no candidate has a strictly better score than the series
    [s]: none is smaller under log_loss, none is larger otherwise. *)
Definition best_in_fold (metric : string) (scores : list (string * list Q))
    (s : list Q) (j : nat) : bool :=
  forallb (fun kv => if (metric =? "log_loss")%string
                     then Qle_bool (nth j s 0%Q) (nth j (snd kv) 0%Q)
                     else Qle_bool (nth j (snd kv) 0%Q) (nth j s 0%Q)) scores.

(** In how many of the first [n] folds the series [s] is among the best. *)
Definition first_places (metric : string) (scores : list (string * list Q))
    (s : list Q) (n : nat) : nat :=
  List.length (filter (best_in_fold metric scores s) (seq 0 n)).

(** The share of first places of the series [s] over [n] folds, in percent. *)
Definition first_place_share (metric : string) (scores : list (string * list Q))
    (n : nat) (s : list Q) : pyfloat :=
  Fin (inject_Z (Z.of_nat (first_places metric scores s n)) / inject_Z (Z.of_nat n)
       * inject_Z 100)%Q.

(** A mean rank: a finite number between 1 and the number [k] of candidates. *)
Definition rank_between (k : nat) (r : pyfloat) : Prop :=
  exists q, r = Fin q /\ (1 <= q <= inject_Z (Z.of_nat k))%Q.

(** The number of model fits in a log: fits of a pipeline and fits of
    AutoBalanceBoost. *)
Definition is_fit (e : event) : bool :=
  match e with
  | EvFit _ | EvAbbFit => true
  | _ => false
  end.

Definition fits (evs : list event) : nat := List.length (filter is_fit evs).

(** * Properties *)

(** ** Class-count summaries *)

Lemma argbest_from_pick (better : Z -> Z -> bool) (l : list Z) :
  forall i best_i best,
    (argbest_from better l i best_i best = best_i /\
     fold_left (pick better) l best = best) \/
    (exists j, argbest_from better l i best_i best = (i + j)%nat /\
               nth_error l j = Some (fold_left (pick better) l best)).
Proof.
  induction l as [|a l IH]; intros i best_i best; simpl.
  - left; split; reflexivity.
  - change (pick better best a) with (if better a best then a else best).
    destruct (better a best) eqn:E.
    + right. destruct (IH (S i) i a) as [[H1 H2] | [j [H1 H2]]].
      * exists 0%nat. rewrite H1, H2. split; [lia | reflexivity].
      * exists (S j). rewrite H1. split; [lia | exact H2].
    + destruct (IH (S i) best_i best) as [[H1 H2] | [j [H1 H2]]].
      * left. split; assumption.
      * right. exists (S j). rewrite H1. split; [lia | exact H2].
Qed.

Lemma fold_pick_min (l : list Z) (b : Z) :
  fold_left (pick Z.ltb) l b = fold_left Z.min l b.
Proof.
  revert b; induction l as [|a l IH]; intros b; simpl; [reflexivity|].
  rewrite IH. f_equal. unfold pick. destruct (Z.ltb_spec a b); lia.
Qed.

Lemma fold_pick_max (l : list Z) (b : Z) :
  fold_left (pick Z.gtb) l b = fold_left Z.max l b.
Proof.
  revert b; induction l as [|a l IH]; intros b; simpl; [reflexivity|].
  rewrite IH. f_equal. unfold pick. rewrite Z.gtb_ltb. destruct (Z.ltb_spec b a); lia.
Qed.

Lemma fold_min_is_min (l : list Z) (b : Z) : is_min (fold_left Z.min l b) (b :: l).
Proof.
  revert b; induction l as [|a l IH]; intros b; simpl.
  - split; [left; reflexivity | intros c [<- | []]; lia].
  - destruct (IH (Z.min b a)) as [Hin Hle]. split.
    + destruct Hin as [Hin | Hin]; [|right; right; exact Hin].
      rewrite <- Hin. destruct (Z.min_spec b a) as [[_ ->] | [_ ->]]; simpl; auto.
    + intros c [<- | [<- | Hc]].
      * specialize (Hle (Z.min b a) (or_introl eq_refl)). lia.
      * specialize (Hle (Z.min b a) (or_introl eq_refl)). lia.
      * apply Hle. right. exact Hc.
Qed.

Lemma fold_max_is_max (l : list Z) (b : Z) : is_max (fold_left Z.max l b) (b :: l).
Proof.
  revert b; induction l as [|a l IH]; intros b; simpl.
  - split; [left; reflexivity | intros c [<- | []]; lia].
  - destruct (IH (Z.max b a)) as [Hin Hle]. split.
    + destruct Hin as [Hin | Hin]; [|right; right; exact Hin].
      rewrite <- Hin. destruct (Z.max_spec b a) as [[_ ->] | [_ ->]]; simpl; auto.
    + intros c [<- | [<- | Hc]].
      * specialize (Hle (Z.max b a) (or_introl eq_refl)). lia.
      * specialize (Hle (Z.max b a) (or_introl eq_refl)). lia.
      * apply Hle. right. exact Hc.
Qed.

Lemma is_min_unique (l : list Z) (m m' : Z) : is_min m l -> is_min m' l -> m = m'.
Proof.
  intros [H1 H2] [H3 H4]. specialize (H2 _ H3). specialize (H4 _ H1). lia.
Qed.

Lemma is_max_unique (l : list Z) (m m' : Z) : is_max m l -> is_max m' l -> m = m'.
Proof.
  intros [H1 H2] [H3 H4]. specialize (H2 _ H3). specialize (H4 _ H1). lia.
Qed.

(** [numpy.argmin] points at the smallest count. *)
Lemma np_argmin_spec (l : list Z) (m : Z) :
  is_min m l ->
  exists i, np_argmin l = Ok i /\ nth_error l i = Some m.
Proof.
  intros Hm. destruct l as [|a l]; [destruct Hm as [[] _]|].
  assert (m = fold_left Z.min l a) as ->
    by (eapply is_min_unique; [exact Hm | apply fold_min_is_min]).
  unfold np_argmin.
  destruct (argbest_from_pick Z.ltb l 1 0 a) as [[H1 H2] | [j [H1 H2]]];
    rewrite fold_pick_min in H2.
  - exists 0%nat. rewrite H1, H2. split; reflexivity.
  - exists (S j). rewrite H1. split; [reflexivity | exact H2].
Qed.

(** [numpy.argmax] points at the largest count. *)
Lemma np_argmax_spec (l : list Z) (m : Z) :
  is_max m l ->
  exists i, np_argmax l = Ok i /\ nth_error l i = Some m.
Proof.
  intros Hm. destruct l as [|a l]; [destruct Hm as [[] _]|].
  assert (m = fold_left Z.max l a) as ->
    by (eapply is_max_unique; [exact Hm | apply fold_max_is_max]).
  unfold np_argmax.
  destruct (argbest_from_pick Z.gtb l 1 0 a) as [[H1 H2] | [j [H1 H2]]];
    rewrite fold_pick_max in H2.
  - exists 0%nat. rewrite H1, H2. split; reflexivity.
  - exists (S j). rewrite H1. split; [reflexivity | exact H2].
Qed.

Lemma rbind_ok {A B} (a : A) (k : A -> result B) : rbind (Ok a) k = k a.
Proof. reflexivity. Qed.

Lemma getitem_nth {A} (l : list A) (i : nat) (a : A) :
  nth_error l i = Some a -> getitem l i = Ok a.
Proof. unfold getitem. intros ->. reflexivity. Qed.

(** ** Rounding *)







Lemma Qle_bool_false (x y : Q) : (y < x)%Q -> Qle_bool x y = false.
Proof.
  intros H. destruct (Qle_bool x y) eqn:E; [|reflexivity].
  apply Qle_bool_iff in E. lra.
Qed.

Lemma Qle_bool_true (x y : Q) : (x <= y)%Q -> Qle_bool x y = true.
Proof. intros H. apply Qle_bool_iff. exact H. Qed.

Lemma py_max_float_fin (a b : Q) : py_max_float (Fin a) (Fin b) = Fin (Qmax a b).
Proof.
  unfold py_max_float, Float.gtb, Float.ltb, Qmax, GenericMinMax.gmax.
  destruct (Qcompare_spec a b) as [H | H | H].
  - rewrite Qle_bool_true by lra. reflexivity.
  - rewrite Qle_bool_false by lra. reflexivity.
  - rewrite Qle_bool_true by lra. reflexivity.
Qed.

(** ** Dictionaries *)






(** ** The sampling-strategy corrector *)


Lemma count_summary_pos (cc : list Z * list Z) (c : Z) :
  count_summary cc -> In c (snd cc) -> 0 < c.
Proof.
  intros [_ [_ Hpos]] Hin. rewrite Forall_forall in Hpos. apply Hpos. exact Hin.
Qed.

Lemma natural_ratio_le_1 (cmin cmax : Z) :
  0 < cmin -> cmin <= cmax -> (inject_Z cmin / inject_Z cmax <= 1)%Q.
Proof.
  intros Hpos Hle. apply Qle_shift_div_r.
  - replace 0%Q with (inject_Z 0) by reflexivity. rewrite <- Zlt_Qlt. lia.
  - rewrite Qmult_1_l. rewrite <- Zle_Qle. exact Hle.
Qed.

(** C3: with exactly two classes and a raw ratio in [0,1] the corrector
    returns the larger of the natural ratio minority/majority and the raw
    ratio, a value between the natural ratio and 1. *)
Theorem binary_correction_is_bounded_max
    (ss : Q) (cc : list Z * list Z) (balance_method : string) (cmin cmax : Z) :
  count_summary cc ->
  List.length (fst cc) = 2%nat ->
  is_min cmin (snd cc) ->
  is_max cmax (snd cc) ->
  (0 <= ss <= 1)%Q ->
  let natural := (inject_Z cmin / inject_Z cmax)%Q in
  get_sampl_strat_for_case (Fin ss) cc balance_method
    = Ok (SSFloat (Fin (Qmax natural ss))) /\
  (natural <= Qmax natural ss)%Q /\
  (Qmax natural ss <= 1)%Q.
Proof.
  intros Hcc Hlen Hmin Hmax Hss natural.
  assert (0 < cmin) as Hcmin by (eapply count_summary_pos; [exact Hcc | apply Hmin]).
  assert (cmin <= cmax) as Hle by (apply Hmax; apply Hmin).
  split; [|split].
  - destruct (np_argmin_spec Hmin) as [i [Hi Hi']].
    destruct (np_argmax_spec Hmax) as [j [Hj Hj']].
    unfold get_sampl_strat_for_case. rewrite Hi, Hj. simpl rbind.
    rewrite Hlen. simpl.
    rewrite (getitem_nth _ _ Hi'), (getitem_nth _ _ Hj'). simpl.
    unfold Float.div, Float.of_Z.
    destruct (Qeq_bool (inject_Z cmax) 0) eqn:E.
    + apply Qeq_bool_iff in E. exfalso.
      assert (inject_Z 0 < inject_Z cmax)%Q by (rewrite <- Zlt_Qlt; lia).
      change (inject_Z 0) with 0%Q in H. lra.
    + rewrite py_max_float_fin. reflexivity.
  - apply Q.le_max_l.
  - apply Q.max_lub; [apply natural_ratio_le_1; assumption | apply Hss].
Qed.

(** C9: with two classes the label of the resampler does not enter the
    result. *)
Theorem binary_correction_ignores_method
    (ss : pyfloat) (cc : list Z * list Z) (method1 method2 : string) :
  List.length (fst cc) = 2%nat ->
  get_sampl_strat_for_case ss cc method1 = get_sampl_strat_for_case ss cc method2.
Proof.
  intros Hlen. unfold get_sampl_strat_for_case.
  destruct (np_argmin (snd cc)); [|reflexivity].
  destruct (np_argmax (snd cc)); [|reflexivity].
  simpl rbind. rewrite Hlen. reflexivity.
Qed.




Lemma binary_correction_is_bounded_max_witness :
  get_sampl_strat_for_case (Fin (1 # 2)) ([0; 1], [10; 2]) "SMOTE"
    = Ok (SSFloat (Fin (Qmax (inject_Z 2 / inject_Z 10) (1 # 2)))) /\
  (inject_Z 2 / inject_Z 10 <= Qmax (inject_Z 2 / inject_Z 10) (1 # 2))%Q /\
  (Qmax (inject_Z 2 / inject_Z 10) (1 # 2) <= 1)%Q.
Proof.
  apply (@binary_correction_is_bounded_max (1 # 2) ([0; 1], [10; 2]) "SMOTE" 2 10).
  - split; [reflexivity | split].
    + repeat constructor; simpl; intuition discriminate.
    + repeat constructor.
  - reflexivity.
  - split; [simpl; auto | intros c [<- | [<- | []]]; lia].
  - split; [simpl; auto | intros c [<- | [<- | []]]; lia].
  - split; discriminate.
Defined.

Lemma binary_correction_ignores_method_witness :
  get_sampl_strat_for_case (Fin (1 # 2)) ([0; 1], [10; 2]) "SMOTE"
    = get_sampl_strat_for_case (Fin (1 # 2)) ([0; 1], [10; 2]) "RandomUnderSampler".
Proof.
  apply (@binary_correction_ignores_method (Fin (1 # 2)) ([0; 1], [10; 2])).
  reflexivity.
Defined.







(** ** Reasoning about computations in [M] *)

Lemma bind_ok_inv {A B} (m : M A) (k : A -> M B) (w w' : world) (b : B) :
  bind m k w = (Ok b, w') ->
  exists a w1, m w = (Ok a, w1) /\ k a w1 = (Ok b, w').
Proof.
  unfold bind. destruct (m w) as [[a | e] w1]; intros H.
  - exists a, w1. split; [reflexivity | exact H].
  - discriminate.
Qed.

Lemma bind_ok {A B} (m : M A) (k : A -> M B) (w w1 : world) (a : A) :
  m w = (Ok a, w1) -> bind m k w = k a w1.
Proof. unfold bind. intros ->. reflexivity. Qed.

Lemma bind_raise {A B} (m : M A) (k : A -> M B) (w w1 : world) (e : exn) :
  m w = (Raise e, w1) -> bind m k w = (Raise e, w1).
Proof. unfold bind. intros ->. reflexivity. Qed.

Lemma on_ok_bind {A B} (P : B -> Prop) (m : M A) (k : A -> M B) :
  (forall a, on_ok P (k a)) -> on_ok P (bind m k).
Proof.
  intros Hk w b w' H. apply bind_ok_inv in H. destruct H as (a & w1 & _ & H).
  exact (Hk a _ _ _ H).
Qed.

Lemma on_ok_ret {A} (P : A -> Prop) (a : A) : P a -> on_ok P (ret a).
Proof. intros Ha w a' w' H. injection H as <- _. exact Ha. Qed.

Lemma for_each_grows {A S T} (c : nat) (l : list A)
    (body : A -> list S * list T -> M (list S * list T)) :
  (forall a st, In a l -> on_ok (grows_by c st) (body a st)) ->
  forall st, on_ok (grows_by (c * List.length l) st) (for_each l body st).
Proof.
  induction l as [|a l IH]; intros Hbody st; simpl.
  - apply on_ok_ret. unfold grows_by. rewrite Nat.mul_0_r, !Nat.add_0_r. auto.
  - intros w st' w' H. apply bind_ok_inv in H. destruct H as (st1 & w1 & H1 & H).
    apply (Hbody a st (or_introl eq_refl)) in H1.
    apply IH in H; [|intros; apply Hbody; right; assumption].
    unfold grows_by in *. destruct H1, H. split; lia.
Qed.

Lemma for_each_ext {A St} (l : list A) (body body' : A -> St -> M St) :
  (forall a s w, body a s w = body' a s w) ->
  forall s w, for_each l body s w = for_each l body' s w.
Proof.
  intros Hext. induction l as [|a l IH]; intros s w; simpl; [reflexivity|].
  unfold bind. rewrite Hext. destruct (body' a s w) as [[s' | e] w1]; [apply IH | reflexivity].
Qed.

Lemma for_each_map {A B St} (f : A -> B) (l : list A) (body : B -> St -> M St) :
  forall s w, for_each (map f l) body s w = for_each l (fun a => body (f a)) s w.
Proof.
  induction l as [|a l IH]; intros s w; simpl; [reflexivity|].
  unfold bind. destruct (body (f a) s w) as [[s' | e] w1]; [apply IH | reflexivity].
Qed.

(** A loop returns when every iteration does. *)
Lemma for_each_returns {A St} (l : list A) (body : A -> St -> M St) :
  (forall a s w, In a l -> exists s' w', body a s w = (Ok s', w')) ->
  forall s w, exists s' w', for_each l body s w = (Ok s', w').
Proof.
  induction l as [|a l IH]; intros Hbody s w; simpl.
  - exists s, w. reflexivity.
  - destruct (Hbody a s w (or_introl eq_refl)) as (s1 & w1 & H1).
    erewrite bind_ok by exact H1. apply IH. intros; apply Hbody; right; assumption.
Qed.

Ltac on_ok_steps :=
  repeat first
    [ apply on_ok_bind; intros ?
    | match goal with
      | |- on_ok _ (match ?p with pair _ _ => _ end) => destruct p
      | |- on_ok _ (if ?c then _ else _) => destruct c
      end ].

Ltac grows_by_one :=
  apply on_ok_ret; unfold grows_by; simpl; rewrite !length_app; simpl; split; lia.

(** ** The cross-validation orchestrator *)

Section Orchestrator.
Context {ext : Externals}.
Variables (x : matrix) (y : labels).

Lemma balance_exp_fold_grows (bal_alg alg : string) (hyperopt_time : Z)
    (metric : string) (fd : fold) (st : list Q * list time_dict) :
  on_ok (grows_by 1 st) (balance_exp_fold x y bal_alg alg hyperopt_time metric fd st).
Proof.
  unfold balance_exp_fold. destruct fd as [train_index test_index], st as [sl tl].
  on_ok_steps; grows_by_one.
Qed.

Lemma abb_exp_fold_grows (metric : string) (fd : fold) (st : list Q * list time_dict) :
  on_ok (grows_by 1 st) (abb_exp_fold x y metric fd st).
Proof.
  unfold abb_exp_fold. destruct fd as [train_index test_index], st as [sl tl].
  on_ok_steps; grows_by_one.
Qed.

Lemma skf_split_length (skf : splitter) :
  on_ok (fun folds => List.length folds = Z.to_nat (get_n_splits skf)) (skf_split skf x y).
Proof.
  unfold skf_split. on_ok_steps. apply on_ok_ret.
  rewrite length_map, length_seq. reflexivity.
Qed.

(** One cross-validation run yields one score and one timing per fold of
    its splitter. *)
Lemma run_exp_length (skf : splitter) (bal_alg : option string) (alg : string)
    (hyperopt_time : Z) (metric : string) :
  on_ok (fun r => List.length (fst r) = Z.to_nat (get_n_splits skf) /\
                  List.length (snd r) = Z.to_nat (get_n_splits skf))
        (run_exp x y skf bal_alg alg hyperopt_time metric).
Proof.
  assert (forall body : fold -> list Q * list time_dict -> M (list Q * list time_dict),
            (forall fd st, on_ok (grows_by 1 st) (body fd st)) ->
            on_ok (fun r => List.length (fst r) = Z.to_nat (get_n_splits skf) /\
                            List.length (snd r) = Z.to_nat (get_n_splits skf))
                  (folds <- skf_split skf x y ;; for_each folds body ([], []))%M) as Hloop.
  { intros body Hbody w r w' H. apply bind_ok_inv in H.
    destruct H as (folds & w1 & Hf & H). apply skf_split_length in Hf.
    apply (@for_each_grows _ _ _ 1%nat) in H; [|intros; apply Hbody].
    destruct H as [H1 H2]. simpl in H1, H2. rewrite Hf in H1, H2. split; lia. }
  unfold run_exp. destruct (alg =? "AutoBalanceBoost")%string.
  - apply Hloop. apply abb_exp_fold_grows.
  - destruct bal_alg as [b|].
    + apply Hloop. apply balance_exp_fold_grows.
    + intros w r w' H. discriminate.
Qed.

Variables (bal_alg : option string) (alg : string) (hyperopt_time : Z) (metric : string).

Lemma append_run_grows (skf : splitter) (st : list Q * list time_dict) :
  on_ok (grows_by (Z.to_nat (get_n_splits skf)) st)
        (append_run x y bal_alg alg hyperopt_time metric skf st).
Proof.
  intros w r w' H. unfold append_run in H. apply bind_ok_inv in H.
  destruct H as ([s t] & w1 & Hr & H). apply run_exp_length in Hr.
  injection H as <- _. destruct Hr as [H1 H2]. simpl in H1, H2.
  unfold grows_by. simpl. rewrite !length_app. lia.
Qed.

Lemma random_sample_ok (k : Z) :
  0 <= k <= 100000 ->
  random_sample 100000 k = Ok (map (mt_sample 100000 k) (seq 0 (Z.to_nat k))).
Proof.
  intros Hk. unfold random_sample.
  destruct (Z.ltb_spec k 0); [lia|]. destruct (Z.ltb_spec 100000 k); [lia|]. reflexivity.
Qed.

(** [fit_alg] is the loop over the splitters of the plan. *)
Lemma fit_alg_runs_plan (split_num : Z) (w : world) :
  (split_num mod 5 = 0 -> 0 <= split_num / 5 <= 100000) ->
  fit_alg (get_cv_type split_num) x y bal_alg alg hyperopt_time split_num metric w
    = for_each (cv_plan split_num) (append_run x y bal_alg alg hyperopt_time metric)
        ([], []) w.
Proof.
  intros Hbound. unfold fit_alg, get_cv_type, cv_plan.
  destruct (Z.eqb_spec (split_num mod 5) 0) as [Hmod | Hmod].
  - change ("kfold" =? "split")%string with false. cbv iota.
    unfold bind at 1, lift. rewrite (random_sample_ok (Hbound Hmod)).
    rewrite !for_each_map. apply for_each_ext.
    intros seed [sl tl] w0. reflexivity.
  - change ("split" =? "split")%string with true. cbv iota. simpl for_each.
    unfold append_run, bind. simpl.
    destruct (run_exp x y (StratifiedShuffleSplit split_num (2 # 10) 42)
                bal_alg alg hyperopt_time metric w) as [[[s t] | e] w1]; reflexivity.
Qed.

Lemma cv_plan_total_folds (split_num : Z) :
  0 < split_num ->
  Forall (fun skf => get_n_splits skf = if split_num mod 5 =? 0 then 5 else split_num)
         (cv_plan split_num) /\
  Z.of_nat (List.length (cv_plan split_num))
    = (if split_num mod 5 =? 0 then split_num / 5 else 1).
Proof.
  intros Hpos. unfold cv_plan. destruct (Z.eqb_spec (split_num mod 5) 0) as [Hmod | Hmod].
  - split.
    + apply Forall_forall. intros skf Hin. apply in_map_iff in Hin.
      destruct Hin as (i & <- & _). reflexivity.
    + rewrite length_map, length_seq. apply Z2Nat.id. apply Z.div_pos; lia.
  - split; [repeat constructor | reflexivity].
Qed.

Lemma for_each_append_run_grows (n : nat) (plan : list splitter) :
  Forall (fun skf => Z.to_nat (get_n_splits skf) = n) plan ->
  forall st, on_ok (grows_by (n * List.length plan) st)
                   (for_each plan (append_run x y bal_alg alg hyperopt_time metric) st).
Proof.
  intros Hall. apply for_each_grows. intros skf st Hin.
  rewrite Forall_forall in Hall. rewrite <- (Hall _ Hin). apply append_run_grows.
Qed.

End Orchestrator.

(** Whatever the regime, the series [fit_alg] returns have [split_num]
    entries. *)
Lemma fit_alg_lengths {ext : Externals} (x : matrix) (y : labels)
    (bal_alg : option string) (alg : string) (hyperopt_time : Z) (metric : string)
    (split_num : Z) :
  0 < split_num ->
  on_ok (fun r => Z.of_nat (List.length (fst r)) = split_num /\
                  Z.of_nat (List.length (snd r)) = split_num)
        (fit_alg (get_cv_type split_num) x y bal_alg alg hyperopt_time split_num metric).
Proof.
  intros Hpos w [scores times] w' H.
  destruct (Z.eq_dec (split_num mod 5) 0) as [Hmod | Hmod];
    [destruct (Z_le_gt_dec (split_num / 5) 100000) as [Hle | Hgt]|].
  3: assert (split_num mod 5 = 0 -> 0 <= split_num / 5 <= 100000) as Hbound
       by (intros; contradiction).
  1: assert (split_num mod 5 = 0 -> 0 <= split_num / 5 <= 100000) as Hbound
       by (intros _; split; [apply Z.div_pos; lia | exact Hle]).
  2: { exfalso. unfold fit_alg, get_cv_type in H.
       rewrite Hmod in H. change (0 =? 0) with true in H. cbv iota in H.
       change ("kfold" =? "split")%string with false in H. cbv iota in H.
       unfold bind, lift, random_sample in H.
       destruct (Z.ltb_spec 100000 (split_num / 5)); [|lia].
       rewrite orb_true_r in H. discriminate. }
  all: rewrite fit_alg_runs_plan in H by exact Hbound;
    destruct (@cv_plan_total_folds ext split_num Hpos) as [Hall Hlen];
    set (n := if split_num mod 5 =? 0 then 5 else split_num) in *;
    apply (@for_each_append_run_grows _ x y bal_alg alg hyperopt_time metric (Z.to_nat n))
      in H; [|eapply Forall_impl; [|exact Hall]; intros skf ->; reflexivity];
    destruct H as [H1 H2]; simpl in H1, H2; simpl fst; simpl snd; rewrite H1, H2;
    rewrite Nat2Z.inj_mul, Hlen; subst n;
    destruct (Z.eqb_spec (split_num mod 5) 0) as [Hmod' | Hmod'];
    [ change (Z.of_nat (Z.to_nat 5)) with 5;
      pose proof (Z.div_mod split_num 5 ltac:(lia)); lia
    | rewrite Z2Nat.id by lia; lia ].
Qed.

(** C5 (as amended): for a positive [split_num], at most 500000 when it is
    divisible by 5, [fit_alg] runs the plan of the specification: 5-fold
    splitters with derived seeds, [split_num / 5] of them, when [split_num]
    is divisible by 5, and one shuffle-split of [split_num] iterations with
    a 20% hold-out otherwise.  The score series and the time series it
    returns have length [split_num], and it returns them whenever every
    run of the plan returns. *)
Theorem fit_alg_series_length {ext : Externals} (x : matrix) (y : labels)
    (bal_alg : option string) (alg : string) (hyperopt_time : Z) (metric : string)
    (split_num : Z) :
  0 < split_num ->
  (split_num mod 5 = 0 -> split_num / 5 <= 100000) ->
  (split_num mod 5 <> 0 ->
   cv_plan split_num = [StratifiedShuffleSplit split_num (2 # 10) 42]) /\
  (split_num mod 5 = 0 ->
   exists seeds, Z.of_nat (List.length seeds) = split_num / 5 /\
                 cv_plan split_num = map (StratifiedKFold 5 true) seeds) /\
  (forall w,
     fit_alg (get_cv_type split_num) x y bal_alg alg hyperopt_time split_num metric w
       = for_each (cv_plan split_num) (append_run x y bal_alg alg hyperopt_time metric)
           ([], []) w) /\
  (forall w scores times w',
     fit_alg (get_cv_type split_num) x y bal_alg alg hyperopt_time split_num metric w
       = (Ok (scores, times), w') ->
     Z.of_nat (List.length scores) = split_num /\
     Z.of_nat (List.length times) = split_num) /\
  ((forall skf w, In skf (cv_plan split_num) ->
      exists r w', run_exp x y skf bal_alg alg hyperopt_time metric w = (Ok r, w')) ->
   forall w, exists scores times w',
     fit_alg (get_cv_type split_num) x y bal_alg alg hyperopt_time split_num metric w
       = (Ok (scores, times), w')).
Proof.
  intros Hpos Hbound.
  assert (split_num mod 5 = 0 -> 0 <= split_num / 5 <= 100000) as Hbound'.
  { intros Hmod. split; [apply Z.div_pos; lia | apply Hbound; exact Hmod]. }
  split; [|split; [|split; [|split]]].
  - intros Hmod. unfold cv_plan.
    destruct (Z.eqb_spec (split_num mod 5) 0); [contradiction | reflexivity].
  - intros Hmod. unfold cv_plan.
    destruct (Z.eqb_spec (split_num mod 5) 0); [|contradiction].
    exists (map (mt_sample 100000 (split_num / 5)) (seq 0 (Z.to_nat (split_num / 5)))).
    split.
    + rewrite length_map, length_seq. apply Z2Nat.id. apply Z.div_pos; lia.
    + rewrite map_map. reflexivity.
  - intros w. apply fit_alg_runs_plan. exact Hbound'.
  - intros w scores times w' H.
    exact (@fit_alg_lengths ext x y bal_alg alg hyperopt_time metric split_num Hpos
             w (scores, times) w' H).
  - intros Hruns w. rewrite fit_alg_runs_plan by exact Hbound'.
    destruct (@for_each_returns _ _ (cv_plan split_num)
                (append_run x y bal_alg alg hyperopt_time metric)) with (s := (@nil Q, @nil time_dict)) (w := w)
      as ([scores times] & w' & H).
    + intros skf st w0 Hin. destruct (Hruns skf w0 Hin) as ([s t] & w1 & Hr).
      unfold append_run. erewrite bind_ok by exact Hr. eexists; eexists; reflexivity.
    + exists scores, times, w'. exact H.
Qed.

Lemma fit_alg_series_length_witness :
  exists scores times w',
    @fit_alg (demo_externals never_fails) (get_cv_type 10) demo_x demo_y
      (Some "SMOTE"%string) "RF" 0 10 "accuracy" empty_world = (Ok (scores, times), w') /\
    Z.of_nat (List.length scores) = 10 /\ Z.of_nat (List.length times) = 10.
Proof.
  destruct (@fit_alg_series_length (demo_externals never_fails) demo_x demo_y
              (Some "SMOTE"%string) "RF"%string 0 "accuracy"%string 10)
    as (_ & _ & _ & Hlen & _).
  - lia.
  - intros _. vm_compute. discriminate.
  - eexists. eexists. eexists. split.
    + vm_compute. reflexivity.
    + eapply (Hlen empty_world). vm_compute. reflexivity.
Defined.

(** C5, as stated, fails at [split_num = 500005]: it is positive and
    divisible by 5, but 100001 seeds cannot be drawn from 100000 values and
    [random.sample] raises before any fold is run. *)
Lemma fit_alg_rejects_500005_splits :
  0 < 500005 /\ 500005 mod 5 = 0 /\
  fst (@fit_alg (demo_externals never_fails) (get_cv_type 500005) demo_x demo_y
         (Some "SMOTE"%string) "RF" 0 500005 "accuracy" empty_world)
    = Raise ValueError.
Proof. split; [lia | split; reflexivity]. Qed.

(** ** What a computation appends to the log *)

Section Emits.
Variable P : event -> Prop.

Lemma emits_ret {A} (a : A) : emits P (ret a).
Proof. intros w. exists []. simpl. rewrite app_nil_r. auto. Qed.

Lemma emits_raise {A} (e : exn) : emits P (@raise A e).
Proof. intros w. exists []. simpl. rewrite app_nil_r. auto. Qed.

Lemma emits_lift {A} (r : result A) : emits P (lift r).
Proof. intros w. exists []. simpl. rewrite app_nil_r. auto. Qed.

Lemma emits_emit (e : event) : P e -> emits P (emit e).
Proof. intros He w. exists [e]. simpl. auto. Qed.

Lemma emits_bind_val {A B} (m : M A) (k : A -> M B) :
  emits P m ->
  (forall a w w1, m w = (Ok a, w1) -> emits P (k a)) ->
  emits P (bind m k).
Proof.
  intros Hm Hk w. destruct (Hm w) as (evs & Hlog & Hall). unfold bind.
  destruct (m w) as [[a | e] w1] eqn:E; simpl in Hlog.
  - destruct (Hk a w w1 E w1) as (evs' & Hlog' & Hall').
    exists (evs ++ evs'). rewrite Hlog', Hlog, app_assoc. split; [reflexivity|].
    apply Forall_app. auto.
  - exists evs. simpl. auto.
Qed.

Lemma emits_bind {A B} (m : M A) (k : A -> M B) :
  emits P m -> (forall a, emits P (k a)) -> emits P (bind m k).
Proof. intros Hm Hk. apply emits_bind_val; [exact Hm | intros; apply Hk]. Qed.

Lemma emits_try_except {A} (body handler : M A) :
  emits P body -> emits P handler -> emits P (try_except body handler).
Proof.
  intros Hb Hh w. destruct (Hb w) as (evs & Hlog & Hall). unfold try_except.
  destruct (body w) as [[a | e] w1]; simpl in Hlog.
  - exists evs. simpl. auto.
  - destruct (Hh w1) as (evs' & Hlog' & Hall').
    exists (evs ++ evs'). rewrite Hlog', Hlog, app_assoc. split; [reflexivity|].
    apply Forall_app. auto.
Qed.

Lemma emits_for_each {A St} (l : list A) (body : A -> St -> M St) :
  (forall a s, emits P (body a s)) -> forall s, emits P (for_each l body s).
Proof.
  intros Hbody. induction l as [|a l IH]; intros s; simpl.
  - apply emits_ret.
  - apply emits_bind; [apply Hbody | exact IH].
Qed.

Lemma emits_load (r : ref) : emits P (load r).
Proof. intros w. exists []. simpl. rewrite app_nil_r. auto. Qed.

Lemma emits_store (r : ref) (d : paramdict) : emits P (store r d).
Proof. intros w. exists []. simpl. rewrite app_nil_r. auto. Qed.

Lemma emits_now {ext : Externals} : emits P now.
Proof. intros w. exists []. simpl. rewrite app_nil_r. auto. Qed.

End Emits.

Lemma lift_ok_inv {A} (r : result A) (a : A) (w w1 : world) :
  lift r w = (Ok a, w1) -> r = Ok a /\ w1 = w.
Proof. unfold lift. intros H. injection H as -> ->. auto. Qed.

Lemma ret_ok_inv {A} (a0 a : A) (w w1 : world) :
  ret a0 w = (Ok a, w1) -> a = a0 /\ w1 = w.
Proof. unfold ret. intros H. injection H as -> ->. auto. Qed.

Lemma new_pipeline_applied (bal_alg alg : string) (est : pipeline) :
  new_pipeline bal_alg alg = Ok est -> applied est = [].
Proof.
  unfold new_pipeline.
  destruct (dict_getitem String.eqb balance_dict bal_alg); [|discriminate].
  destruct (dict_getitem String.eqb classificator_dict alg); [|discriminate].
  simpl. intros H. injection H as <-. reflexivity.
Qed.

Ltac emits_steps :=
  repeat first
    [ apply emits_ret
    | apply emits_raise
    | apply emits_lift
    | apply emits_now
    | apply emits_load
    | apply emits_store
    | apply emits_emit; exact I
    | apply emits_bind; [|intros ?]
    | match goal with
      | |- emits _ (match ?p with pair _ _ => _ end) => destruct p
      | |- emits _ (if ?c then _ else _) => destruct c
      end ].

(** ** Runs without tuning *)

Section Untuned.
Context {ext : Externals}.
Variables (x : matrix) (y : labels).

Lemma call_fit_untuned (est : pipeline) (x' : matrix) (y' : labels) :
  applied est = [] -> emits untuned (call_fit est x' y').
Proof.
  intros Hest. unfold call_fit. apply emits_bind; [|intros; apply emits_lift].
  apply emits_emit. exact Hest.
Qed.

Lemma skf_split_untuned (skf : splitter) : emits untuned (skf_split skf x y).
Proof. unfold skf_split. emits_steps. Qed.

Lemma balance_exp_fold_untuned (bal_alg alg metric : string) (fd : fold)
    (st : list Q * list time_dict) :
  emits untuned (balance_exp_fold x y bal_alg alg 0 metric fd st).
Proof.
  unfold balance_exp_fold. destruct fd as [train_index test_index], st as [sl tl].
  do 4 (apply emits_bind; [apply emits_lift | intros ?]).
  change (negb (0 =? 0)) with false. cbv iota.
  apply emits_bind_val; [apply emits_ret | intros bp w w1 Hbp].
  apply ret_ok_inv in Hbp. destruct Hbp as [-> _].
  apply emits_bind; [apply emits_lift | intros [xs sc]].
  apply emits_bind_val; [apply emits_lift | intros est w2 w3 Hest].
  apply lift_ok_inv in Hest. destruct Hest as [Hest _].
  apply new_pipeline_applied in Hest.
  simpl apply_params.
  apply emits_bind_val; [apply emits_ret | intros est' w4 w5 Hest'].
  apply ret_ok_inv in Hest'. destruct Hest' as [-> _].
  apply emits_bind; [apply emits_now | intros t0].
  apply emits_bind; [apply call_fit_untuned; exact Hest | intros f].
  unfold call_predict, call_predict_proba. emits_steps.
Qed.

Lemma abb_exp_fold_untuned (metric : string) (fd : fold) (st : list Q * list time_dict) :
  emits untuned (abb_exp_fold x y metric fd st).
Proof.
  unfold abb_exp_fold. destruct fd as [train_index test_index], st as [sl tl].
  emits_steps.
Qed.

Lemma run_exp_untuned (skf : splitter) (bal_alg : option string) (alg metric : string) :
  emits untuned (run_exp x y skf bal_alg alg 0 metric).
Proof.
  unfold run_exp. destruct (alg =? "AutoBalanceBoost")%string.
  - unfold abb_exp. apply emits_bind; [apply skf_split_untuned | intros folds].
    apply emits_for_each. intros; apply abb_exp_fold_untuned.
  - destruct bal_alg as [b|]; [|apply emits_raise].
    unfold balance_exp. apply emits_bind; [apply skf_split_untuned | intros folds].
    apply emits_for_each. intros; apply balance_exp_fold_untuned.
Qed.

Lemma fit_alg_untuned (cv_type : string) (bal_alg : option string)
    (alg : string) (split_num : Z) (metric : string) :
  emits untuned (fit_alg cv_type x y bal_alg alg 0 split_num metric).
Proof.
  unfold fit_alg. destruct (cv_type =? "split")%string.
  - apply emits_bind; [apply run_exp_untuned | intros [s t]; apply emits_ret].
  - apply emits_bind; [apply emits_lift | intros seeds].
    apply emits_for_each. intros seed [sl tl].
    apply emits_bind; [apply run_exp_untuned | intros [s t]; apply emits_ret].
Qed.

Lemma fit_res_model_untuned (option_label metric : string) :
  emits untuned (fit_res_model option_label x y 0 metric).
Proof.
  unfold fit_res_model. destruct (option_label =? "AutoBalanceBoost")%string.
  - emits_steps.
  - do 2 (apply emits_bind; [apply emits_lift | intros ?]).
    change (negb (0 =? 0)) with false. cbv iota.
    apply emits_bind_val; [apply emits_ret | intros bp w w1 Hbp].
    apply ret_ok_inv in Hbp. destruct Hbp as [-> _].
    apply emits_bind; [apply emits_lift | intros [xs sc]].
    apply emits_bind_val; [apply emits_lift | intros est w2 w3 Hest].
    apply lift_ok_inv in Hest. destruct Hest as [Hest _].
    apply new_pipeline_applied in Hest.
    apply emits_bind_val; [apply emits_ret | intros est' w4 w5 Hest'].
    apply ret_ok_inv in Hest'. destruct Hest' as [-> _].
    apply emits_bind; [apply call_fit_untuned; exact Hest | intros f].
    apply emits_ret.
Qed.

Lemma evaluate_options_untuned (self : ilc) :
  hyperopt_time self = 0 -> emits untuned (evaluate_options self x y).
Proof.
  intros Hzero. unfold evaluate_options. rewrite Hzero.
  apply emits_bind.
  - apply emits_for_each. intros alg t. apply emits_for_each. intros bal_alg t'.
    apply emits_bind; [apply fit_alg_untuned | intros [s tl]; apply emits_ret].
  - intros t. apply emits_bind; [apply fit_alg_untuned | intros [s tl]; apply emits_ret].
Qed.

(** C7: when [hyperopt_time] is 0, a cross-validation run and the whole
    selection run, final refit included, never start the search, never call
    [set_params], and fit only pipelines left at the defaults of their
    prototypes; so neither a corrected sampling strategy nor a coerced
    neighbour count reaches any pipeline. *)
Theorem zero_hyperopt_time_tunes_nothing (self : ilc) :
  hyperopt_time self = 0 ->
  (forall skf bal_alg alg metric,
     emits untuned (balance_exp x y skf bal_alg alg (hyperopt_time self) metric)) /\
  emits untuned (choose_and_fit_ilc self x y).
Proof.
  intros Hzero. split.
  - intros skf bal_alg alg metric. rewrite Hzero.
    unfold balance_exp. apply emits_bind; [apply skf_split_untuned | intros folds].
    apply emits_for_each. intros; apply balance_exp_fold_untuned.
  - unfold choose_and_fit_ilc.
    apply emits_bind; [apply evaluate_options_untuned; exact Hzero | intros t].
    do 2 (apply emits_bind; [apply emits_lift | intros ?]).
    rewrite Hzero.
    apply emits_bind; [apply fit_res_model_untuned | intros [c sc]].
    apply emits_bind; [apply emits_lift | intros series]. apply emits_ret.
Qed.

End Untuned.

Lemma zero_hyperopt_time_tunes_nothing_witness :
  exists evs,
    log (snd (@choose_and_fit_ilc (demo_externals never_fails)
                (ilc_init 6 0 "accuracy") demo_x demo_y empty_world))
      = log empty_world ++ evs /\
    Forall untuned evs.
Proof.
  apply (@zero_hyperopt_time_tunes_nothing (demo_externals never_fails) demo_x demo_y
           (ilc_init 6 0 "accuracy")).
  reflexivity.
Defined.

(** ** Failure containment *)

Section Containment.
Context {ext : Externals}.
Variables (params : ref) (x : matrix) (y : labels) (bal_alg alg metric : string).

Lemma skf_split_ok (skf : splitter) (w : world) :
  split_check skf x y = Ok tt ->
  skf_split skf x y w
    = (Ok (map (split_nth skf x y) (seq 0 (Z.to_nat (get_n_splits skf)))),
       {| log := log w ++ [EvSplit skf]; now_calls := now_calls w; heap := heap w |}).
Proof.
  intros Hcheck. unfold skf_split, bind, emit, lift, ret. rewrite Hcheck. reflexivity.
Qed.








End Containment.



(** ** The public [fit] *)

Section Fit.
Context {ext : Externals}.

Lemma choose_and_fit_ilc_returns_seven (self : ilc) (x : matrix) (y : labels) :
  on_ok (fun t => List.length t = 7%nat) (choose_and_fit_ilc self x y).
Proof.
  unfold choose_and_fit_ilc. on_ok_steps. apply on_ok_ret. reflexivity.
Qed.

Lemma unpack6_of_seven (t : list obj) :
  List.length t = 7%nat -> unpack6 t = Raise ValueError.
Proof.
  intros H. do 7 (destruct t as [|? t]; [discriminate|]).
  destruct t; [reflexivity | discriminate].
Qed.

(** C1 fails on the code: [choose_and_fit_ilc] returns seven values, [fit]
    unpacks them into six targets, and the unpacking raises before any
    attribute is stored; [fit] raises from every world and never returns
    [self]. *)
Theorem fit_always_raises (self : ilc) (X : matrix) (y : labels) (w : world) :
  on_ok (fun t => List.length t = 7%nat) (choose_and_fit_ilc self X y) /\
  (forall t, List.length t = 7%nat -> unpack6 t = Raise ValueError) /\
  (exists e w', fit self X y w = (Raise e, w')) /\
  (forall t w2,
     check_x_y X y = Ok tt ->
     choose_and_fit_ilc self X y
       {| log := log w; now_calls := S (now_calls w); heap := heap w |} = (Ok t, w2) ->
     fit self X y w = (Raise ValueError, w2)).
Proof.
  split; [apply choose_and_fit_ilc_returns_seven | split; [apply unpack6_of_seven|]].
  assert (forall w1 t w2, choose_and_fit_ilc self X y w1 = (Ok t, w2) ->
                          unpack6 t = Raise ValueError) as Hseven.
  { intros w1 t w2 H. apply unpack6_of_seven.
    eapply choose_and_fit_ilc_returns_seven. exact H. }
  split.
  - unfold fit, bind, lift, now. destruct (check_x_y X y) as [[] | e].
    + destruct (choose_and_fit_ilc self X y _) as [[t | e] w2] eqn:E.
      * rewrite (Hseven _ _ _ E). eexists; eexists; reflexivity.
      * eexists; eexists; reflexivity.
    + eexists; eexists; reflexivity.
  - intros t w2 Hcheck Hrun. unfold fit, bind, lift, now. rewrite Hcheck, Hrun.
    rewrite (Hseven _ _ _ Hrun). reflexivity.
Qed.

End Fit.

(** The end-to-end scenario of the specification, on the small instance:
    the driver returns its seven values and [fit] raises. *)
Lemma fit_raises_on_the_scenario :
  (exists t w', @choose_and_fit_ilc (demo_externals never_fails)
                  (ilc_init 5 0 "f1_macro") demo_x demo_y
                  {| log := []; now_calls := 1; heap := [] |} = (Ok t, w')) /\
  fst (@fit (demo_externals never_fails) (ilc_init 5 0 "f1_macro") demo_x demo_y
         empty_world) = Raise ValueError.
Proof.
  split.
  - eexists. eexists. vm_compute. reflexivity.
  - vm_compute. reflexivity.
Qed.

(** ** Dictionaries with any key type *)

Section DictFacts.
Context {K V : Type} (eqb : K -> K -> bool).
Hypothesis eqb_eq : forall a b, eqb a b = true <-> a = b.

Lemma eqb_refl_true (a : K) : eqb a a = true.
Proof. apply eqb_eq. reflexivity. Qed.

Lemma eqb_neq_false (a b : K) : a <> b -> eqb a b = false.
Proof.
  intros Hne. destruct (eqb a b) eqn:E; [|reflexivity].
  apply eqb_eq in E. contradiction.
Qed.

Lemma dict_get_none_iff (d : list (K * V)) (k : K) :
  dict_get eqb d k = None <-> ~ In k (map fst d).
Proof.
  induction d as [|[k' v'] d IH]; simpl.
  - split; [intros _ [] | reflexivity].
  - destruct (eqb k k') eqn:E.
    + apply eqb_eq in E. subst. split; [discriminate | intros H; exfalso; apply H; auto].
    + rewrite IH. split.
      * intros H [H' | H']; [subst; rewrite eqb_refl_true in E; discriminate | auto].
      * intros H H'. apply H. right. exact H'.
Qed.

Lemma dict_get_in (d : list (K * V)) (k : K) (v : V) :
  NoDup (map fst d) -> (dict_get eqb d k = Some v <-> In (k, v) d).
Proof.
  induction d as [|[k' v'] d IH]; simpl; intros Hnd.
  - split; [discriminate | intros []].
  - inversion Hnd as [|? ? Hnotin Hnd']; subst. destruct (eqb k k') eqn:E.
    + apply eqb_eq in E. subst k'. split.
      * intros H. injection H as <-. left. reflexivity.
      * intros [H | H]; [injection H as <-; reflexivity|].
        exfalso. apply Hnotin. apply (in_map fst) in H. exact H.
    + rewrite (IH Hnd'). split; [auto|].
      intros [H | H]; [|exact H]. injection H as <- <-.
      rewrite eqb_refl_true in E. discriminate.
Qed.

Lemma dict_set_append (d : list (K * V)) (k : K) (v : V) :
  ~ In k (map fst d) -> dict_set eqb d k v = d ++ [(k, v)].
Proof.
  induction d as [|[k' v'] d IH]; simpl; intros Hnotin; [reflexivity|].
  rewrite eqb_neq_false by (intros ->; apply Hnotin; auto).
  rewrite IH by (intros H; apply Hnotin; auto). reflexivity.
Qed.

Lemma fold_dict_set_append (l acc : list (K * V)) :
  NoDup (map fst (acc ++ l)) ->
  fold_left (fun d kv => dict_set eqb d (fst kv) (snd kv)) l acc = acc ++ l.
Proof.
  revert acc. induction l as [|[k v] l IH]; intros acc Hnd; simpl.
  - rewrite app_nil_r. reflexivity.
  - rewrite dict_set_append.
    + rewrite IH; rewrite <- app_assoc; [reflexivity | exact Hnd].
    + rewrite map_app in Hnd. simpl in Hnd. apply NoDup_remove_2 in Hnd.
      intros H. apply Hnd. apply in_or_app. left. exact H.
Qed.

Lemma dict_get_permutation (d d' : list (K * V)) (k : K) :
  NoDup (map fst d) -> Permutation d d' -> dict_get eqb d' k = dict_get eqb d k.
Proof.
  intros Hnd Hperm.
  assert (NoDup (map fst d')) as Hnd'.
  { eapply Permutation_NoDup; [apply Permutation_map; exact Hperm | exact Hnd]. }
  destruct (dict_get eqb d k) as [v|] eqn:E.
  - apply dict_get_in; [exact Hnd'|]. apply dict_get_in in E; [|exact Hnd].
    eapply Permutation_in; eassumption.
  - apply dict_get_none_iff. apply dict_get_none_iff in E. intros H. apply E.
    eapply Permutation_in; [apply Permutation_map; apply Permutation_sym; exact Hperm|].
    exact H.
Qed.

End DictFacts.

Lemma dict_of_items_nodup {V} (items : list (string * V)) :
  NoDup (map fst items) -> dict_of_items items = items.
Proof.
  intros Hnd. unfold dict_of_items.
  rewrite (fold_dict_set_append String.eqb String.eqb_eq); [reflexivity | exact Hnd].
Qed.

(** ** Sorting *)

Lemma ltb_fin (p q : Q) : Float.ltb (Fin p) (Fin q) = true <-> (p < q)%Q.
Proof.
  simpl. split.
  - intros H. destruct (Qle_bool q p) eqn:E; [discriminate|].
    destruct (Qlt_le_dec p q) as [Hlt | Hle]; [exact Hlt|].
    apply Qle_bool_iff in Hle. congruence.
  - intros H. rewrite Qle_bool_false by exact H. reflexivity.
Qed.

Lemma ltb_fin_false (p q : Q) : Float.ltb (Fin p) (Fin q) = false <-> (q <= p)%Q.
Proof.
  simpl. split.
  - intros H. destruct (Qle_bool q p) eqn:E; [|discriminate].
    apply Qle_bool_iff. exact E.
  - intros H. rewrite Qle_bool_true by exact H. reflexivity.
Qed.

Section Sorting.
Context {A : Type} (key : A -> pyfloat).

Lemma insert_by_perm (a : A) (l : list A) : Permutation (insert_by key a l) (a :: l).
Proof.
  induction l as [|b l IH]; simpl; [reflexivity|].
  destruct (Float.ltb (key b) (key a)); [|reflexivity].
  rewrite IH. apply perm_swap.
Qed.

Lemma sort_by_perm (l : list A) : Permutation (sort_by key l) l.
Proof.
  induction l as [|a l IH]; simpl; [reflexivity|].
  rewrite insert_by_perm. constructor. exact IH.
Qed.

Lemma py_sorted_perm (reverse : bool) (l : list A) : Permutation (py_sorted key reverse l) l.
Proof.
  unfold py_sorted. destruct reverse; [|apply sort_by_perm].
  rewrite <- Permutation_rev, sort_by_perm. symmetry. apply Permutation_rev.
Qed.

Lemma finite_keys_perm (l l' : list A) :
  Permutation l l' -> finite_keys key l -> finite_keys key l'.
Proof. intros Hp Hf. unfold finite_keys in *. eapply Permutation_Forall; eassumption. Qed.

Lemma insert_by_sorted (a : A) (l : list A) :
  finite_keys key (a :: l) ->
  StronglySorted (not_above key) l -> StronglySorted (not_above key) (insert_by key a l).
Proof.
  intros Hfin. induction l as [|b l IH]; simpl; intros Hs.
  - repeat constructor.
  - inversion Hs as [|? ? Hs' Hall]; subst.
    inversion Hfin as [|? ? [qa Ha] Hfin']; subst.
    inversion Hfin' as [|? ? [qb Hb] Hfin'']; subst.
    destruct (Float.ltb (key b) (key a)) eqn:E.
    + constructor.
      * apply IH; [constructor; [exists qa; exact Ha | exact Hfin''] | exact Hs'].
      * eapply Permutation_Forall; [symmetry; apply insert_by_perm|].
        constructor; [|exact Hall]. unfold not_above.
        rewrite Ha, Hb in *. apply ltb_fin in E. apply ltb_fin_false. lra.
    + constructor; [exact Hs|]. constructor; [exact E|].
      rewrite Forall_forall in *. intros c Hc. specialize (Hall c Hc).
      destruct (Hfin'' c Hc) as [qc Hc']. unfold not_above in *.
      rewrite Ha, Hb, Hc' in *. apply ltb_fin_false in E, Hall. apply ltb_fin_false. lra.
Qed.

Lemma sort_by_sorted (l : list A) :
  finite_keys key l -> StronglySorted (not_above key) (sort_by key l).
Proof.
  induction l as [|a l IH]; simpl; intros Hfin; [constructor|].
  inversion Hfin as [|? ? Ha Hfin']; subst.
  apply insert_by_sorted; [|apply IH; exact Hfin'].
  constructor; [exact Ha|]. eapply finite_keys_perm; [symmetry; apply sort_by_perm | exact Hfin'].
Qed.

Lemma StronglySorted_rev (R : A -> A -> Prop) (l : list A) :
  StronglySorted R l -> StronglySorted (fun a b => R b a) (rev l).
Proof.
  induction 1 as [|a l Hs IH Hall]; simpl; [constructor|].
  assert (forall l1 l2, StronglySorted (fun a b => R b a) l1 ->
                        StronglySorted (fun a b => R b a) l2 ->
                        (forall u v, In u l1 -> In v l2 -> R v u) ->
                        StronglySorted (fun a b => R b a) (l1 ++ l2)) as Happ.
  { induction l1 as [|u l1 IH1]; simpl; intros l2 H1 H2 H12; [exact H2|].
    inversion H1; subst. constructor.
    - apply IH1; auto.
    - apply Forall_app. split; [assumption|].
      apply Forall_forall. intros v Hv. apply H12; auto. }
  apply Happ; [exact IH | repeat constructor|].
  intros u v Hu [<- | []]. rewrite Forall_forall in Hall. apply Hall.
  apply in_rev. exact Hu.
Qed.

(** The head of the ascending sort is the first smallest entry. *)
Lemma sort_by_head (l : list A) :
  finite_keys key l -> l <> [] ->
  exists a s, sort_by key l = a :: s /\ first_best key Float.ltb l a.
Proof.
  induction l as [|x l IH]; intros Hfin Hne; [contradiction|].
  inversion Hfin as [|? ? [qx Hx] Hfin']; subst. simpl.
  destruct l as [|y l'].
  - exists x, []. split; [reflexivity|]. exists [], []. simpl. repeat split; intros b [].
  - destruct (IH Hfin' ltac:(discriminate)) as (a & s & Hsort & pre & post & Hl & Hpre & Hpost).
    rewrite Hsort. simpl.
    assert (exists qa, key a = Fin qa) as [qa Ha].
    { unfold finite_keys in Hfin'. rewrite Forall_forall in Hfin'. apply Hfin'.
      rewrite Hl. apply in_or_app. right. left. reflexivity. }
    destruct (Float.ltb (key a) (key x)) eqn:E.
    + exists a, (insert_by key x s). split; [reflexivity|].
      exists (x :: pre), post. rewrite Hl. split; [reflexivity|]. split; [|exact Hpost].
      intros b [<- | Hb]; [exact E | apply Hpre; exact Hb].
    + exists x, (a :: s). split; [reflexivity|].
      exists [], (y :: l'). split; [reflexivity|]. split; [intros b []|].
      intros b Hb. rewrite Hl in Hb.
      assert (exists qb, key b = Fin qb) as [qb Hb'].
      { unfold finite_keys in Hfin'. rewrite Forall_forall in Hfin'. apply Hfin'.
        rewrite Hl. exact Hb. }
      rewrite Hx, Ha in E. apply ltb_fin_false in E. rewrite Hb', Hx. apply ltb_fin_false.
      apply in_app_or in Hb. destruct Hb as [Hb | [<- | Hb]].
      * specialize (Hpre b Hb). rewrite Ha, Hb' in Hpre. apply ltb_fin in Hpre. lra.
      * rewrite Ha in Hb'. injection Hb' as <-. exact E.
      * specialize (Hpost b Hb). rewrite Ha, Hb' in Hpost. apply ltb_fin_false in Hpost. lra.
Qed.

Lemma insert_by_last_keep (x a : A) (s : list A) :
  Float.ltb (key a) (key x) = false ->
  exists s', insert_by key x (s ++ [a]) = s' ++ [a].
Proof.
  intros E. induction s as [|b s IH]; simpl.
  - rewrite E. exists [x]. reflexivity.
  - destruct (Float.ltb (key b) (key x)).
    + destruct IH as [s' ->]. exists (b :: s'). reflexivity.
    + exists (x :: b :: s). reflexivity.
Qed.

Lemma insert_by_last_new (x : A) (l : list A) :
  (forall b, In b l -> Float.ltb (key b) (key x) = true) ->
  insert_by key x l = l ++ [x].
Proof.
  induction l as [|b l IH]; simpl; intros Hall; [reflexivity|].
  rewrite (Hall b (or_introl eq_refl)). rewrite IH; [reflexivity|].
  intros c Hc. apply Hall. right. exact Hc.
Qed.

(** The last entry of the ascending sort of the reversed list is the first
    largest entry. *)
Lemma sort_by_rev_last (l : list A) :
  finite_keys key l -> l <> [] ->
  exists a s, sort_by key (rev l) = s ++ [a] /\ first_best key Float.gtb l a /\
              (forall b, In b s -> Float.ltb (key a) (key b) = false).
Proof.
  induction l as [|x l IH] using rev_ind; intros Hfin Hne; [contradiction|].
  unfold finite_keys in Hfin. apply Forall_app in Hfin. destruct Hfin as [Hfin' Hx].
  inversion Hx as [|? ? [qx Hx'] _]; subst.
  rewrite rev_app_distr. simpl.
  destruct l as [|y l'].
  - exists x, []. split; [reflexivity|]. split; [|intros b []].
    exists [], []. simpl. repeat split; intros b [].
  - destruct (IH Hfin' ltac:(discriminate)) as (a & s & Hsort & (pre & post & Hl & Hpre & Hpost) & Hs).
    rewrite Hsort.
    assert (forall b, In b (y :: l') -> exists qb, key b = Fin qb) as Hq.
    { apply Forall_forall. exact Hfin'. }
    assert (exists qa, key a = Fin qa) as [qa Ha].
    { apply Hq. rewrite Hl. apply in_or_app. right. left. reflexivity. }
    assert (forall b, In b s -> In b (y :: l')) as Hsin.
    { intros b Hb. apply in_rev. eapply Permutation_in; [apply sort_by_perm|].
      rewrite Hsort. apply in_or_app. left. exact Hb. }
    destruct (Float.ltb (key a) (key x)) eqn:E.
    + exists x, (s ++ [a]). split; [|split].
      * apply insert_by_last_new. intros b Hb. apply in_app_or in Hb.
        destruct Hb as [Hb | [<- | []]]; [|exact E].
        destruct (Hq b (Hsin b Hb)) as [qb Hb']. specialize (Hs b Hb).
        rewrite Ha, Hb', Hx' in *. apply ltb_fin in E. apply ltb_fin_false in Hs.
        apply ltb_fin. lra.
      * exists (y :: l'), []. split; [reflexivity|]. split; [|intros b []].
        intros b Hb. unfold Float.gtb. destruct (Hq b Hb) as [qb Hb'].
        rewrite Hl in Hb. rewrite Ha, Hx' in E. apply ltb_fin in E.
        rewrite Hb', Hx'. apply ltb_fin.
        apply in_app_or in Hb. destruct Hb as [Hb | [<- | Hb]].
        -- specialize (Hpre b Hb). unfold Float.gtb in Hpre.
           rewrite Ha, Hb' in Hpre. apply ltb_fin in Hpre. lra.
        -- rewrite Ha in Hb'. injection Hb' as <-. exact E.
        -- specialize (Hpost b Hb). unfold Float.gtb in Hpost.
           rewrite Ha, Hb' in Hpost. apply ltb_fin_false in Hpost. lra.
      * intros b Hb. apply in_app_or in Hb. rewrite Hx'.
        rewrite Ha, Hx' in E. apply ltb_fin in E.
        destruct Hb as [Hb | [<- | []]].
        -- destruct (Hq b (Hsin b Hb)) as [qb Hb']. specialize (Hs b Hb).
           rewrite Ha, Hb' in Hs. apply ltb_fin_false in Hs. rewrite Hb'.
           apply ltb_fin_false. lra.
        -- rewrite Ha. apply ltb_fin_false. lra.
    + destruct (@insert_by_last_keep x a s E) as [s' Hs'].
      exists a, s'. split; [exact Hs' | split].
      * exists pre, (post ++ [x]). split; [|split; [exact Hpre|]].
        -- rewrite Hl, <- app_assoc. reflexivity.
        -- intros b Hb. apply in_app_or in Hb. destruct Hb as [Hb | [<- | []]].
           ++ apply Hpost. exact Hb.
           ++ exact E.
      * intros b Hb.
        assert (In b (x :: s ++ [a])) as Hb2.
        { eapply Permutation_in; [apply insert_by_perm|]. rewrite Hs'.
          apply in_or_app. left. exact Hb. }
        destruct Hb2 as [<- | Hb2]; [exact E|].
        apply in_app_or in Hb2. destruct Hb2 as [Hb2 | [<- | []]]; [apply Hs; exact Hb2|].
        rewrite Ha. apply ltb_fin_false. lra.
Qed.

End Sorting.

Lemma py_sorted_head {A} (key : A -> pyfloat) (reverse : bool) (l : list A) :
  finite_keys key l -> l <> [] ->
  exists a s, py_sorted key reverse l = a :: s /\
              first_best key (if reverse then Float.gtb else Float.ltb) l a.
Proof.
  intros Hfin Hne. unfold py_sorted. destruct reverse.
  - destruct (sort_by_rev_last Hfin Hne) as (a & s & Hsort & Hbest & _).
    exists a, (rev s). rewrite Hsort, rev_app_distr. split; [reflexivity | exact Hbest].
  - apply sort_by_head; assumption.
Qed.

Lemma py_sorted_sorted {A} (key : A -> pyfloat) (reverse : bool) (l : list A) :
  finite_keys key l ->
  StronglySorted
    (fun a b => (if reverse then Float.gtb else Float.ltb) (key b) (key a) = false)
    (py_sorted key reverse l).
Proof.
  intros Hfin. unfold py_sorted. destruct reverse.
  - apply (StronglySorted_rev (R := not_above key)). apply sort_by_sorted.
    eapply finite_keys_perm; [apply Permutation_rev | exact Hfin].
  - apply sort_by_sorted. exact Hfin.
Qed.

Lemma sort_by_metric_is_py_sorted (metric : string) (d : list (string * pyfloat)) :
  NoDup (map fst d) ->
  sort_by_metric metric d = py_sorted snd (negb (metric =? "log_loss")%string) d.
Proof.
  intros Hnd. unfold sort_by_metric.
  destruct (metric =? "log_loss")%string; simpl negb; apply dict_of_items_nodup;
    (eapply Permutation_NoDup;
     [apply Permutation_map; symmetry; apply py_sorted_perm | exact Hnd]).
Qed.

(** ** Means *)

Lemma sum_fin (s : list Q) (acc : Q) :
  fold_left Float.add (map Fin s) (Fin acc) = Fin (fold_left Qplus s acc).
Proof. revert acc. induction s as [|a s IH]; intros acc; simpl; [reflexivity | apply IH]. Qed.

Lemma mean_fin (s : list Q) :
  s <> [] ->
  Float.mean (map Fin s)
    = Fin (fold_left Qplus s 0 / inject_Z (Z.of_nat (List.length s)))%Q.
Proof.
  intros Hne. unfold Float.mean, Float.sum. rewrite sum_fin, length_map.
  unfold Float.div, Float.of_nat, Float.of_Z.
  destruct (Qeq_bool (inject_Z (Z.of_nat (List.length s))) 0) eqn:E; [|reflexivity].
  apply Qeq_bool_iff in E. unfold Qeq in E. simpl in E.
  destruct s; [contradiction | simpl in E; lia].
Qed.

Lemma means_of_finite (sd : list (string * list Q)) :
  Forall (fun kv => snd kv <> []) sd -> finite_keys snd (means_of sd).
Proof.
  intros Hall. unfold finite_keys, means_of. apply Forall_map.
  eapply Forall_impl; [|exact Hall]. intros [k s] Hne. simpl in *.
  eexists. apply mean_fin. exact Hne.
Qed.

Lemma means_of_keys (sd : list (string * list Q)) : map fst (means_of sd) = map fst sd.
Proof. unfold means_of. rewrite map_map. reflexivity. Qed.

(** ** The model-selection driver *)

Ltac inv_ok :=
  repeat match goal with
    | H : bind _ _ _ = (Ok _, _) |- _ =>
        apply bind_ok_inv in H; destruct H as (? & ? & ? & H)
    | H : ret _ _ = (Ok _, _) |- _ =>
        apply ret_ok_inv in H; destruct H as [? ?]
    | H : lift _ _ = (Ok _, _) |- _ =>
        apply lift_ok_inv in H; destruct H as [? ?]
    | H : (match ?p with pair _ _ => _ end) _ = (Ok _, _) |- _ => destruct p
    end.

Section Driver.
Context {ext : Externals}.
Variables (x : matrix) (y : labels).

Lemma NoDup_candidates : NoDup candidates.
Proof.
  unfold candidates.
  repeat (constructor; [simpl; intuition discriminate|]). constructor.
Qed.

(** The enumeration fills the tables with the seventeen candidates in
    order; each mean is the mean of the candidate's series, and each series
    has [split_num] entries. *)
Lemma evaluate_options_tables (self : ilc) (w w' : world) (t : tables) :
  0 < split_num self ->
  evaluate_options self x y w = (Ok t, w') ->
  map fst (score_dict t) = candidates /\
  option_list t = candidates /\
  map fst (time_dict_ t) = candidates /\
  res_dict t = means_of (score_dict t) /\
  Forall (fun kv => Z.of_nat (List.length (snd kv)) = split_num self) (score_dict t).
Proof.
  intros Hpos H. unfold evaluate_options, classifier_labels, resampler_labels in H.
  cbn [for_each] in H. inv_ok. subst.
  repeat match goal with
    | H : fit_alg _ _ _ _ _ _ _ _ _ = (Ok (_, _), _) |- _ =>
        apply (fit_alg_lengths _ _ _ _ _ _ Hpos) in H; simpl in H; destruct H as [H _]
    end.
  split; [reflexivity | split; [reflexivity | split; [reflexivity | split; [reflexivity|]]]].
  cbn. repeat (constructor; [simpl; assumption|]). constructor.
Qed.


End Driver.


(** ** The leaderboard *)

Lemma rbind_assoc_ok {A B} (r : result A) (a : A) (k : A -> result B) :
  r = Ok a -> rbind r k = k a.
Proof. intros ->. reflexivity. Qed.

Lemma append_at_app {A} (done todo : list (list A)) (r : list A) (v : A) :
  append_at (done ++ r :: todo) (List.length done) v = Ok (done ++ (r ++ [v]) :: todo).
Proof.
  induction done as [|d done IH]; simpl; [reflexivity|].
  rewrite IH. reflexivity.
Qed.

(** Appending one value of a series to each row. *)
Lemma append_column {A} (f : Q -> A) (s : list Q) :
  forall (done todo : list (list A)),
    List.length todo = List.length s ->
    for_enumerate_from (List.length done) s
      (fun i val rows => append_at rows i (f val)) (done ++ todo)
    = Ok (done ++ map2 (fun r v => r ++ [f v]) todo s).
Proof.
  induction s as [|v s IH]; intros done todo Hlen.
  - destruct todo; [|discriminate]. reflexivity.
  - destruct todo as [|r todo]; [discriminate|]. simpl.
    rewrite append_at_app. simpl.
    replace (done ++ (r ++ [f v]) :: todo) with ((done ++ [r ++ [f v]]) ++ todo)
      by (rewrite <- app_assoc; reflexivity).
    replace (S (List.length done)) with (List.length (done ++ [r ++ [f v]]))
      by (rewrite length_app; simpl; lia).
    rewrite IH by (simpl in Hlen; lia).
    rewrite <- app_assoc. reflexivity.
Qed.

Lemma map2_length {A B C} (f : A -> B -> C) (a : list A) (b : list B) :
  List.length a = List.length b -> List.length (map2 f a b) = List.length a.
Proof.
  revert b. induction a as [|u a IH]; intros [|v b] Hlen; simpl in *;
    try reflexivity; try discriminate.
  rewrite IH by lia. reflexivity.
Qed.



Section Leaderboard.
Context {ext : Externals}.
Variable self : ilc.
Variable scores : scores_dict.
Hypothesis Hnodup : NoDup (map fst scores).
Hypothesis Hlengths :
  Forall (fun kv => List.length (snd kv) = Z.to_nat (split_num self)) scores.

Lemma scores_getitem (k : string) (s : list Q) :
  In (k, s) scores -> dict_getitem String.eqb scores k = Ok s.
Proof.
  intros Hin. unfold dict_getitem.
  apply (@dict_get_in _ _ String.eqb String.eqb_eq scores k s Hnodup) in Hin.
  rewrite Hin. reflexivity.
Qed.



Lemma np_array2_ok (rows : list (list Z)) (c : nat) :
  Forall (fun r => List.length r = c) rows -> np_array2 rows = Ok rows.
Proof.
  intros Hall. destruct rows as [|r rows]; [reflexivity|]. simpl.
  inversion Hall as [|? ? Hr Hall']; subst.
  replace (forallb (fun r' => (List.length r' =? List.length r)%nat) rows) with true;
    [reflexivity|].
  symmetry. apply forallb_forall. intros r' Hr'. rewrite Forall_forall in Hall'.
  rewrite (Hall' _ Hr'). apply Nat.eqb_refl.
Qed.

Lemma take_column_ok (rows : list (list Z)) (c i : nat) :
  Forall (fun r => List.length r = c) rows -> (i < c)%nat ->
  exists col, take_column rows i = Ok col.
Proof.
  intros Hall Hi. induction Hall as [|r rows Hr Hall IH]; simpl.
  - exists []. reflexivity.
  - destruct IH as [col Hcol].
    destruct (nth_error r i) as [v|] eqn:E.
    + exists (v :: col). rewrite (getitem_nth _ _ E). simpl. rewrite Hcol. reflexivity.
    + apply nth_error_None in E. lia.
Qed.

Lemma np_column_ok (rows : list (list Z)) (c i : nat) :
  rows <> [] -> Forall (fun r => List.length r = c) rows -> (i < c)%nat ->
  exists col, np_column rows i = Ok col.
Proof.
  intros Hne Hall Hi. unfold np_column. destruct rows as [|r0 rows0]; [contradiction|].
  eapply take_column_ok; eassumption.
Qed.

Lemma np_elementwise_same_length (f : pyfloat -> pyfloat -> pyfloat) (a b : list pyfloat) :
  List.length a = List.length b -> np_elementwise f a b = Ok (map2 f a b).
Proof. intros Hlen. unfold np_elementwise. rewrite Hlen, Nat.eqb_refl. reflexivity. Qed.

(** The three array operations of the code compute the fold-wise gap of
    the specification. *)
Lemma array_gap_is_gap_to_leader (c l : list Q) :
  Float.mean
    (map (fun v => Float.mul v (Float.of_Z 100))
       (map2 Float.div (map2 Float.sub (map Fin c) (map Fin l)) (map Fin l)))
  = gap_to_leader c l.
Proof.
  unfold gap_to_leader. f_equal. revert l.
  induction c as [|u c IH]; intros [|v l]; simpl; try reflexivity.
  rewrite IH. reflexivity.
Qed.

Variables (leader : string) (leader_series : list Q) (model_rank : list (list Z)).
Hypothesis Hleader : In (leader, leader_series) scores.
Hypothesis Hrank_rows : model_rank <> [].
Hypothesis Hrank_cols : Forall (fun r => List.length r = List.length scores) model_rank.

Lemma scores_length (k : string) (s : list Q) :
  In (k, s) scores -> List.length s = Z.to_nat (split_num self).
Proof. intros Hin. pose proof Hlengths as Hl. rewrite Forall_forall in Hl. apply (Hl _ Hin). Qed.

Lemma board_step_ok (i : nat) (k : string) (s : list Q) (b : board) :
  (i < List.length scores)%nat -> In (k, s) scores ->
  exists b',
    board_step scores leader model_rank i k b = Ok b' /\
    diff_dict b' = if (k =? leader)%string then diff_dict b
                   else dict_set String.eqb (diff_dict b) k (gap_to_leader s leader_series).
Proof.
  intros Hi Hin. unfold board_step.
  destruct (np_column_ok Hrank_rows Hrank_cols Hi) as [col Hcol].
  rewrite Hcol, rbind_ok. destruct (k =? leader)%string; simpl negb; cbv iota.
  - eexists. split; reflexivity.
  - rewrite (@scores_getitem k s Hin), rbind_ok.
    rewrite (@scores_getitem leader leader_series Hleader), rbind_ok.
    assert (List.length (map Fin s) = List.length (map Fin leader_series)) as Hlen.
    { rewrite !length_map, (@scores_length k s Hin),
        (@scores_length leader leader_series Hleader). reflexivity. }
    rewrite (np_elementwise_same_length _ _ _ Hlen), rbind_ok.
    rewrite np_elementwise_same_length
      by (rewrite map2_length by exact Hlen; exact Hlen).
    rewrite rbind_ok, array_gap_is_gap_to_leader.
    eexists. split; reflexivity.
Qed.

Lemma gaps_of_app (a b : scores_dict) :
  gaps_of leader leader_series (a ++ b)
    = gaps_of leader leader_series a ++ gaps_of leader leader_series b.
Proof. unfold gaps_of. rewrite filter_app, map_app. reflexivity. Qed.

Lemma gaps_of_single (k : string) (s : list Q) :
  gaps_of leader leader_series [(k, s)]
    = if (k =? leader)%string then [] else [(k, gap_to_leader s leader_series)].
Proof. unfold gaps_of. simpl. destruct (k =? leader)%string; reflexivity. Qed.

Lemma gaps_of_keys_in (l : scores_dict) (k : string) :
  In k (map fst (gaps_of leader leader_series l)) -> In k (map fst l).
Proof.
  unfold gaps_of. rewrite map_map. simpl. intros Hin. apply in_map_iff in Hin.
  destruct Hin as (kv & <- & Hkv). apply filter_In in Hkv. apply in_map. apply Hkv.
Qed.

(** The second loop succeeds and leaves the gaps of all candidates but the
    leader. *)
Lemma collect_board_ok :
  exists b, collect_board scores leader model_rank = Ok b /\
            diff_dict b = gaps_of leader leader_series scores.
Proof.
  unfold collect_board, for_enumerate.
  assert (forall suf pre b,
            scores = pre ++ suf ->
            diff_dict b = gaps_of leader leader_series pre ->
            exists b',
              for_enumerate_from (List.length pre) (map fst suf)
                (board_step scores leader model_rank) b = Ok b' /\
              diff_dict b' = gaps_of leader leader_series scores) as Hloop.
  { induction suf as [|[k s] suf IH]; intros pre b Hsc Hb.
    - rewrite app_nil_r in Hsc. subst pre. exists b. split; [reflexivity | exact Hb].
    - cbn [map fst for_enumerate_from].
      assert (In (k, s) scores) as Hin
        by (rewrite Hsc; apply in_or_app; right; left; reflexivity).
      destruct (@board_step_ok (List.length pre) k s b) as (b1 & Hstep & Hdiff).
      { rewrite Hsc, length_app. simpl. lia. }
      { exact Hin. }
      rewrite Hstep, rbind_ok.
      replace (S (List.length pre)) with (List.length (pre ++ [(k, s)]))
        by (rewrite length_app; simpl; lia).
      apply IH; [rewrite <- app_assoc; exact Hsc|].
      rewrite Hdiff, gaps_of_app, Hb, gaps_of_single.
      destruct (k =? leader)%string; [rewrite app_nil_r; reflexivity|].
      apply (dict_set_append String.eqb String.eqb_eq).
      intros Hk. apply gaps_of_keys_in in Hk. pose proof Hnodup as Hnd.
      rewrite Hsc, map_app in Hnd. simpl in Hnd. apply NoDup_remove_2 in Hnd.
      apply Hnd. apply in_or_app. left. exact Hk. }
  destruct (Hloop scores [] {| rank_dict := []; leader_share := []; diff_dict := [] |}
              eq_refl eq_refl) as (b & H).
  exists b. exact H.
Qed.



End Leaderboard.

Lemma rankdata_dense_length (a : list Q) : List.length (rankdata_dense a) = List.length a.
Proof. unfold rankdata_dense. apply length_map. Qed.



(** ** In-place mutation of the parameters by the objective *)




Section Mutation.
Context {ext : Externals}.
Variables (params : ref) (x : matrix) (y : labels) (bal_alg alg metric : string).










End Mutation.



(** Ties on the small instance: with accuracy the four resamplers tie under
    every classifier but catboost and the first enumerated of the best wins;
    with log_loss all seventeen candidates tie and the first candidate
    wins. *)
Example driver_breaks_ties_by_enumeration :
  (match fst (@choose_and_fit_ilc (demo_externals never_fails)
                (ilc_init 6 0 "accuracy") demo_x demo_y empty_world) with
   | Ok (_ :: OStr label :: _) => Some label
   | _ => None
   end = Some "RandomOverSampler+RF"%string) /\
  (match fst (@choose_and_fit_ilc (demo_externals never_fails)
                (ilc_init 6 0 "log_loss") demo_x demo_y empty_world) with
   | Ok (_ :: OStr label :: _) => Some label
   | _ => None
   end = Some "RandomOverSampler+catboost"%string).
Proof. split; vm_compute; reflexivity. Qed.

(** * Further properties of the engine *)

(** ** The metric evaluator *)

(** X1: A metric name outside the six supported ones leaves [score] unbound:
    [calc_metric] raises [UnboundLocalError] and calls no metric function,
    also for a name that only starts like an F1 variant. *)
Theorem calc_metric_rejects_unknown_names {ext : Externals} (y_test : labels)
    (pred : prediction) (metric : string) :
  ~ In metric supported_metrics ->
  calc_metric y_test pred metric = Raise UnboundLocalError.
Proof.
  intros Hnot. unfold calc_metric.
  assert (forall name, In name supported_metrics -> (metric =? name)%string = false) as Hne.
  { intros name Hin. apply String.eqb_neq. intros ->. contradiction. }
  rewrite (Hne "f1_macro"%string), (Hne "f1_micro"%string), (Hne "f1_weighted"%string),
    (Hne "accuracy"%string), (Hne "roc_auc"%string), (Hne "log_loss"%string)
    by (simpl; tauto).
  destruct (split_head "_" metric =? "f1")%string; reflexivity.
Qed.

Lemma calc_metric_rejects_unknown_names_witness :
  @calc_metric (demo_externals never_fails) demo_y (PredLabels demo_y) "f1_score"
    = Raise UnboundLocalError.
Proof.
  apply (@calc_metric_rejects_unknown_names (demo_externals never_fails)).
  simpl. intuition discriminate.
Defined.

(** ** More on the sampling-strategy corrector *)

Lemma exists_is_min (l : list Z) : l <> [] -> exists m, is_min m l.
Proof.
  destruct l as [|a l]; [contradiction|]. intros _.
  exists (fold_left Z.min l a). apply fold_min_is_min.
Qed.

Lemma exists_is_max (l : list Z) : l <> [] -> exists m, is_max m l.
Proof.
  destruct l as [|a l]; [contradiction|]. intros _.
  exists (fold_left Z.max l a). apply fold_max_is_max.
Qed.

(** With at most two classes the corrector returns the larger of the
    natural ratio and the raw ratio, whatever the raw ratio. *)
Lemma binary_result (ss : Q) (cc : list Z * list Z) (balance_method : string)
    (cmin cmax : Z) :
  count_summary cc ->
  (List.length (fst cc) <= 2)%nat ->
  is_min cmin (snd cc) ->
  is_max cmax (snd cc) ->
  get_sampl_strat_for_case (Fin ss) cc balance_method
    = Ok (SSFloat (Fin (Qmax (inject_Z cmin / inject_Z cmax) ss))).
Proof.
  intros Hcc Hlen Hmin Hmax.
  assert (0 < cmax) as Hcmax by (eapply count_summary_pos; [exact Hcc | apply Hmax]).
  destruct (np_argmin_spec Hmin) as [i [Hi Hi']].
  destruct (np_argmax_spec Hmax) as [j [Hj Hj']].
  unfold get_sampl_strat_for_case. cbv zeta. rewrite Hi, rbind_ok, Hj, rbind_ok.
  replace (2 <? List.length (fst cc))%nat with false
    by (symmetry; apply Nat.ltb_ge; exact Hlen).
  rewrite (getitem_nth _ _ Hi'), rbind_ok, (getitem_nth _ _ Hj'), rbind_ok.
  unfold Float.div, Float.of_Z.
  destruct (Qeq_bool (inject_Z cmax) 0) eqn:E.
  - apply Qeq_bool_iff in E. unfold Qeq in E. simpl in E. lia.
  - rewrite py_max_float_fin. reflexivity.
Qed.

Lemma Qmax_absorb (a b : Q) : Qmax a (Qmax a b) = Qmax a b.
Proof.
  unfold Qmax, GenericMinMax.gmax.
  destruct (a ?= b)%Q eqn:E; try rewrite E; try reflexivity;
    replace (a ?= a)%Q with Eq by (symmetry; apply Qeq_alt; reflexivity); reflexivity.
Qed.

(** X2: The binary correction is idempotent: correcting a corrected ratio
    changes nothing, for every raw ratio and both kinds of resampler. *)
Theorem binary_correction_is_idempotent (ss : Q) (cc : list Z * list Z)
    (method1 method2 : string) :
  count_summary cc ->
  List.length (fst cc) = 2%nat ->
  exists r,
    get_sampl_strat_for_case (Fin ss) cc method1 = Ok (SSFloat (Fin r)) /\
    get_sampl_strat_for_case (Fin r) cc method2 = Ok (SSFloat (Fin r)).
Proof.
  intros Hcc Hlen.
  assert (snd cc <> []) as Hne.
  { destruct Hcc as [Hl _]. rewrite Hlen in Hl. destruct (snd cc); [discriminate|].
    discriminate. }
  destruct (exists_is_min Hne) as [cmin Hmin]. destruct (exists_is_max Hne) as [cmax Hmax].
  exists (Qmax (inject_Z cmin / inject_Z cmax) ss). split.
  - apply binary_result; try assumption. lia.
  - rewrite (@binary_result _ cc method2 cmin cmax Hcc ltac:(lia) Hmin Hmax).
    rewrite Qmax_absorb. reflexivity.
Qed.

Lemma binary_correction_is_idempotent_witness :
  exists r,
    get_sampl_strat_for_case (Fin (1 # 10)) ([0; 1], [10; 2]) "SMOTE"
      = Ok (SSFloat (Fin r)) /\
    get_sampl_strat_for_case (Fin r) ([0; 1], [10; 2]) "RandomUnderSampler"
      = Ok (SSFloat (Fin r)).
Proof.
  apply (@binary_correction_is_idempotent (1 # 10) ([0; 1], [10; 2])).
  - split; [reflexivity | split].
    + repeat constructor; simpl; intuition discriminate.
    + repeat constructor.
  - reflexivity.
Defined.

(** X3: A fold with a single class takes the binary branch: minority and
    majority coincide and the corrected ratio is 1 for every raw ratio up
    to 1, whatever the resampler. *)
Theorem single_class_correction_is_one (ss : Q) (cc : list Z * list Z)
    (balance_method : string) :
  count_summary cc ->
  List.length (fst cc) = 1%nat ->
  (ss <= 1)%Q ->
  exists r,
    get_sampl_strat_for_case (Fin ss) cc balance_method = Ok (SSFloat (Fin r)) /\
    (r == 1)%Q.
Proof.
  intros Hcc Hlen Hss. pose proof Hcc as [Hl [_ Hpos]].
  destruct cc as [classes counts]. simpl in *. rewrite Hlen in Hl.
  destruct counts as [|c [|c' counts]]; try discriminate.
  assert (is_min c [c]) as Hmin by (split; [left; reflexivity | intros ? [<- | []]; lia]).
  assert (is_max c [c]) as Hmax by (split; [left; reflexivity | intros ? [<- | []]; lia]).
  inversion Hpos as [|? ? Hc _]; subst.
  exists (Qmax (inject_Z c / inject_Z c) ss). split.
  - apply (@binary_result ss (classes, [c]) balance_method c c Hcc); simpl; try assumption.
    lia.
  - assert (inject_Z c / inject_Z c == 1)%Q as H1.
    { apply Qmult_inv_r. unfold Qeq. simpl. lia. }
    rewrite Q.max_l; [exact H1 | rewrite H1; exact Hss].
Qed.

Lemma single_class_correction_is_one_witness :
  exists r,
    get_sampl_strat_for_case (Fin (1 # 2)) ([7], [12]) "ADASYN" = Ok (SSFloat (Fin r)) /\
    (r == 1)%Q.
Proof.
  apply (@single_class_correction_is_one (1 # 2) ([7], [12])).
  - split; [reflexivity | split]; repeat constructor; simpl; tauto.
  - reflexivity.
  - discriminate.
Defined.







(** ** Assignment to a key of a dictionary *)

Section DictUpdate.
Context {K V : Type} (eqb : K -> K -> bool).
Hypothesis eqb_eq : forall a b, eqb a b = true <-> a = b.

Lemma dict_get_set_same (d : list (K * V)) (k : K) (v : V) :
  dict_get eqb (dict_set eqb d k v) k = Some v.
Proof.
  induction d as [|[k' v'] d IH]; simpl.
  - rewrite (eqb_refl_true eqb eqb_eq). reflexivity.
  - destruct (eqb k k') eqn:E; simpl; rewrite E; [reflexivity | exact IH].
Qed.

Lemma dict_get_set_other (d : list (K * V)) (k k' : K) (v : V) :
  k' <> k -> dict_get eqb (dict_set eqb d k v) k' = dict_get eqb d k'.
Proof.
  intros Hne. induction d as [|[k0 v0] d IH]; simpl.
  - rewrite (eqb_neq_false eqb eqb_eq Hne). reflexivity.
  - destruct (eqb k k0) eqn:E; simpl.
    + apply eqb_eq in E. subst k0. rewrite (eqb_neq_false eqb eqb_eq Hne). reflexivity.
    + destruct (eqb k' k0); [reflexivity | exact IH].
Qed.

Lemma dict_set_keys (d : list (K * V)) (k : K) (v : V) :
  dict_mem eqb d k = true -> map fst (dict_set eqb d k v) = map fst d.
Proof.
  unfold dict_mem. induction d as [|[k0 v0] d IH]; simpl; [discriminate|].
  destruct (eqb k k0) eqn:E; simpl; [reflexivity|].
  intros H. f_equal. apply IH. exact H.
Qed.

Lemma dict_set_set (d : list (K * V)) (k : K) (v w : V) :
  dict_set eqb (dict_set eqb d k v) k w = dict_set eqb d k w.
Proof.
  induction d as [|[k0 v0] d IH]; simpl.
  - rewrite (eqb_refl_true eqb eqb_eq). reflexivity.
  - destruct (eqb k k0) eqn:E; simpl; rewrite E; [reflexivity | f_equal; exact IH].
Qed.

End DictUpdate.




(** ** The value of the search objective *)

Section ObjectiveValue.
Context {ext : Externals}.
Variables (params : ref) (x : matrix) (y : labels) (bal_alg alg metric : string).

Lemma fit_and_score_finite (est : pipeline) (sc : scaler) (xs : matrix) (ys : labels)
    (xt : matrix) (yt : labels) :
  on_ok (fun s => exists q, s = Fin q) (fit_and_score est sc xs ys xt yt metric).
Proof. unfold fit_and_score. on_ok_steps; apply on_ok_ret; eexists; reflexivity. Qed.

Lemma objective_fold_score (fd : fold) (sl sl' : list pyfloat) (c c' : Z) (w w' : world) :
  calc_pipeline_acc_fold params x y bal_alg alg metric fd (sl, c) w = (Ok (sl', c'), w') ->
  exists s, sl' = sl ++ [s] /\ objective_score metric s.
Proof.
  unfold calc_pipeline_acc_fold. intros H.
  apply bind_ok_inv in H. destruct H as (r & w1 & _ & H).
  destruct r as [[[[[est sc] xs] ys] xt] yt].
  apply bind_ok_inv in H. destruct H as (s & w2 & Htry & H).
  apply ret_ok_inv in H. destruct H as [Heq _]. injection Heq as -> _.
  exists s. split; [reflexivity|].
  unfold try_except in Htry.
  destruct (fit_and_score est sc xs ys xt yt metric w1) as [[s0 | e] w3] eqn:F.
  - injection Htry as <- _. left. exact (@fit_and_score_finite _ _ _ _ _ _ _ _ _ F).
  - apply ret_ok_inv in Htry. destruct Htry as [-> _]. unfold worst_score.
    destruct (String.eqb_spec metric "log_loss") as [E | _].
    + right. split; [exact E | reflexivity].
    + left. eexists. reflexivity.
Qed.

Lemma objective_loop_scores (folds : list fold) :
  forall (sl sl' : list pyfloat) (c c' : Z) (w w' : world),
    for_each folds (calc_pipeline_acc_fold params x y bal_alg alg metric) (sl, c) w
      = (Ok (sl', c'), w') ->
    exists new, sl' = sl ++ new /\ List.length new = List.length folds /\
                Forall (objective_score metric) new.
Proof.
  induction folds as [|fd folds IH]; intros sl sl' c c' w w' H; simpl in H.
  - apply ret_ok_inv in H. destruct H as [Heq _]. injection Heq as -> _.
    exists []. rewrite app_nil_r. auto.
  - apply bind_ok_inv in H. destruct H as ([sl1 c1] & w1 & H1 & H).
    apply objective_fold_score in H1. destruct H1 as (s & -> & Hs).
    apply IH in H. destruct H as (new & -> & Hlen & Hall).
    exists (s :: new). rewrite <- app_assoc. simpl. auto.
Qed.

Lemma objective_scores_shape (scores : list pyfloat) (w w' : world) :
  calc_pipeline_acc_scores params x y bal_alg alg metric w = (Ok scores, w') ->
  List.length scores = 5%nat /\ Forall (objective_score metric) scores.
Proof.
  unfold calc_pipeline_acc_scores. cbv zeta. intros H.
  apply bind_ok_inv in H. destruct H as (folds & w1 & Hsplit & H).
  apply skf_split_length in Hsplit.
  apply bind_ok_inv in H. destruct H as ([sl c] & w2 & Hloop & H).
  apply ret_ok_inv in H. destruct H as [-> _].
  apply objective_loop_scores in Hloop. destruct Hloop as (new & -> & Hlen & Hall).
  simpl. split; [rewrite Hlen, Hsplit; reflexivity | exact Hall].
Qed.
End ObjectiveValue.

Lemma sum_objective_scores (metric : string) (l : list pyfloat) :
  Forall (objective_score metric) l ->
  forall acc, objective_score metric acc ->
              objective_score metric (fold_left Float.add l acc).
Proof.
  induction 1 as [|s l Hs _ IH]; intros acc Hacc; simpl; [exact Hacc|].
  apply IH.
  destruct Hacc as [[a ->] | [E ->]], Hs as [[b ->] | [E' ->]]; simpl;
    solve [left; eexists; reflexivity | right; split; [assumption | reflexivity]].
Qed.

Lemma mean_objective_scores (metric : string) (l : list pyfloat) :
  l <> [] -> Forall (objective_score metric) l ->
  objective_score metric (Float.mean l).
Proof.
  intros Hne Hall. unfold Float.mean, Float.sum.
  assert (objective_score metric (Fin 0)) as H0 by (left; eexists; reflexivity).
  pose proof (sum_objective_scores Hall H0) as Hsum.
  assert (0 < Z.of_nat (List.length l)) as Hlen by (destruct l; [contradiction | simpl; lia]).
  unfold Float.of_nat, Float.of_Z.
  destruct Hsum as [[q ->] | [E ->]]; simpl.
  - destruct (Qeq_bool (inject_Z (Z.of_nat (List.length l))) 0) eqn:Q0.
    + apply Qeq_bool_iff in Q0. unfold Qeq in Q0. simpl in Q0. lia.
    + left. eexists. reflexivity.
  - replace (Qle_bool 0 (inject_Z (Z.of_nat (List.length l)))) with true.
    + right. split; [exact E | reflexivity].
    + symmetry. apply Qle_bool_iff. unfold Qle. simpl. lia.
Qed.

(** X6: Whenever the search objective returns, the value it hands to the
    optimiser is a finite number, or +infinity, and +infinity only under
    log_loss: the mean is taken over five recorded scores, so it is never
    the [nan] of an empty mean, and a failed fold is recorded as 0 or as
    +infinity.  (The metric functions of the model return finite numbers.) *)
Theorem objective_value_is_finite_or_plus_infinity {ext : Externals}
    (params : ref) (x : matrix) (y : labels) (bal_alg alg metric : string)
    (v : pyfloat) (w w' : world) :
  calc_pipeline_acc params x y bal_alg alg metric w = (Ok v, w') ->
  objective_score metric v.
Proof.
  unfold calc_pipeline_acc. intros H.
  apply bind_ok_inv in H. destruct H as (scores & w1 & Hscores & H).
  apply ret_ok_inv in H. destruct H as [-> _].
  apply objective_scores_shape in Hscores. destruct Hscores as [Hlen Hall].
  assert (scores <> []) as Hne by (intros ->; discriminate).
  pose proof (mean_objective_scores Hne Hall) as Hmean.
  destruct (String.eqb_spec metric "log_loss") as [E | E]; simpl; [exact Hmean|].
  destruct Hmean as [[q ->] | [E' _]]; [|contradiction].
  left. eexists. reflexivity.
Qed.

Lemma run_result {A} (r : result A * world) (a : A) :
  fst r = Ok a -> r = (Ok a, snd r).
Proof. destruct r as [r w]. simpl. intros ->. reflexivity. Qed.

Lemma objective_value_is_finite_or_plus_infinity_witness :
  exists v,
    fst (@calc_pipeline_acc (demo_externals smote_fails) 0%nat demo_x demo_y
           "SMOTE" "RF" "log_loss" demo_world) = Ok v /\
    objective_score "log_loss" v.
Proof.
  eexists. split.
  - vm_compute. reflexivity.
  - apply (@objective_value_is_finite_or_plus_infinity (demo_externals smote_fails)
             0%nat demo_x demo_y "SMOTE" "RF" "log_loss" PInf demo_world
             (snd (@calc_pipeline_acc (demo_externals smote_fails) 0%nat demo_x demo_y
                     "SMOTE" "RF" "log_loss" demo_world))).
    apply run_result. vm_compute. reflexivity.
Defined.

(** ** What the handler of the objective does not enclose *)

(** X7: The correction on the first fold stands before the [try]: a trial
    dictionary without a sampling strategy makes the objective raise
    [KeyError] right after the split was requested, with no estimator
    fitted, no parameters set and the dictionary untouched. *)
Theorem objective_raises_on_missing_strategy {ext : Externals} (params : ref)
    (x : matrix) (y : labels) (bal_alg alg metric : string) (w : world)
    (d : paramdict) (est : pipeline) (x_train x_test : matrix)
    (y_train y_test : labels) :
  let skf := StratifiedKFold 5 true 42 in
  split_check skf x y = Ok tt ->
  np_take x (fst (split_nth skf x y 0)) = Ok x_train ->
  np_take x (snd (split_nth skf x y 0)) = Ok x_test ->
  np_take y (fst (split_nth skf x y 0)) = Ok y_train ->
  np_take y (snd (split_nth skf x y 0)) = Ok y_test ->
  new_pipeline bal_alg alg = Ok est ->
  nth_error (heap w) params = Some d ->
  dict_get String.eqb d "balancing__sampling_strategy"%string = None ->
  calc_pipeline_acc params x y bal_alg alg metric w
    = (Raise KeyError,
       {| log := log w ++ [EvSplit skf]; now_calls := now_calls w; heap := heap w |}).
Proof.
  intros skf Hcheck Hxtr Hxte Hytr Hyte Hpipe Hheap Hkey.
  unfold calc_pipeline_acc, calc_pipeline_acc_scores. cbv zeta. fold skf.
  unfold bind at 1. unfold bind at 1. rewrite (skf_split_ok x y skf w Hcheck).
  change (Z.to_nat (get_n_splits skf)) with 5%nat. cbn [seq map for_each].
  unfold bind at 1. unfold bind at 1. unfold calc_pipeline_acc_fold.
  unfold bind at 1. unfold prepare_fold.
  destruct (split_nth skf x y 0) as [train_index test_index]. simpl fst in *. simpl snd in *.
  unfold bind, lift, ret, correct_on_first_fold, load, dict_getitem. cbn [heap].
  rewrite Hxtr, Hxte, Hytr, Hyte, Hpipe. cbn [Z.eqb].
  unfold bind, lift. cbn [heap].
  rewrite (getitem_nth _ _ Hheap), Hkey. reflexivity.
Qed.

Lemma objective_raises_on_missing_strategy_witness :
  @calc_pipeline_acc (demo_externals never_fails) 0%nat demo_x demo_y
      "SMOTE" "RF" "accuracy" {| log := []; now_calls := 0; heap := [[]] |}
    = (Raise KeyError,
       {| log := [] ++ [EvSplit (StratifiedKFold 5 true 42)]; now_calls := 0;
          heap := [[]] |}).
Proof.
  eapply (@objective_raises_on_missing_strategy (demo_externals never_fails) 0%nat
            demo_x demo_y "SMOTE" "RF" "accuracy"
            {| log := []; now_calls := 0; heap := [[]] |} []);
    reflexivity.
Defined.

(** ** The integer coercion of the neighbour count *)

(** X8: When the coercion of the neighbour count returns, the dictionary keeps
    its keys and their order, every entry other than the two neighbour
    counts is unchanged, at most one neighbour count is converted ([elif]:
    with both present only [balancing__k_neighbors] becomes an integer and
    [balancing__n_neighbors] is left as it was), and coercing the result
    again changes nothing. *)
Theorem coerce_neighbors_effect (best best' : paramdict) :
  coerce_neighbors best = Ok best' ->
  map fst best' = map fst best /\
  (forall k, k <> "balancing__k_neighbors"%string ->
             k <> "balancing__n_neighbors"%string ->
             dict_get String.eqb best' k = dict_get String.eqb best k) /\
  (dict_mem String.eqb best "balancing__k_neighbors"%string = true ->
   (exists n, dict_get String.eqb best' "balancing__k_neighbors"%string = Some (VInt n)) /\
   dict_get String.eqb best' "balancing__n_neighbors"%string
     = dict_get String.eqb best "balancing__n_neighbors"%string) /\
  (dict_mem String.eqb best "balancing__k_neighbors"%string = false ->
   dict_mem String.eqb best "balancing__n_neighbors"%string = true ->
   exists n, dict_get String.eqb best' "balancing__n_neighbors"%string = Some (VInt n)) /\
  coerce_neighbors best' = Ok best'.
Proof.
  unfold coerce_neighbors, dict_getitem.
  destruct (dict_mem String.eqb best "balancing__k_neighbors"%string) eqn:Hk.
  - unfold dict_mem in Hk.
    destruct (dict_get String.eqb best "balancing__k_neighbors"%string) as [v|] eqn:Hv;
      [|discriminate].
    simpl. destruct (py_int v) as [n | e]; [|discriminate]. simpl.
    intros H. injection H as <-.
    split; [apply (dict_set_keys String.eqb); unfold dict_mem; rewrite Hv; reflexivity|].
    split; [intros k Hk1 _; apply (dict_get_set_other String.eqb String.eqb_eq); exact Hk1|].
    split; [intros _; split|split; [discriminate|]].
    + exists n. apply (dict_get_set_same String.eqb String.eqb_eq).
    + apply (dict_get_set_other String.eqb String.eqb_eq). discriminate.
    + unfold dict_mem. rewrite (dict_get_set_same String.eqb String.eqb_eq). simpl.
      rewrite (dict_set_set String.eqb String.eqb_eq). reflexivity.
  - destruct (dict_mem String.eqb best "balancing__n_neighbors"%string) eqn:Hn.
    + unfold dict_mem in Hn.
      destruct (dict_get String.eqb best "balancing__n_neighbors"%string) as [v|] eqn:Hv;
        [|discriminate].
      simpl. destruct (py_int v) as [n | e]; [|discriminate]. simpl.
      intros H. injection H as <-.
      split; [apply (dict_set_keys String.eqb); unfold dict_mem; rewrite Hv; reflexivity|].
      split; [intros k _ Hk2; apply (dict_get_set_other String.eqb String.eqb_eq); exact Hk2|].
      split; [discriminate|].
      split; [intros _ _; exists n; apply (dict_get_set_same String.eqb String.eqb_eq)|].
      unfold dict_mem in *.
      rewrite (dict_get_set_other String.eqb String.eqb_eq) by discriminate.
      destruct (dict_get String.eqb best "balancing__k_neighbors"%string); [discriminate|].
      rewrite (dict_get_set_same String.eqb String.eqb_eq). simpl.
      rewrite (dict_set_set String.eqb String.eqb_eq). reflexivity.
    + intros H. injection H as <-.
      split; [reflexivity|]. split; [reflexivity|].
      split; [discriminate|]. split; [discriminate|].
      rewrite Hk, Hn. reflexivity.
Qed.

Lemma coerce_neighbors_effect_witness :
  exists best',
    coerce_neighbors
      [("balancing__n_neighbors"%string, VFloat (Fin (7 # 2)));
       ("balancing__k_neighbors"%string, VFloat (Fin (5 # 1)))] = Ok best' /\
    dict_get String.eqb best' "balancing__k_neighbors"%string = Some (VInt 5) /\
    dict_get String.eqb best' "balancing__n_neighbors"%string
      = Some (VFloat (Fin (7 # 2))) /\
    coerce_neighbors best' = Ok best'.
Proof.
  eexists. split; [reflexivity|].
  pose proof (@coerce_neighbors_effect
                [("balancing__n_neighbors"%string, VFloat (Fin (7 # 2)));
                 ("balancing__k_neighbors"%string, VFloat (Fin (5 # 1)))]
                _ eq_refl) as (_ & _ & Hk & _ & Hidem).
  destruct (Hk eq_refl) as [_ Hn].
  split; [reflexivity | split; [exact Hn | exact Hidem]].
Defined.

(** ** The search for resampler parameters *)

(** X9: A resampler label without a search space, or an empty label array,
    stops [get_balance_params] with [KeyError] or [ValueError] before the
    search is started: nothing is logged and nothing is evaluated. *)
Theorem search_setup_errors_precede_search {ext : Externals} (x : matrix)
    (y : labels) (bal_alg alg : string) (hyp_time : Z) (metric : string) (w : world) :
  dict_get String.eqb space_dict bal_alg = None \/ y = [] ->
  exists e,
    (e = KeyError \/ e = ValueError) /\
    get_balance_params x y bal_alg alg hyp_time metric w = (Raise e, w).
Proof.
  intros H. unfold get_balance_params, dict_getitem. cbv zeta.
  destruct (dict_get String.eqb space_dict bal_alg) as [sp|] eqn:Hsp.
  - destruct H as [H | ->]; [discriminate|].
    exists ValueError. split; [right; reflexivity | reflexivity].
  - exists KeyError. split; [left; reflexivity | reflexivity].
Qed.

Lemma search_setup_errors_precede_search_witness :
  exists e,
    (e = KeyError \/ e = ValueError) /\
    @get_balance_params (demo_externals never_fails) demo_x demo_y
        "BorderlineSMOTE" "RF" 10 "accuracy" empty_world
      = (Raise e, empty_world).
Proof.
  apply (@search_setup_errors_precede_search (demo_externals never_fails)).
  left. reflexivity.
Defined.

(** ** The dedicated classifier *)

(** X10: A cross-validation run of AutoBalanceBoost ignores the resampler label
    and the search budget: it is the run with no resampler and no budget,
    and all it does is split, fit AutoBalanceBoost and predict with it; it
    never searches, sets parameters or fits a pipeline.  The final refit
    of AutoBalanceBoost only fits it. *)
Theorem dedicated_classifier_is_never_tuned {ext : Externals} (cv_type : string)
    (x : matrix) (y : labels) (bal_alg : option string) (hyperopt_time split_num : Z)
    (metric : string) :
  (forall w,
     fit_alg cv_type x y bal_alg "AutoBalanceBoost" hyperopt_time split_num metric w
       = fit_alg cv_type x y None "AutoBalanceBoost" 0 split_num metric w) /\
  emits dedicated_event
    (fit_alg cv_type x y bal_alg "AutoBalanceBoost" hyperopt_time split_num metric) /\
  emits (fun e => e = EvAbbFit)
    (fit_res_model "AutoBalanceBoost" x y hyperopt_time metric).
Proof.
  split; [reflexivity | split].
  - assert (forall skf, emits dedicated_event
                          (run_exp x y skf bal_alg "AutoBalanceBoost" hyperopt_time metric))
      as Hrun.
    { intros skf. change (emits dedicated_event (abb_exp x y skf metric)).
      unfold abb_exp. apply emits_bind.
      - unfold skf_split. emits_steps.
      - intros folds. apply emits_for_each. intros [train_index test_index] [sl tl].
        unfold abb_exp_fold. emits_steps. }
    unfold fit_alg. destruct (cv_type =? "split")%string.
    + apply emits_bind; [apply Hrun | intros [s t]; apply emits_ret].
    + apply emits_bind; [apply emits_lift | intros seeds].
      apply emits_for_each. intros seed [sl tl].
      apply emits_bind; [apply Hrun | intros [s t]; apply emits_ret].
  - unfold fit_res_model.
    change ("AutoBalanceBoost" =? "AutoBalanceBoost")%string with true. cbv iota.
    apply emits_bind; [apply emits_emit; reflexivity | intros _].
    apply emits_bind; [apply emits_lift | intros m; apply emits_ret].
Qed.

(** ** Option labels *)

Lemma py_split_not_empty (sep : Ascii.ascii) (s : string) : py_split sep s <> [].
Proof.
  induction s as [|c s IH]; simpl; [discriminate|].
  destruct (Ascii.eqb c sep); [discriminate|].
  destruct (py_split sep s); discriminate.
Qed.

Lemma py_split_no_sep (sep : Ascii.ascii) (s : string) :
  contains sep s = false -> py_split sep s = [s].
Proof.
  induction s as [|c s IH]; simpl; [reflexivity|].
  destruct (Ascii.eqb c sep); simpl; [discriminate|].
  intros H. rewrite (IH H). reflexivity.
Qed.

Lemma py_split_join (sep : Ascii.ascii) (a b : string) :
  contains sep a = false ->
  py_split sep (String.append a (String sep b)) = a :: py_split sep b.
Proof.
  induction a as [|c a IH]; simpl.
  - intros _. rewrite Ascii.eqb_refl. reflexivity.
  - destruct (Ascii.eqb c sep); simpl; [discriminate|].
    intros H. rewrite (IH H). reflexivity.
Qed.

Lemma contains_join (sep : Ascii.ascii) (a b : string) :
  contains sep (String.append a (String sep b)) = true.
Proof.
  induction a as [|c a IH]; simpl.
  - rewrite Ascii.eqb_refl. reflexivity.
  - rewrite IH. apply orb_true_r.
Qed.

Lemma new_pipeline_labels (bal_alg alg : string) (est : pipeline) :
  new_pipeline bal_alg alg = Ok est ->
  contains "+" bal_alg = false /\ contains "+" alg = false.
Proof.
  unfold new_pipeline, dict_getitem.
  destruct (dict_get String.eqb balance_dict bal_alg) as [b|] eqn:Hb; [|discriminate].
  destruct (dict_get String.eqb classificator_dict alg) as [c|] eqn:Hc; [|discriminate].
  intros _. split.
  - apply (dict_get_in String.eqb String.eqb_eq) in Hb;
      [|repeat constructor; simpl; intuition discriminate].
    simpl in Hb. decompose [or] Hb; try contradiction;
      match goal with H : (_, _) = (_, _) |- _ => injection H as <- _ end; reflexivity.
  - apply (dict_get_in String.eqb String.eqb_eq) in Hc;
      [|repeat constructor; simpl; intuition discriminate].
    simpl in Hc. decompose [or] Hc; try contradiction;
      match goal with H : (_, _) = (_, _) |- _ => injection H as <- _ end; reflexivity.
Qed.

(** X11: The label the driver builds for a pair of a resampler and a classifier
    is decoded by the final refit into the same pair: without a search
    budget, refitting under the label [bal_alg + "+" + alg] scales all the
    data, fits the untouched pipeline of exactly that resampler and that
    classifier once, and returns it with the fitted scaler. *)
Theorem refit_decodes_option_label {ext : Externals} (bal_alg alg : string)
    (x : matrix) (y : labels) (metric : string) (w : world)
    (xs : matrix) (sc : scaler) (est : pipeline) (f : fitted) :
  new_pipeline bal_alg alg = Ok est ->
  scale_data x = Ok (xs, sc) ->
  pipeline_fit est xs y = Ok f ->
  fit_res_model (String.append bal_alg (String.append "+" alg)) x y 0 metric w
    = (Ok (FittedPipeline f, Some sc),
       {| log := log w ++ [EvFit est]; now_calls := now_calls w; heap := heap w |}).
Proof.
  intros Hpipe Hscale Hfit.
  destruct (new_pipeline_labels _ _ Hpipe) as [Hbal Halg].
  unfold fit_res_model.
  replace (String.append bal_alg (String.append "+" alg) =? "AutoBalanceBoost")%string
    with false.
  - change (String.append "+" alg) with (String "+" alg).
    rewrite (py_split_join _ _ alg Hbal), (py_split_no_sep _ _ Halg).
    unfold bind, lift, ret, call_fit, emit. cbn [getitem nth_error negb Z.eqb].
    rewrite Hscale. cbv beta iota. rewrite Hpipe. unfold bind, lift.
    rewrite Hfit. reflexivity.
  - symmetry. apply String.eqb_neq. intros E.
    pose proof (contains_join "+" bal_alg alg) as Hc.
    change (String "+" alg) with (String.append "+" alg) in Hc.
    rewrite E in Hc. discriminate.
Qed.

Lemma refit_decodes_option_label_witness :
  exists est : pipeline,
    @fit_res_model (demo_externals never_fails) "SMOTE+RF" demo_x demo_y 0 "accuracy"
        empty_world
      = (Ok (@FittedPipeline (demo_externals never_fails) est, Some tt),
         {| log := [] ++ [EvFit est]; now_calls := 0; heap := [] |}) /\
    new_pipeline "SMOTE" "RF" = Ok est.
Proof.
  eexists. split.
  - apply (@refit_decodes_option_label (demo_externals never_fails) "SMOTE" "RF"
             demo_x demo_y "accuracy" empty_world demo_x tt); reflexivity.
  - reflexivity.
Defined.

(** X12: A label that is not AutoBalanceBoost and holds no "+" has no second
    part: the final refit raises [IndexError] before it scales, searches or
    fits anything. *)
Theorem refit_rejects_undivided_label {ext : Externals} (option_label : string)
    (x : matrix) (y : labels) (hyp_time : Z) (metric : string) (w : world) :
  option_label <> "AutoBalanceBoost"%string ->
  contains "+" option_label = false ->
  fit_res_model option_label x y hyp_time metric w = (Raise IndexError, w).
Proof.
  intros Hne Hplus. unfold fit_res_model.
  apply String.eqb_neq in Hne. rewrite Hne.
  rewrite (py_split_no_sep _ _ Hplus). reflexivity.
Qed.

Lemma refit_rejects_undivided_label_witness :
  @fit_res_model (demo_externals never_fails) "SMOTE" demo_x demo_y 0 "accuracy"
      empty_world
    = (Raise IndexError, empty_world).
Proof.
  apply (@refit_rejects_undivided_label (demo_externals never_fails));
    [discriminate | reflexivity].
Defined.

(** ** What the selection returns *)

Section Selection.
Context {ext : Externals}.
Variables (x : matrix) (y : labels).

Lemma evaluate_options_series (self : ilc) (w w' : world) (t : tables) :
  0 < split_num self ->
  evaluate_options self x y w = (Ok t, w') ->
  Forall (fun kv => Z.of_nat (List.length (snd kv)) = split_num self) (score_dict t) /\
  Forall (fun kv => Z.of_nat (List.length (snd kv)) = split_num self) (time_dict_ t).
Proof.
  intros Hpos H. unfold evaluate_options, classifier_labels, resampler_labels in H.
  cbn [for_each] in H. inv_ok. subst.
  repeat match goal with
    | H : fit_alg _ _ _ _ _ _ _ _ _ = (Ok (_, _), _) |- _ =>
        apply (fit_alg_lengths _ _ _ _ _ _ Hpos) in H; simpl in H; destruct H as [? ?]
    end.
  split; cbn; repeat (constructor; [simpl; assumption|]); constructor.
Qed.

Lemma fit_res_model_shape (option_label : string) (hyp_time : Z) (metric : string) :
  on_ok (fun r => (option_label = "AutoBalanceBoost"%string <-> snd r = None) /\
                  (option_label = "AutoBalanceBoost"%string <->
                   exists m, fst r = AutoBalanceBoost m))
        (fit_res_model option_label x y hyp_time metric).
Proof.
  unfold fit_res_model.
  destruct (String.eqb_spec option_label "AutoBalanceBoost") as [E | E].
  - on_ok_steps. apply on_ok_ret. simpl. split; split; eauto.
  - on_ok_steps; apply on_ok_ret; simpl;
      (split; split; [contradiction | discriminate | contradiction
                     | intros [? ?]; discriminate]).
Qed.

(** X13: Whatever the selection returns hangs together: the label is one of the
    seventeen candidates; the scaler is absent exactly when the label is
    AutoBalanceBoost, and exactly then the classifier is an AutoBalanceBoost
    model, otherwise a fitted pipeline; the interval is made of the 2.5th
    and 97.5th percentiles of the winner's own score series; and every
    candidate has [split_num] recorded scores and [split_num] recorded time
    entries. *)
Theorem selection_result_is_consistent (self : ilc) (w w' : world)
    (cls : model) (label : string) (score : pyfloat) (sc : option scaler)
    (sd : scores_dict) (td : times_dict) (ci : obj) :
  0 < split_num self ->
  choose_and_fit_ilc self x y w
    = (Ok [OModel cls; OStr label; OFloat score; OScaler sc; OScores sd; OTimes td; ci], w') ->
  In label candidates /\
  (label = "AutoBalanceBoost"%string <-> sc = None) /\
  (label = "AutoBalanceBoost"%string <-> exists m, cls = AutoBalanceBoost m) /\
  (exists series,
     dict_get String.eqb sd label = Some series /\
     Z.of_nat (List.length series) = split_num self /\
     ci = OInterval (np_percentile series (25 # 10)) (np_percentile series (975 # 10))) /\
  Forall (fun kv => Z.of_nat (List.length (snd kv)) = split_num self) sd /\
  Forall (fun kv => Z.of_nat (List.length (snd kv)) = split_num self) td.
Proof.
  intros Hpos H. unfold choose_and_fit_ilc in H. inv_ok. subst.
  match goal with
  | H : evaluate_options _ _ _ _ = (Ok ?t, _) |- _ =>
      destruct (@evaluate_options_tables _ _ _ _ _ _ _ Hpos H) as (Hkeys & _ & _ & Hres & _);
      destruct (@evaluate_options_series _ _ _ _ Hpos H) as (Hscores & Htimes);
      rename t into tb
  end.
  match goal with H : _ :: _ = _ :: _ |- _ => injection H as -> -> -> -> -> -> -> end.
  match goal with
  | H : fit_res_model _ _ _ _ _ _ = (Ok _, _) |- _ =>
      apply fit_res_model_shape in H; simpl in H; destruct H as [Hsc Hcls]
  end.
  match goal with
  | H : dict_getitem _ (score_dict tb) ?k = Ok ?s |- _ =>
      unfold dict_getitem in H;
      destruct (dict_get String.eqb (score_dict tb) k) as [series|] eqn:Hget;
        [injection H as <-|discriminate];
      assert (In (k, series) (score_dict tb)) as Hin
        by (apply (dict_get_in String.eqb String.eqb_eq);
              [rewrite Hkeys; apply NoDup_candidates | exact Hget])
  end.
  split; [|split; [exact Hsc | split; [exact Hcls | split; [|split; assumption]]]].
  - rewrite <- Hkeys. apply (in_map fst) in Hin. exact Hin.
  - exists series. split; [reflexivity | split; [|reflexivity]].
    rewrite Forall_forall in Hscores. exact (Hscores _ Hin).
Qed.
End Selection.

Lemma selection_result_is_consistent_witness :
  exists label (sc : option unit) (sd : scores_dict) series,
    In label candidates /\
    (label = "AutoBalanceBoost"%string <-> sc = None) /\
    dict_get String.eqb sd label = Some series /\
    Z.of_nat (List.length series) = 6.
Proof.
  eexists. eexists. eexists.
  edestruct (@selection_result_is_consistent (demo_externals never_fails) demo_x demo_y
               (ilc_init 6 0 "accuracy") empty_world)
    as (Hin & Hsc & _ & (series & Hget & Hlen & _) & _ & _).
  - simpl. lia.
  - vm_compute. reflexivity.
  - exists series. split; [exact Hin | split; [exact Hsc | split; [exact Hget | exact Hlen]]].
Defined.

(** ** Recorded times *)

Lemma for_each_invariant {A St} (I : St -> Prop) (l : list A) (body : A -> St -> M St) :
  (forall a s w s' w', body a s w = (Ok s', w') -> I s -> I s') ->
  forall s w s' w', for_each l body s w = (Ok s', w') -> I s -> I s'.
Proof.
  intros Hbody. induction l as [|a l IH]; intros s w s' w' H Hs; simpl in H.
  - apply ret_ok_inv in H. destruct H as [-> _]. exact Hs.
  - apply bind_ok_inv in H. destruct H as (s1 & w1 & H1 & H).
    eapply IH; [exact H|]. eapply Hbody; [exact H1 | exact Hs].
Qed.

Section Times.
Context {ext : Externals}.
Variables (x : matrix) (y : labels).

Lemma now_inv (w w' : world) (t : Z) :
  now w = (Ok t, w') -> t = clock (now_calls w) /\ now_calls w' = S (now_calls w).
Proof. unfold now. intros H. injection H as <- <-. auto. Qed.

Lemma emit_clock (e : event) (w w' : world) (u : unit) :
  emit e w = (Ok u, w') -> now_calls w' = now_calls w.
Proof. unfold emit. intros H. injection H as _ <-. reflexivity. Qed.

Lemma call_fit_clock (est : pipeline) (x' : matrix) (y' : labels) (f : fitted)
    (w w' : world) :
  call_fit est x' y' w = (Ok f, w') -> now_calls w' = now_calls w.
Proof.
  unfold call_fit. intros H. inv_ok. subst.
  match goal with H : emit _ _ = _ |- _ => apply emit_clock in H; exact H end.
Qed.

Lemma call_predict_clock (f : fitted) (x' : matrix) (p : prediction) (w w' : world) :
  call_predict f x' w = (Ok p, w') -> now_calls w' = now_calls w.
Proof.
  unfold call_predict. intros H. inv_ok. subst.
  match goal with H : emit _ _ = _ |- _ => apply emit_clock in H; exact H end.
Qed.

Lemma call_predict_proba_clock (f : fitted) (x' : matrix) (p : prediction)
    (w w' : world) :
  call_predict_proba f x' w = (Ok p, w') -> now_calls w' = now_calls w.
Proof.
  unfold call_predict_proba. intros H. inv_ok. subst.
  match goal with H : emit _ _ = _ |- _ => apply emit_clock in H; exact H end.
Qed.
Lemma balance_exp_fold_times (bal_alg alg : string) (hyperopt_time : Z)
    (metric : string) (fd : fold) (sl sl' : list Q) (tl tl' : list time_dict)
    (w w' : world) :
  balance_exp_fold x y bal_alg alg hyperopt_time metric fd (sl, tl) w
    = (Ok (sl', tl'), w') ->
  exists n, tl' = tl ++ [time_entry_at n].
Proof.
  unfold balance_exp_fold. destruct fd as [train_index test_index]. intros H.
  destruct (wants_proba metric); inv_ok; subst;
    repeat match goal with
      | H : now _ = (Ok _, _) |- _ => apply now_inv in H; destruct H as [-> ?]
      | H : call_fit _ _ _ _ = (Ok _, _) |- _ => apply call_fit_clock in H
      | H : call_predict _ _ _ = (Ok _, _) |- _ => apply call_predict_clock in H
      | H : call_predict_proba _ _ _ = (Ok _, _) |- _ => apply call_predict_proba_clock in H
      end;
    match goal with
    | H : (sl', tl') = _ |- _ => injection H as -> ->
    end;
    match goal with
    | |- context [("train_time"%string, _ - clock (now_calls ?b))] =>
        exists (now_calls b)
    end;
    unfold time_entry_at; simpl;
    repeat match goal with
      | H : now_calls _ = _ |- _ => rewrite H in *; clear H
      end;
    reflexivity.
Qed.
Lemma abb_exp_fold_times (metric : string) (fd : fold) (sl sl' : list Q)
    (tl tl' : list time_dict) (w w' : world) :
  abb_exp_fold x y metric fd (sl, tl) w = (Ok (sl', tl'), w') ->
  exists n, tl' = tl ++ [time_entry_at n].
Proof.
  unfold abb_exp_fold. destruct fd as [train_index test_index]. intros H.
  destruct (wants_proba metric); inv_ok; subst;
    repeat match goal with
      | H : now _ = (Ok _, _) |- _ => apply now_inv in H; destruct H as [-> ?]
      | H : emit _ _ = (Ok _, _) |- _ => apply emit_clock in H
      end;
    match goal with
    | H : (sl', tl') = _ |- _ => injection H as -> ->
    end;
    match goal with
    | |- context [("train_time"%string, _ - clock (now_calls ?b))] =>
        exists (now_calls b)
    end;
    unfold time_entry_at; simpl;
    repeat match goal with
      | H : now_calls _ = _ |- _ => rewrite H in *; clear H
      end;
    reflexivity.
Qed.

Lemma run_exp_times (skf : splitter) (bal_alg : option string) (alg : string)
    (hyperopt_time : Z) (metric : string) (sl : list Q) (tl : list time_dict)
    (w w' : world) :
  run_exp x y skf bal_alg alg hyperopt_time metric w = (Ok (sl, tl), w') ->
  Forall (fun td => exists n, td = time_entry_at n) tl.
Proof.
  unfold run_exp. intros H.
  destruct (alg =? "AutoBalanceBoost")%string; [|destruct bal_alg as [b|]; [|discriminate]].
  - unfold abb_exp in H. apply bind_ok_inv in H. destruct H as (folds & w1 & _ & H).
    apply (@for_each_invariant _ _
             (fun st => Forall (fun td => exists n, td = time_entry_at n) (snd st)))
      in H; [exact H | | constructor].
    intros fd [sl0 tl0] w0 [sl1 tl1] w2 Hfold Hinv. simpl in *.
    apply abb_exp_fold_times in Hfold. destruct Hfold as [n ->].
    apply Forall_app. split; [exact Hinv | repeat constructor; exists n; reflexivity].
  - unfold balance_exp in H. apply bind_ok_inv in H. destruct H as (folds & w1 & _ & H).
    apply (@for_each_invariant _ _
             (fun st => Forall (fun td => exists n, td = time_entry_at n) (snd st)))
      in H; [exact H | | constructor].
    intros fd [sl0 tl0] w0 [sl1 tl1] w2 Hfold Hinv. simpl in *.
    apply balance_exp_fold_times in Hfold. destruct Hfold as [n ->].
    apply Forall_app. split; [exact Hinv | repeat constructor; exists n; reflexivity].
Qed.
(** X14: Every time entry a cross-validation run records, for a pipeline or for
    AutoBalanceBoost, holds exactly the two keys train_time and
    predict_time, in this order; the training time is the difference of two
    consecutive clock readings and the prediction time the difference of
    the next two.  With a clock that never runs backwards no recorded time
    is negative. *)
Theorem recorded_times_are_clock_differences (cv_type : string)
    (bal_alg : option string) (alg : string) (hyperopt_time split_num : Z)
    (metric : string) (w w' : world) (scores : list Q) (times : list time_dict) :
  fit_alg cv_type x y bal_alg alg hyperopt_time split_num metric w
    = (Ok (scores, times), w') ->
  Forall (fun td => exists n, td = time_entry_at n) times /\
  ((forall n, clock n <= clock (S n)) ->
   Forall (fun td => Forall (fun kv => 0 <= snd kv) td) times).
Proof.
  intros H.
  assert (Forall (fun td => exists n, td = time_entry_at n) times) as Hall.
  { unfold fit_alg in H. destruct (cv_type =? "split")%string.
    - apply bind_ok_inv in H. destruct H as ([s t] & w1 & Hrun & H).
      apply ret_ok_inv in H. destruct H as [H _]. injection H as -> ->.
      apply run_exp_times in Hrun. exact Hrun.
    - apply bind_ok_inv in H. destruct H as (seeds & w1 & _ & H).
      apply (@for_each_invariant _ _
               (fun st => Forall (fun td => exists n, td = time_entry_at n) (snd st)))
        in H; [exact H | | constructor].
      intros seed [sl0 tl0] w0 [sl1 tl1] w2 Hbody Hinv. simpl in *.
      apply bind_ok_inv in Hbody. destruct Hbody as ([s t] & w3 & Hrun & Hbody).
      apply ret_ok_inv in Hbody. destruct Hbody as [Hbody _]. injection Hbody as -> ->.
      apply run_exp_times in Hrun. apply Forall_app. auto. }
  split; [exact Hall|].
  intros Hclock. eapply Forall_impl; [|exact Hall].
  intros td [n ->]. unfold time_entry_at. repeat constructor; simpl.
  - specialize (Hclock n). lia.
  - specialize (Hclock (S (S n))). lia.
Qed.
End Times.

Lemma recorded_times_are_clock_differences_witness :
  exists scores times w',
    @fit_alg (demo_externals never_fails) "split" demo_x demo_y
        (Some "SMOTE"%string) "RF" 0 2 "accuracy" empty_world
      = (Ok (scores, times), w') /\
    Forall (fun td => exists n, td = @time_entry_at (demo_externals never_fails) n) times.
Proof.
  eexists. eexists. eexists. split.
  - vm_compute. reflexivity.
  - eapply proj1.
    eapply (@recorded_times_are_clock_differences (demo_externals never_fails)
              demo_x demo_y "split" (Some "SMOTE"%string) "RF" 0 2 "accuracy" empty_world).
    vm_compute. reflexivity.
Defined.

(** ** Ranks and first places on the leaderboard *)

Lemma distinct_nil (l : list Q) : distinct l = [] -> l = [].
Proof.
  induction l as [|a l IH]; simpl; [reflexivity|].
  destruct (existsb (Qeq_bool a) l) eqn:E; [|discriminate].
  intros H. rewrite (IH H) in E. discriminate.
Qed.

Lemma distinct_length (l : list Q) : (List.length (distinct l) <= List.length l)%nat.
Proof.
  induction l as [|a l IH]; simpl; [lia|].
  destruct (existsb (Qeq_bool a) l); simpl; lia.
Qed.

Lemma filter_nil_forallb {A} (p : A -> bool) (l : list A) :
  (List.length (filter (fun a => negb (p a)) l) =? 0)%nat = forallb p l.
Proof.
  induction l as [|a l IH]; simpl; [reflexivity|].
  destruct (p a); simpl; [exact IH | reflexivity].
Qed.

Lemma forallb_of_map {A B} (p : B -> bool) (g : A -> B) (l : list A) :
  forallb p (map g l) = forallb (fun a => p (g a)) l.
Proof. induction l as [|a l IH]; simpl; [reflexivity | rewrite IH; reflexivity]. Qed.

Lemma filter_of_map_length {A B} (p : B -> bool) (g : A -> B) (l : list A) :
  List.length (filter p (map g l)) = List.length (filter (fun a => p (g a)) l).
Proof.
  induction l as [|a l IH]; simpl; [reflexivity|].
  destruct (p (g a)); simpl; rewrite IH; reflexivity.
Qed.

Lemma Qle_bool_opp (a b : Q) : Qle_bool (- a) (- b) = Qle_bool b a.
Proof.
  destruct (Qle_bool b a) eqn:E.
  - apply Qle_bool_iff. apply Qopp_le_compat. apply Qle_bool_iff. exact E.
  - destruct (Qle_bool (- a) (- b)) eqn:E'; [|reflexivity].
    apply Qle_bool_iff in E'. apply Qopp_le_compat in E'. rewrite !Qopp_opp in E'.
    apply Qle_bool_iff in E'. congruence.
Qed.

(** The dense rank of an entry is 1 exactly when no entry of the row is
    strictly below it. *)
Lemma rankdata_dense_first (row : list Q) (i : nat) (v : Q) :
  nth_error row i = Some v ->
  exists r, nth_error (rankdata_dense row) i = Some r /\
            1 <= r <= Z.of_nat (List.length row) /\
            (r =? 1) = forallb (fun u => Qle_bool v u) row.
Proof.
  intros Hv. unfold rankdata_dense. rewrite nth_error_map, Hv. cbn [option_map].
  eexists. split; [reflexivity|].
  set (below := filter (fun u => negb (Qle_bool v u)) row).
  assert (List.length below < List.length row)%nat as Hlt.
  { subst below. apply nth_error_In in Hv. clear i.
    induction row as [|a row IH]; [contradiction|]. simpl.
    destruct Hv as [-> | Hin].
    - replace (Qle_bool v v) with true by (symmetry; apply Qle_bool_iff; apply Qle_refl).
      simpl. pose proof (filter_length_le (fun u => negb (Qle_bool v u)) row). lia.
    - specialize (IH Hin). destruct (negb (Qle_bool v a)); simpl; lia. }
  pose proof (distinct_length below) as Hd.
  split; [lia|].
  rewrite <- (filter_nil_forallb (fun u => Qle_bool v u) row). fold below.
  destruct (distinct below) as [|d ds] eqn:E.
  - apply distinct_nil in E. rewrite E. reflexivity.
  - destruct below as [|u below']; [discriminate|]. cbn [List.length Nat.eqb].
    apply Z.eqb_neq. lia.
Qed.

Lemma map2_snoc_seq {A} (f : Q -> A) (g : nat -> list A) (s : list Q) :
  forall i,
    map2 (fun r v => r ++ [f v]) (map g (seq i (List.length s))) s
      = map (fun j => g j ++ [f (nth (j - i) s 0%Q)]) (seq i (List.length s)).
Proof.
  induction s as [|v s IH]; intros i; simpl; [reflexivity|].
  rewrite Nat.sub_diag. f_equal. rewrite IH. apply map_ext_in.
  intros j Hj. apply in_seq in Hj.
  replace (j - i)%nat with (S (j - S i)) by lia. reflexivity.
Qed.

Lemma take_column_nth (rows : list (list Z)) (c i : nat) :
  Forall (fun r => List.length r = c) rows -> (i < c)%nat ->
  take_column rows i = Ok (map (fun r => nth i r 0) rows).
Proof.
  intros Hall Hi. induction Hall as [|r rows Hr Hall IH]; simpl; [reflexivity|].
  rewrite (@getitem_nth _ r i (nth i r 0)) by (apply nth_error_nth'; lia).
  rewrite rbind_ok, IH. reflexivity.
Qed.

Section Ranks.
Context {ext : Externals}.
Variable self : ilc.
Variable scores : scores_dict.
Hypothesis Hnodup : NoDup (map fst scores).
Hypothesis Hlengths :
  Forall (fun kv => List.length (snd kv) = Z.to_nat (split_num self)) scores.

(** The first loop transposes the series: row [j] holds the scores of fold
    [j] of all candidates, in their order, negated unless the metric is
    log_loss. *)
Lemma collect_rows :
  collect_means_and_columns self scores
    = Ok (means_of scores,
          map (ranked_row (eval_metric self) scores) (seq 0 (Z.to_nat (split_num self)))).
Proof.
  unfold collect_means_and_columns.
  set (n := Z.to_nat (split_num self)).
  assert (forall suf pre,
            scores = pre ++ suf ->
            fold_left
              (fun acc el => (st <- acc ;; collect_step self scores st el)%result)
              (map fst suf)
              (Ok (means_of pre, map (ranked_row (eval_metric self) pre) (seq 0 n)))
            = Ok (means_of scores, map (ranked_row (eval_metric self) scores) (seq 0 n)))
    as Hloop.
  { induction suf as [|[k s] suf IH]; intros pre Hsc.
    - rewrite app_nil_r in Hsc. subst pre. reflexivity.
    - cbn [map fst fold_left]. rewrite rbind_ok.
      assert (In (k, s) scores) as Hin
        by (rewrite Hsc; apply in_or_app; right; left; reflexivity).
      assert (List.length s = n) as Hs.
      { pose proof Hlengths as Hl. rewrite Forall_forall in Hl. apply (Hl _ Hin). }
      set (f := fun v : Q => if (eval_metric self =? "log_loss")%string then v else (- v)%Q).
      set (rows := map (ranked_row (eval_metric self) pre) (seq 0 n)).
      assert (for_enumerate s
                (fun i val sub_rank_list =>
                   if (eval_metric self =? "log_loss")%string
                   then append_at sub_rank_list i val
                   else append_at sub_rank_list i (- val)%Q) rows
              = Ok (map2 (fun r v => r ++ [f v]) rows s)) as Hcol.
      { pose proof (@append_column _ f s [] rows) as Hc. simpl in Hc.
        rewrite <- Hc by (subst rows; rewrite length_map, length_seq; lia).
        unfold for_enumerate. subst f.
        destruct (eval_metric self =? "log_loss")%string; reflexivity. }
      assert (dict_set String.eqb (means_of pre) k (np_mean_scores s)
              = means_of (pre ++ [(k, s)])) as Hmd.
      { unfold means_of at 2. rewrite map_app.
        apply (dict_set_append String.eqb String.eqb_eq).
        rewrite means_of_keys. pose proof Hnodup as Hnd.
        rewrite Hsc, map_app in Hnd. simpl in Hnd.
        apply NoDup_remove_2 in Hnd. intros Hk. apply Hnd.
        apply in_or_app. left. exact Hk. }
      assert (map2 (fun r v => r ++ [f v]) rows s
              = map (ranked_row (eval_metric self) (pre ++ [(k, s)])) (seq 0 n)) as Hrows.
      { subst rows. rewrite <- Hs. rewrite map2_snoc_seq. apply map_ext.
        intros j. unfold ranked_row. rewrite map_app, Nat.sub_0_r. reflexivity. }
      assert (collect_step self scores (means_of pre, rows) k
              = Ok (means_of (pre ++ [(k, s)]),
                    map (ranked_row (eval_metric self) (pre ++ [(k, s)])) (seq 0 n)))
        as Hstep.
      { unfold collect_step, dict_getitem.
        rewrite (proj2 (dict_get_in String.eqb String.eqb_eq scores k s Hnodup) Hin).
        rewrite rbind_ok, Hcol, rbind_ok, Hmd, Hrows. reflexivity. }
      rewrite Hstep. apply IH. rewrite <- app_assoc. exact Hsc. }
  rewrite <- (Hloop scores [] eq_refl). f_equal. f_equal. f_equal.
  clear Hloop. generalize 0%nat. induction n as [|n IH]; intros i; simpl;
    [reflexivity | f_equal; apply IH].
Qed.
(** The rank of the candidate at position [i] in fold [j]: between 1 and
    the number of candidates, and 1 exactly when the candidate is among the
    best of the fold. *)
Lemma rank_of_candidate (i : nat) (k : string) (s : list Q) (j : nat) :
  nth_error scores i = Some (k, s) ->
  1 <= nth i (rankdata_dense (ranked_row (eval_metric self) scores j)) 0
    <= Z.of_nat (List.length scores) /\
  (nth i (rankdata_dense (ranked_row (eval_metric self) scores j)) 0 =? 1)
    = best_in_fold (eval_metric self) scores s j.
Proof.
  intros Hi.
  set (g := fun kv : string * list Q =>
              if (eval_metric self =? "log_loss")%string then nth j (snd kv) 0%Q
              else (- nth j (snd kv) 0)%Q).
  assert (nth_error (ranked_row (eval_metric self) scores j) i = Some (g (k, s))) as Hv
    by (unfold ranked_row; rewrite nth_error_map, Hi; reflexivity).
  destruct (rankdata_dense_first _ _ Hv) as (r & Hr & Hbound & Hone).
  rewrite (nth_error_nth _ _ 0 Hr).
  split.
  - unfold ranked_row in Hbound. rewrite length_map in Hbound. exact Hbound.
  - rewrite Hone. unfold ranked_row. rewrite forallb_of_map. unfold best_in_fold.
    clear. induction scores as [|kv l IH]; simpl; [reflexivity|].
    rewrite IH. f_equal. unfold g. simpl.
    destruct (eval_metric self =? "log_loss")%string; [reflexivity | apply Qle_bool_opp].
Qed.

(** The column of the rank array that belongs to a candidate. *)
Lemma rank_column (i : nat) (k : string) (s : list Q) :
  nth_error scores i = Some (k, s) ->
  exists col,
    take_column
      (map rankdata_dense
         (map (ranked_row (eval_metric self) scores) (seq 0 (Z.to_nat (split_num self)))))
      i = Ok col /\
    List.length col = Z.to_nat (split_num self) /\
    Forall (fun r => 1 <= r <= Z.of_nat (List.length scores)) col /\
    count_ones col
      = first_places (eval_metric self) scores s (Z.to_nat (split_num self)).
Proof.
  intros Hi.
  assert (i < List.length scores)%nat as Hlt by (apply nth_error_Some; congruence).
  eexists. split; [|split; [|split]].
  - apply (@take_column_nth _ (List.length scores)); [|exact Hlt].
    apply Forall_map. apply Forall_map. apply Forall_forall. intros j _.
    rewrite rankdata_dense_length. unfold ranked_row. apply length_map.
  - rewrite !length_map, length_seq. reflexivity.
  - rewrite !map_map. apply Forall_map. apply Forall_forall. intros j _.
    apply (@rank_of_candidate i k s j Hi).
  - unfold count_ones, first_places. rewrite !map_map, filter_of_map_length.
    f_equal. apply filter_ext. intros j. apply (@rank_of_candidate i k s j Hi).
Qed.
Lemma share_value (wins n : nat) :
  (0 < n)%nat ->
  Float.mul (Float.div (Float.of_nat wins) (Float.of_nat n)) (Float.of_Z 100)
    = Fin (inject_Z (Z.of_nat wins) / inject_Z (Z.of_nat n) * inject_Z 100)%Q.
Proof.
  intros Hn. unfold Float.of_nat, Float.of_Z, Float.div.
  destruct (Qeq_bool (inject_Z (Z.of_nat n)) 0) eqn:E; [|reflexivity].
  apply Qeq_bool_iff in E. unfold Qeq in E. simpl in E. lia.
Qed.

Lemma sum_between (lo hi : Z) (col : list Z) :
  Forall (fun r => lo <= r <= hi) col ->
  forall acc : Q,
    (inject_Z lo * inject_Z (Z.of_nat (List.length col)) + acc
       <= fold_left Qplus (map inject_Z col) acc
       <= inject_Z hi * inject_Z (Z.of_nat (List.length col)) + acc)%Q.
Proof.
  induction 1 as [|r col Hr _ IH]; intros acc.
  - cbn [map fold_left List.length]. change (inject_Z (Z.of_nat 0)) with 0%Q.
    rewrite !Qmult_0_r. split; lra.
  - cbn [map fold_left List.length]. rewrite Nat2Z.inj_succ. unfold Z.succ.
    rewrite inject_Z_plus. destruct (IH (acc + inject_Z r)%Q) as [Hlo Hhi].
    assert (inject_Z lo <= inject_Z r <= inject_Z hi)%Q as [Hl Hh]
      by (rewrite <- !Zle_Qle; exact Hr).
    change (inject_Z 1) with 1%Q. split.
    + rewrite Qmult_plus_distr_r, Qmult_1_r. lra.
    + rewrite Qmult_plus_distr_r, Qmult_1_r. lra.
Qed.

Lemma mean_rank_between (k : nat) (col : list Z) :
  col <> [] ->
  Forall (fun r => 1 <= r <= Z.of_nat k) col ->
  rank_between k (Float.mean (map Float.of_Z col)).
Proof.
  intros Hne Hall.
  replace (map Float.of_Z col) with (map Fin (map inject_Z col))
    by (rewrite map_map; reflexivity).
  rewrite mean_fin by (destruct col; [contradiction | discriminate]).
  destruct (sum_between Hall 0) as [Hlo Hhi].
  rewrite length_map.
  set (n := Z.of_nat (List.length col)) in *.
  assert (0 < n) as Hn by (subst n; destruct col; [contradiction | simpl; lia]).
  eexists. split; [reflexivity|].
  assert (0 < inject_Z n)%Q as Hnq
    by (change 0%Q with (inject_Z 0); rewrite <- Zlt_Qlt; exact Hn).
  split.
  - apply Qle_shift_div_l; [exact Hnq|]. change (inject_Z 1) with 1%Q in Hlo. lra.
  - apply Qle_shift_div_r; [exact Hnq|]. lra.
Qed.
Variable leader : string.
Hypothesis Hpos : 0 < split_num self.

(** What one pass of the second loop stores for a candidate. *)
Lemma board_step_entries (i : nat) (k : string) (s : list Q) (b b1 : board) :
  nth_error scores i = Some (k, s) ->
  board_step scores leader
    (map rankdata_dense
       (map (ranked_row (eval_metric self) scores) (seq 0 (Z.to_nat (split_num self)))))
    i k b = Ok b1 ->
  leader_share b1
    = dict_set String.eqb (leader_share b) k
        (first_place_share (eval_metric self) scores (Z.to_nat (split_num self)) s) /\
  exists r, rank_between (List.length scores) r /\
            rank_dict b1 = dict_set String.eqb (rank_dict b) k r.
Proof.
  intros Hi H. destruct (@rank_column i k s Hi) as (col & Hcol & Hlen & Hbound & Hones).
  assert (0 < Z.to_nat (split_num self))%nat as Hn by lia.
  unfold board_step, np_column in H.
  destruct (map rankdata_dense
              (map (ranked_row (eval_metric self) scores)
                 (seq 0 (Z.to_nat (split_num self))))) as [|r0 rows0] eqn:Hrows.
  { apply (f_equal (@List.length _)) in Hrows.
    rewrite !length_map, length_seq in Hrows. simpl in Hrows. lia. }
  rewrite Hcol, rbind_ok in H.
  assert (List.length (r0 :: rows0) = Z.to_nat (split_num self)) as Hrl
    by (rewrite <- Hrows, !length_map, length_seq; reflexivity).
  rewrite Hrl, Hones, (share_value _ Hn) in H.
  assert (rank_between (List.length scores) (Float.mean (map Float.of_Z col))) as Hrank.
  { apply mean_rank_between; [|exact Hbound].
    intros ->. simpl in Hlen. lia. }
  destruct (negb (k =? leader)%string).
  - destruct (dict_getitem String.eqb scores k) as [s_el|]; [|discriminate].
    destruct (dict_getitem String.eqb scores leader) as [s_leader|]; [|discriminate].
    simpl in H.
    destruct (np_elementwise Float.sub (map Fin s_el) (map Fin s_leader)) as [d|];
      [|discriminate].
    simpl in H.
    destruct (np_elementwise Float.div d (map Fin s_leader)) as [d'|]; [|discriminate].
    simpl in H. injection H as <-. simpl. split; [reflexivity|].
    eexists. split; [exact Hrank | reflexivity].
  - injection H as <-. simpl. split; [reflexivity|].
    eexists. split; [exact Hrank | reflexivity].
Qed.
(** The second loop leaves one share and one mean rank per candidate, in
    the order of the candidates. *)
Lemma collect_board_entries (b : board) :
  collect_board scores leader
    (map rankdata_dense
       (map (ranked_row (eval_metric self) scores) (seq 0 (Z.to_nat (split_num self)))))
    = Ok b ->
  leader_share b
    = map (fun kv => (fst kv, first_place_share (eval_metric self) scores
                                (Z.to_nat (split_num self)) (snd kv))) scores /\
  map fst (rank_dict b) = map fst scores /\
  Forall (fun kv => rank_between (List.length scores) (snd kv)) (rank_dict b).
Proof.
  unfold collect_board, for_enumerate.
  set (model_rank := map rankdata_dense _).
  set (share := fun kv : string * list Q =>
                  (fst kv, first_place_share (eval_metric self) scores
                             (Z.to_nat (split_num self)) (snd kv))).
  assert (forall suf pre b0,
            scores = pre ++ suf ->
            leader_share b0 = map share pre ->
            map fst (rank_dict b0) = map fst pre ->
            Forall (fun kv => rank_between (List.length scores) (snd kv)) (rank_dict b0) ->
            for_enumerate_from (List.length pre) (map fst suf)
              (board_step scores leader model_rank) b0 = Ok b ->
            leader_share b = map share scores /\
            map fst (rank_dict b) = map fst scores /\
            Forall (fun kv => rank_between (List.length scores) (snd kv)) (rank_dict b))
    as Hloop.
  { induction suf as [|[k s] suf IH]; intros pre b0 Hsc Hshare Hkeys Hranks H.
    - rewrite app_nil_r in Hsc. subst pre. simpl in H. injection H as <-. auto.
    - cbn [map fst for_enumerate_from] in H.
      destruct (board_step scores leader model_rank (List.length pre) k b0)
        as [b1|] eqn:Hstep; [|discriminate].
      rewrite rbind_ok in H.
      assert (nth_error scores (List.length pre) = Some (k, s)) as Hi
        by (rewrite Hsc, nth_error_app2, Nat.sub_diag by lia; reflexivity).
      destruct (@board_step_entries _ k s b0 b1 Hi Hstep) as (Hs1 & r & Hr & Hr1).
      assert (~ In k (map fst pre)) as Hfresh.
      { pose proof Hnodup as Hnd. rewrite Hsc, map_app in Hnd. simpl in Hnd.
        apply NoDup_remove_2 in Hnd. intros Hk. apply Hnd. apply in_or_app. left. exact Hk. }
      replace (S (List.length pre)) with (List.length (pre ++ [(k, s)])) in H
        by (rewrite length_app; simpl; lia).
      apply (IH (pre ++ [(k, s)]) b1); [rewrite <- app_assoc; exact Hsc | | | | exact H].
      + rewrite Hs1, Hshare, map_app.
        apply (dict_set_append String.eqb String.eqb_eq).
        rewrite map_map. exact Hfresh.
      + rewrite Hr1, (dict_set_append String.eqb String.eqb_eq)
          by (rewrite Hkeys; exact Hfresh).
        rewrite !map_app, Hkeys. reflexivity.
      + rewrite Hr1, (dict_set_append String.eqb String.eqb_eq)
          by (rewrite Hkeys; exact Hfresh).
        apply Forall_app. split; [exact Hranks | repeat constructor; exact Hr]. }
  apply (Hloop scores []); [reflexivity | reflexivity | reflexivity | constructor].
Qed.
End Ranks.

(** On well-formed score tables [calc_leaderboard] returns, with the rank
    and share mappings of the second loop sorted under their headings. *)
Lemma calc_leaderboard_board {ext : Externals} (self : ilc) (scores : scores_dict) :
  evaluated_models_scores_ self = Some (OScores scores) ->
  NoDup (map fst scores) ->
  scores <> [] ->
  0 < split_num self ->
  Forall (fun kv => List.length (snd kv) = Z.to_nat (split_num self)) scores ->
  exists ls leader b,
    collect_board scores leader
      (map rankdata_dense
         (map (ranked_row (eval_metric self) scores) (seq 0 (Z.to_nat (split_num self)))))
      = Ok b /\
    calc_leaderboard self = Ok ls /\
    dict_get String.eqb ls "Mean rank"%string
      = Some (dict_of_items (py_sorted snd false (rank_dict b))) /\
    dict_get String.eqb ls "Share of experiments with the first place, %"%string
      = Some (dict_of_items (py_sorted snd true (leader_share b))) /\
    dict_get String.eqb ls "Mean score"%string
      = Some (sort_by_metric (eval_metric self) (means_of scores)).
Proof.
  intros Hscores Hnodup Hne Hpos Hlengths.
  pose proof (collect_rows self Hnodup Hlengths) as Hcollect.
  set (rows := map (ranked_row (eval_metric self) scores)
                 (seq 0 (Z.to_nat (split_num self)))) in *.
  assert (NoDup (map fst (means_of scores))) as Hnd_means
    by (rewrite means_of_keys; exact Hnodup).
  assert (finite_keys snd (means_of scores)) as Hfin.
  { apply means_of_finite. eapply Forall_impl; [|exact Hlengths].
    intros [k s] Hs Hnil. simpl in *. rewrite Hnil in Hs. simpl in Hs. lia. }
  assert (means_of scores <> []) as Hne_means.
  { intros Hnil. apply (f_equal (map fst)) in Hnil. rewrite means_of_keys in Hnil.
    destruct scores; [contradiction | discriminate]. }
  destruct (py_sorted_head (negb (eval_metric self =? "log_loss")%string) Hfin Hne_means)
    as ([leader leader_score] & rest & Hsort & _).
  assert (exists leader_series, In (leader, leader_series) scores) as [leader_series Hleader].
  { assert (In (leader, leader_score) (means_of scores)) as Hin.
    { eapply Permutation_in; [apply py_sorted_perm|]. rewrite Hsort. left. reflexivity. }
    unfold means_of in Hin. apply in_map_iff in Hin.
    destruct Hin as ([k s] & Hk & Hin). simpl in Hk. injection Hk as -> _.
    exists s. exact Hin. }
  set (model_rank := map rankdata_dense rows).
  assert (model_rank <> []) as Hrank_rows.
  { intros Hnil. apply (f_equal (@List.length _)) in Hnil. subst model_rank rows.
    rewrite !length_map, length_seq in Hnil. simpl in Hnil. lia. }
  assert (Forall (fun r => List.length r = List.length scores) model_rank) as Hrank_cols.
  { subst model_rank rows. apply Forall_map. apply Forall_map. apply Forall_forall.
    intros j _. rewrite rankdata_dense_length. unfold ranked_row. apply length_map. }
  destruct (@collect_board_ok _ self scores Hnodup Hlengths leader leader_series
              model_rank Hleader Hrank_rows Hrank_cols)
    as (b & Hboard & _).
  eexists. exists leader, b. split; [exact Hboard|]. split; [|split; [|split]].
  - unfold calc_leaderboard, scores_of. rewrite Hscores, rbind_ok, Hcollect, rbind_ok.
    rewrite sort_by_metric_is_py_sorted by exact Hnd_means.
    rewrite Hsort. cbn [map fst getitem nth_error]. rewrite rbind_ok.
    fold model_rank. rewrite (@np_array2_ok _ _ Hrank_cols), rbind_ok.
    rewrite Hboard, rbind_ok. reflexivity.
  - reflexivity.
  - reflexivity.
  - rewrite sort_by_metric_is_py_sorted by exact Hnd_means. rewrite Hsort. reflexivity.
Qed.

(** X15: On well-formed score tables the leaderboard's "Share of experiments
    with the first place, %" gives every candidate 100 times the fraction
    of folds in which no candidate scored strictly better than it (ties
    count for every candidate that shares the best score); the mapping is
    listed from the largest share to the smallest. *)
Theorem leaderboard_share_counts_first_places {ext : Externals} (self : ilc)
    (scores : scores_dict) :
  evaluated_models_scores_ self = Some (OScores scores) ->
  NoDup (map fst scores) ->
  scores <> [] ->
  0 < split_num self ->
  Forall (fun kv => List.length (snd kv) = Z.to_nat (split_num self)) scores ->
  exists ls share,
    calc_leaderboard self = Ok ls /\
    dict_get String.eqb ls "Share of experiments with the first place, %"%string
      = Some share /\
    Permutation (map fst share) (map fst scores) /\
    (forall el s,
       In (el, s) scores ->
       dict_get String.eqb share el
         = Some (first_place_share (eval_metric self) scores
                   (Z.to_nat (split_num self)) s)) /\
    StronglySorted (fun a b => Float.gtb (snd b) (snd a) = false) share.
Proof.
  intros Hscores Hnodup Hne Hpos Hlengths.
  destruct (calc_leaderboard_board self Hscores Hnodup Hne Hpos Hlengths)
    as (ls & leader & b & Hboard & Hls & _ & Hshare & _).
  destruct (@collect_board_entries _ self scores Hnodup leader Hpos b Hboard)
    as (Hentries & _ & _).
  set (share := fun kv : string * list Q =>
                  (fst kv, first_place_share (eval_metric self) scores
                             (Z.to_nat (split_num self)) (snd kv))) in *.
  assert (map fst (leader_share b) = map fst scores) as Hkeys
    by (rewrite Hentries, map_map; reflexivity).
  assert (NoDup (map fst (py_sorted snd true (leader_share b)))) as Hnd.
  { eapply Permutation_NoDup;
      [apply Permutation_map; symmetry; apply py_sorted_perm|].
    rewrite Hkeys. exact Hnodup. }
  rewrite (dict_of_items_nodup _ Hnd) in Hshare.
  exists ls, (py_sorted snd true (leader_share b)).
  split; [exact Hls | split; [exact Hshare | split; [|split]]].
  - rewrite <- Hkeys. apply Permutation_map. apply py_sorted_perm.
  - intros el s Hin.
    rewrite (dict_get_permutation String.eqb String.eqb_eq (d := leader_share b)).
    + apply (dict_get_in String.eqb String.eqb_eq);
        [rewrite Hkeys; exact Hnodup|].
      rewrite Hentries. change (el, first_place_share (eval_metric self) scores
                                      (Z.to_nat (split_num self)) s)
        with (share (el, s)).
      apply in_map. exact Hin.
    + rewrite Hkeys. exact Hnodup.
    + symmetry. apply py_sorted_perm.
  - apply (@py_sorted_sorted _ snd true). rewrite Hentries. unfold finite_keys.
    apply Forall_map. apply Forall_forall. intros kv _. eexists. reflexivity.
Qed.

Lemma leaderboard_share_counts_first_places_witness :
  exists ls share,
    let self :=
      {| classifer_ := None; classifer_label_ := None; split_num := 2;
         hyperopt_time := 0; score_ := None; scaler_ := None;
         evaluated_models_scores_ :=
           Some (@OScores (demo_externals never_fails)
                   [("a"%string, [1 # 2; 1 # 4]); ("b"%string, [3 # 4; 1 # 4]);
                    ("c"%string, [3 # 4; 0])]%Q);
         evaluated_models_time_ := None; eval_metric := "accuracy" |} in
    let scores :=
      [("a"%string, [1 # 2; 1 # 4]); ("b"%string, [3 # 4; 1 # 4]);
       ("c"%string, [3 # 4; 0])]%Q in
    calc_leaderboard self = Ok ls /\
    dict_get String.eqb ls "Share of experiments with the first place, %"%string
      = Some share /\
    Permutation (map fst share) (map fst scores) /\
    (forall el s,
       In (el, s) scores ->
       dict_get String.eqb share el
         = Some (first_place_share (eval_metric self) scores
                   (Z.to_nat (split_num self)) s)) /\
    StronglySorted (fun a b => Float.gtb (snd b) (snd a) = false) share.
Proof.
  apply (@leaderboard_share_counts_first_places (demo_externals never_fails)).
  - reflexivity.
  - repeat constructor; simpl; intuition discriminate.
  - discriminate.
  - simpl. lia.
  - repeat constructor.
Defined.

(** X16: On well-formed score tables the leaderboard's "Mean rank" has an entry
    for every candidate, a finite number between 1 and the number of
    candidates, and lists the candidates from the smallest mean rank to the
    largest. *)
Theorem leaderboard_mean_rank_in_range {ext : Externals} (self : ilc)
    (scores : scores_dict) :
  evaluated_models_scores_ self = Some (OScores scores) ->
  NoDup (map fst scores) ->
  scores <> [] ->
  0 < split_num self ->
  Forall (fun kv => List.length (snd kv) = Z.to_nat (split_num self)) scores ->
  exists ls ranks,
    calc_leaderboard self = Ok ls /\
    dict_get String.eqb ls "Mean rank"%string = Some ranks /\
    Permutation (map fst ranks) (map fst scores) /\
    Forall (fun kv => rank_between (List.length scores) (snd kv)) ranks /\
    StronglySorted (fun a b => Float.ltb (snd b) (snd a) = false) ranks.
Proof.
  intros Hscores Hnodup Hne Hpos Hlengths.
  destruct (calc_leaderboard_board self Hscores Hnodup Hne Hpos Hlengths)
    as (ls & leader & b & Hboard & Hls & Hranks & _ & _).
  destruct (@collect_board_entries _ self scores Hnodup leader Hpos b Hboard)
    as (_ & Hkeys & Hbetween).
  assert (NoDup (map fst (py_sorted snd false (rank_dict b)))) as Hnd.
  { eapply Permutation_NoDup;
      [apply Permutation_map; symmetry; apply py_sorted_perm|].
    rewrite Hkeys. exact Hnodup. }
  rewrite (dict_of_items_nodup _ Hnd) in Hranks.
  exists ls, (py_sorted snd false (rank_dict b)).
  split; [exact Hls | split; [exact Hranks | split; [|split]]].
  - rewrite <- Hkeys. apply Permutation_map. apply py_sorted_perm.
  - eapply Permutation_Forall; [symmetry; apply py_sorted_perm | exact Hbetween].
  - apply (@py_sorted_sorted _ snd false). unfold finite_keys.
    eapply Forall_impl; [|exact Hbetween]. intros kv (q & Hq & _). exists q. exact Hq.
Qed.

Lemma leaderboard_mean_rank_in_range_witness :
  exists ls ranks,
    let self :=
      {| classifer_ := None; classifer_label_ := None; split_num := 2;
         hyperopt_time := 0; score_ := None; scaler_ := None;
         evaluated_models_scores_ :=
           Some (@OScores (demo_externals never_fails)
                   [("a"%string, [1 # 2; 1 # 4]); ("b"%string, [3 # 4; 1 # 4]);
                    ("c"%string, [3 # 4; 0])]%Q);
         evaluated_models_time_ := None; eval_metric := "log_loss" |} in
    calc_leaderboard self = Ok ls /\
    dict_get String.eqb ls "Mean rank"%string = Some ranks /\
    Permutation (map fst ranks) ["a"; "b"; "c"]%string /\
    Forall (fun kv => rank_between 3 (snd kv)) ranks /\
    StronglySorted (fun a b => Float.ltb (snd b) (snd a) = false) ranks.
Proof.
  apply (@leaderboard_mean_rank_in_range (demo_externals never_fails)
           {| classifer_ := None; classifer_label_ := None; split_num := 2;
              hyperopt_time := 0; score_ := None; scaler_ := None;
              evaluated_models_scores_ :=
                Some (@OScores (demo_externals never_fails)
                        [("a"%string, [1 # 2; 1 # 4]); ("b"%string, [3 # 4; 1 # 4]);
                         ("c"%string, [3 # 4; 0])]%Q);
              evaluated_models_time_ := None; eval_metric := "log_loss" |}
           [("a"%string, [1 # 2; 1 # 4]); ("b"%string, [3 # 4; 1 # 4]);
            ("c"%string, [3 # 4; 0])]%Q).
  - reflexivity.
  - repeat constructor; simpl; intuition discriminate.
  - discriminate.
  - simpl. lia.
  - repeat constructor.
Defined.

(** ** Series that do not fit the number of splits *)

Lemma append_at_cases {A} (v : A) (rows : list (list A)) :
  forall i,
    ((i < List.length rows)%nat ->
     exists rows', append_at rows i v = Ok rows' /\ List.length rows' = List.length rows) /\
    ((List.length rows <= i)%nat -> append_at rows i v = Raise IndexError).
Proof.
  induction rows as [|r rows IH]; intros i; simpl.
  - split; [lia | reflexivity].
  - destruct i as [|i].
    + split; [intros _; eexists; split; reflexivity | lia].
    + destruct (IH i) as [Hok Hraise]. split.
      * intros Hlt. destruct (Hok ltac:(lia)) as (rows' & -> & Hlen).
        eexists. split; [reflexivity | simpl; lia].
      * intros Hle. rewrite (Hraise ltac:(lia)). reflexivity.
Qed.

Lemma append_series_cases {A} (f : Q -> A) (s : list Q) :
  forall (i : nat) (rows : list (list A)),
    (i <= List.length rows)%nat ->
    ((i + List.length s <= List.length rows)%nat ->
     exists rows',
       for_enumerate_from i s (fun j val rows => append_at rows j (f val)) rows = Ok rows' /\
       List.length rows' = List.length rows) /\
    ((List.length rows < i + List.length s)%nat ->
     for_enumerate_from i s (fun j val rows => append_at rows j (f val)) rows
       = Raise IndexError).
Proof.
  induction s as [|v s IH]; intros i rows Hi; simpl.
  - split; [intros _; eexists; split; reflexivity | lia].
  - destruct (@append_at_cases _ (f v) rows i) as [Hok Hraise].
    destruct (Nat.lt_ge_cases i (List.length rows)) as [Hlt | Hge].
    + destruct (Hok Hlt) as (rows1 & -> & Hlen1). rewrite rbind_ok.
      destruct (IH (S i) rows1 ltac:(lia)) as [IHok IHraise]. rewrite Hlen1 in *.
      split; intros H; [apply IHok | apply IHraise]; lia.
    + rewrite (Hraise Hge). split; [lia | reflexivity].
Qed.

(** X17: A stored series with more entries than [split_num], as after lowering
    [split_num] on a fitted instance, has no row for its last scores:
    [calc_leaderboard] raises [IndexError]. *)
Theorem leaderboard_rejects_long_series {ext : Externals} (self : ilc)
    (scores : scores_dict) :
  evaluated_models_scores_ self = Some (OScores scores) ->
  NoDup (map fst scores) ->
  Exists (fun kv => (Z.to_nat (split_num self) < List.length (snd kv))%nat) scores ->
  calc_leaderboard self = Raise IndexError.
Proof.
  intros Hscores Hnodup Hlong. unfold calc_leaderboard, scores_of. rewrite Hscores, rbind_ok.
  replace (collect_means_and_columns self scores) with
    (@Raise (list (string * pyfloat) * list (list Q)) IndexError); [reflexivity|].
  symmetry. unfold collect_means_and_columns.
  set (n := Z.to_nat (split_num self)) in *.
  assert (forall l, fold_left
            (fun acc el => (st <- acc ;; collect_step self scores st el)%result) l
            (Raise IndexError) = Raise IndexError) as Hstuck
    by (induction l as [|a l IH]; simpl; [reflexivity | exact IH]).
  assert (forall suf pre md rows,
            scores = pre ++ suf ->
            List.length rows = n ->
            Exists (fun kv => (n < List.length (snd kv))%nat) suf ->
            fold_left
              (fun acc el => (st <- acc ;; collect_step self scores st el)%result)
              (map fst suf) (Ok (md, rows)) = Raise IndexError) as Hloop.
  { induction suf as [|[k s] suf IH]; intros pre md rows Hsc Hrows Hex.
    - inversion Hex.
    - cbn [map fst fold_left]. rewrite rbind_ok.
      assert (In (k, s) scores) as Hin
        by (rewrite Hsc; apply in_or_app; right; left; reflexivity).
      unfold collect_step at 2. unfold dict_getitem.
      rewrite (proj2 (dict_get_in String.eqb String.eqb_eq scores k s Hnodup) Hin).
      rewrite rbind_ok.
      set (f := fun v : Q => if (eval_metric self =? "log_loss")%string then v else (- v)%Q).
      assert (for_enumerate s
                (fun i val sub_rank_list =>
                   if (eval_metric self =? "log_loss")%string
                   then append_at sub_rank_list i val
                   else append_at sub_rank_list i (- val)%Q) rows
              = for_enumerate_from 0%nat s (fun j val rows => append_at rows j (f val)) rows)
        as ->.
      { unfold for_enumerate. subst f.
        destruct (eval_metric self =? "log_loss")%string; reflexivity. }
      destruct (@append_series_cases _ f s 0%nat rows ltac:(lia)) as [Hok Hraise].
      destruct (Nat.lt_ge_cases n (List.length s)) as [Hlt | Hge].
      + rewrite Hraise by (simpl; lia). simpl. apply Hstuck.
      + destruct (Hok ltac:(simpl; lia)) as (rows' & -> & Hlen'). rewrite rbind_ok.
        apply (IH (pre ++ [(k, s)])); [rewrite <- app_assoc; exact Hsc | lia|].
        inversion Hex as [? ? Hhere | ? ? Hlater]; subst; [simpl in Hhere; lia | exact Hlater]. }
  apply (Hloop scores []); [reflexivity | apply repeat_length | exact Hlong].
Qed.

Lemma leaderboard_rejects_long_series_witness :
  @calc_leaderboard (demo_externals never_fails)
    {| classifer_ := None; classifer_label_ := None; split_num := 1;
       hyperopt_time := 0; score_ := None; scaler_ := None;
       evaluated_models_scores_ :=
         Some (@OScores (demo_externals never_fails)
                 [("a"%string, [1 # 2]); ("b"%string, [3 # 4; 1 # 4])]%Q);
       evaluated_models_time_ := None; eval_metric := "accuracy" |}
    = Raise IndexError.
Proof.
  apply (@leaderboard_rejects_long_series (demo_externals never_fails) _
           [("a"%string, [1 # 2]); ("b"%string, [3 # 4; 1 # 4])]%Q).
  - reflexivity.
  - repeat constructor; simpl; intuition discriminate.
  - right. left. simpl. lia.
Defined.

(** ** The number of fits of an untuned selection *)

Lemma for_each_joint {A St} (I : St -> world -> Prop) (l : list A)
    (body : A -> St -> M St) :
  (forall a s w s' w', body a s w = (Ok s', w') -> I s w -> I s' w') ->
  forall s w s' w', for_each l body s w = (Ok s', w') -> I s w -> I s' w'.
Proof.
  intros Hbody. induction l as [|a l IH]; intros s w s' w' H Hs; simpl in H.
  - apply ret_ok_inv in H. destruct H as [-> ->]. exact Hs.
  - apply bind_ok_inv in H. destruct H as (s1 & w1 & H1 & H).
    eapply IH; [exact H|]. eapply Hbody; [exact H1 | exact Hs].
Qed.

Lemma fits_app (a b : list event) : fits (a ++ b) = (fits a + fits b)%nat.
Proof. unfold fits. rewrite filter_app, length_app. reflexivity. Qed.

Section Fits.
Context {ext : Externals}.
Variables (x : matrix) (y : labels).

Lemma now_log (w w' : world) (t : Z) : now w = (Ok t, w') -> log w' = log w.
Proof. unfold now. intros H. injection H as _ <-. reflexivity. Qed.

Lemma emit_log (e : event) (w w' : world) (u : unit) :
  emit e w = (Ok u, w') -> log w' = log w ++ [e].
Proof. unfold emit. intros H. injection H as _ <-. reflexivity. Qed.

Lemma call_fit_log (est : pipeline) (x' : matrix) (y' : labels) (f : fitted)
    (w w' : world) :
  call_fit est x' y' w = (Ok f, w') -> log w' = log w ++ [EvFit est].
Proof.
  unfold call_fit. intros H. inv_ok. subst.
  match goal with H : emit _ _ = _ |- _ => apply emit_log in H; exact H end.
Qed.

Lemma call_predict_log (f : fitted) (x' : matrix) (p : prediction) (w w' : world) :
  call_predict f x' w = (Ok p, w') -> log w' = log w ++ [EvPredict false].
Proof.
  unfold call_predict. intros H. inv_ok. subst.
  match goal with H : emit _ _ = _ |- _ => apply emit_log in H; exact H end.
Qed.

Lemma call_predict_proba_log (f : fitted) (x' : matrix) (p : prediction)
    (w w' : world) :
  call_predict_proba f x' w = (Ok p, w') -> log w' = log w ++ [EvPredict true].
Proof.
  unfold call_predict_proba. intros H. inv_ok. subst.
  match goal with H : emit _ _ = _ |- _ => apply emit_log in H; exact H end.
Qed.

Lemma skf_split_log (skf : splitter) (folds : list fold) (w w' : world) :
  skf_split skf x y w = (Ok folds, w') -> log w' = log w ++ [EvSplit skf].
Proof.
  unfold skf_split. intros H. inv_ok. subst.
  match goal with H : emit _ _ = _ |- _ => apply emit_log in H; exact H end.
Qed.

Ltac log_steps :=
  repeat match goal with
    | H : now _ = (Ok _, _) |- _ => apply now_log in H
    | H : emit _ _ = (Ok _, _) |- _ => apply emit_log in H
    | H : call_fit _ _ _ _ = (Ok _, _) |- _ => apply call_fit_log in H
    | H : call_predict _ _ _ = (Ok _, _) |- _ => apply call_predict_log in H
    | H : call_predict_proba _ _ _ = (Ok _, _) |- _ => apply call_predict_proba_log in H
    end;
  repeat match goal with
    | H : log _ = _ |- _ => rewrite H; clear H
    end.

Lemma balance_exp_fold_fits (bal_alg alg metric : string) (fd : fold)
    (sl sl' : list Q) (tl tl' : list time_dict) (w w' : world) :
  balance_exp_fold x y bal_alg alg 0 metric fd (sl, tl) w = (Ok (sl', tl'), w') ->
  List.length sl' = S (List.length sl) /\ fits (log w') = S (fits (log w)).
Proof.
  unfold balance_exp_fold. destruct fd as [train_index test_index].
  change (negb (0 =? 0)) with false. cbv iota. unfold apply_params. intros H.
  destruct (wants_proba metric); inv_ok; subst; inv_ok; subst;
    match goal with
    | H : (sl', tl') = _ |- _ => injection H as -> ->
    end;
    (split; [rewrite length_app; simpl; lia|]);
    log_steps; rewrite !fits_app; unfold fits; simpl; lia.
Qed.

Lemma abb_exp_fold_fits (metric : string) (fd : fold)
    (sl sl' : list Q) (tl tl' : list time_dict) (w w' : world) :
  abb_exp_fold x y metric fd (sl, tl) w = (Ok (sl', tl'), w') ->
  List.length sl' = S (List.length sl) /\ fits (log w') = S (fits (log w)).
Proof.
  unfold abb_exp_fold. destruct fd as [train_index test_index]. intros H.
  destruct (wants_proba metric); inv_ok; subst; inv_ok; subst;
    match goal with
    | H : (sl', tl') = _ |- _ => injection H as -> ->
    end;
    (split; [rewrite length_app; simpl; lia|]);
    log_steps; rewrite !fits_app; unfold fits; simpl; lia.
Qed.
Lemma run_exp_fits (skf : splitter) (bal_alg : option string) (alg metric : string)
    (sl : list Q) (tl : list time_dict) (w w' : world) :
  run_exp x y skf bal_alg alg 0 metric w = (Ok (sl, tl), w') ->
  fits (log w') = (fits (log w) + List.length sl)%nat.
Proof.
  unfold run_exp. intros H.
  assert (forall body : fold -> list Q * list time_dict -> M (list Q * list time_dict),
            (forall fd sl0 tl0 w0 sl1 tl1 w1,
               body fd (sl0, tl0) w0 = (Ok (sl1, tl1), w1) ->
               List.length sl1 = S (List.length sl0) /\
               fits (log w1) = S (fits (log w0))) ->
            bind (skf_split skf x y) (fun folds => for_each folds body ([], [])) w
              = (Ok (sl, tl), w') ->
            fits (log w') = (fits (log w) + List.length sl)%nat) as Hloop.
  { intros body Hbody Hrun. apply bind_ok_inv in Hrun.
    destruct Hrun as (folds & w1 & Hsplit & Hrun). apply skf_split_log in Hsplit.
    apply (@for_each_joint _ _
             (fun st w2 => fits (log w2) = (fits (log w) + List.length (fst st))%nat))
      in Hrun; [exact Hrun | |].
    - intros fd [sl0 tl0] w0 [sl1 tl1] w2 Hfold Hinv. simpl in *.
      destruct (Hbody _ _ _ _ _ _ _ Hfold) as [Hlen Hfits]. lia.
    - simpl. rewrite Hsplit, fits_app. unfold fits. simpl. lia. }
  destruct (alg =? "AutoBalanceBoost")%string.
  - apply (Hloop (abb_exp_fold x y metric)); [|exact H].
    intros; eapply abb_exp_fold_fits; eassumption.
  - destruct bal_alg as [b|]; [|discriminate].
    apply (Hloop (balance_exp_fold x y b alg 0 metric)); [|exact H].
    intros; eapply balance_exp_fold_fits; eassumption.
Qed.

Lemma fit_alg_fits (cv_type : string) (bal_alg : option string) (alg : string)
    (split_num : Z) (metric : string) (sl : list Q) (tl : list time_dict)
    (w w' : world) :
  fit_alg cv_type x y bal_alg alg 0 split_num metric w = (Ok (sl, tl), w') ->
  fits (log w') = (fits (log w) + List.length sl)%nat.
Proof.
  unfold fit_alg. intros H. destruct (cv_type =? "split")%string.
  - apply bind_ok_inv in H. destruct H as ([s t] & w1 & Hrun & H).
    apply ret_ok_inv in H. destruct H as [H ->]. injection H as -> ->.
    apply run_exp_fits in Hrun. exact Hrun.
  - apply bind_ok_inv in H. destruct H as (seeds & w1 & Hseeds & H).
    apply lift_ok_inv in Hseeds. destruct Hseeds as [_ ->].
    apply (@for_each_joint _ _
             (fun st w2 => fits (log w2) = (fits (log w) + List.length (fst st))%nat))
      in H; [exact H | | simpl; lia].
    intros seed [sl0 tl0] w0 [sl1 tl1] w2 Hbody Hinv. simpl in *.
    apply bind_ok_inv in Hbody. destruct Hbody as ([s t] & w3 & Hrun & Hbody).
    apply ret_ok_inv in Hbody. destruct Hbody as [Hbody ->]. injection Hbody as -> ->.
    apply run_exp_fits in Hrun. rewrite length_app. lia.
Qed.

Lemma fit_res_model_fits (option_label metric : string) (r : model * option scaler)
    (w w' : world) :
  fit_res_model option_label x y 0 metric w = (Ok r, w') ->
  fits (log w') = S (fits (log w)).
Proof.
  unfold fit_res_model. change (negb (0 =? 0)) with false. cbv iota. intros H.
  destruct (option_label =? "AutoBalanceBoost")%string; inv_ok; subst; inv_ok; subst;
    log_steps; rewrite !fits_app; unfold fits; simpl; lia.
Qed.
Lemma evaluate_options_fits (self : ilc) (t : tables) (w w' : world) :
  hyperopt_time self = 0 ->
  0 < split_num self ->
  evaluate_options self x y w = (Ok t, w') ->
  Z.of_nat (fits (log w')) = Z.of_nat (fits (log w)) + 17 * split_num self.
Proof.
  intros Hzero Hpos H.
  unfold evaluate_options, classifier_labels, resampler_labels in H. rewrite Hzero in H.
  cbn [for_each] in H. inv_ok. subst.
  repeat match goal with
    | H : fit_alg _ _ _ _ _ _ _ _ _ = (Ok (_, _), _) |- _ =>
        let Hf := fresh "Hf" in
        pose proof H as Hf; apply fit_alg_fits in Hf;
        apply (fit_alg_lengths _ _ _ _ _ _ Hpos) in H; simpl in H; destruct H as [H _]
    end.
  lia.
Qed.

(** X18: Without a search budget a selection that returns has fitted exactly
    [17 * split_num + 1] models: one per candidate and fold, and the final
    refit of the winner. *)
Theorem untuned_selection_fits_every_fold_once (self : ilc) (r : list obj)
    (w w' : world) :
  hyperopt_time self = 0 ->
  0 < split_num self ->
  choose_and_fit_ilc self x y w = (Ok r, w') ->
  Z.of_nat (fits (log w')) = Z.of_nat (fits (log w)) + 17 * split_num self + 1.
Proof.
  intros Hzero Hpos H. unfold choose_and_fit_ilc in H. rewrite Hzero in H.
  inv_ok. subst.
  match goal with
  | H : evaluate_options _ _ _ _ = (Ok _, _) |- _ =>
      apply evaluate_options_fits in H; [|exact Hzero | exact Hpos]
  end.
  match goal with
  | H : fit_res_model _ _ _ _ _ _ = (Ok _, _) |- _ => apply fit_res_model_fits in H
  end.
  lia.
Qed.
End Fits.

Lemma untuned_selection_fits_every_fold_once_witness :
  Z.of_nat (fits (log (snd (@choose_and_fit_ilc (demo_externals never_fails)
                              (ilc_init 6 0 "accuracy") demo_x demo_y empty_world))))
    = Z.of_nat (fits (log empty_world)) + 17 * 6 + 1.
Proof.
  eapply (@untuned_selection_fits_every_fold_once (demo_externals never_fails)
            demo_x demo_y (ilc_init 6 0 "accuracy")).
  - reflexivity.
  - simpl. lia.
  - apply run_result. vm_compute. reflexivity.
Defined.

(** ** Selection and leaderboard agree *)

(** X19: The leaderboard computed from the score tables a selection returns,
    under the same metric and number of splits, names the selected model as
    its leader: the head of its "Mean score" ranking is the returned label
    with the returned score. *)
Theorem leaderboard_leader_is_selected_model {ext : Externals} (x : matrix)
    (y : labels) (self self' : ilc) (w w' : world)
    (cls : model) (label : string) (score : pyfloat) (sc : option scaler)
    (sd : scores_dict) (td : times_dict) (ci : obj) :
  0 < split_num self ->
  choose_and_fit_ilc self x y w
    = (Ok [OModel cls; OStr label; OFloat score; OScaler sc; OScores sd; OTimes td; ci], w') ->
  evaluated_models_scores_ self' = Some (OScores sd) ->
  eval_metric self' = eval_metric self ->
  split_num self' = split_num self ->
  exists ls mean_dict,
    calc_leaderboard self' = Ok ls /\
    dict_get String.eqb ls "Mean score"%string = Some mean_dict /\
    hd_error mean_dict = Some (label, score).
Proof.
  intros Hpos H Hscores Hmetric Hsplit. unfold choose_and_fit_ilc in H. inv_ok. subst.
  match goal with
  | H : evaluate_options _ _ _ _ = (Ok ?t, _) |- _ =>
      destruct (@evaluate_options_tables _ _ _ _ _ _ _ Hpos H)
        as (Hkeys & _ & _ & Hres & Hlen);
      rename t into tb
  end.
  match goal with H : _ :: _ = _ :: _ |- _ => injection H as -> -> -> -> -> -> -> end.
  destruct (@calc_leaderboard_board _ self' (score_dict tb) Hscores)
    as (ls & leader & b & _ & Hls & _ & _ & Hmean).
  - rewrite Hkeys. apply NoDup_candidates.
  - intros Hnil. rewrite Hnil in Hkeys. discriminate.
  - rewrite Hsplit. exact Hpos.
  - rewrite Hsplit. eapply Forall_impl; [|exact Hlen]. intros kv Hkv. simpl in *. lia.
  - exists ls. eexists. split; [exact Hls | split; [exact Hmean|]].
    rewrite Hmetric, <- Hres.
    destruct (sort_by_metric (eval_metric self) (res_dict tb)) as [|[k v] rest];
      [discriminate|].
    repeat match goal with
      | H : getitem _ 0 = Ok _ |- _ => simpl in H; injection H as <-
      end.
    reflexivity.
Qed.

Lemma leaderboard_leader_is_selected_model_witness :
  exists label score sd ls mean_dict,
    @calc_leaderboard (demo_externals never_fails)
      {| classifer_ := None; classifer_label_ := None; split_num := 6;
         hyperopt_time := 0; score_ := None; scaler_ := None;
         evaluated_models_scores_ := Some (@OScores (demo_externals never_fails) sd);
         evaluated_models_time_ := None; eval_metric := "accuracy" |} = Ok ls /\
    dict_get String.eqb ls "Mean score"%string = Some mean_dict /\
    hd_error mean_dict = Some (label, score).
Proof.
  eexists. eexists. eexists.
  eapply (@leaderboard_leader_is_selected_model (demo_externals never_fails)
            demo_x demo_y (ilc_init 6 0 "accuracy") _ empty_world).
  - simpl. lia.
  - vm_compute. reflexivity.
  - reflexivity.
  - reflexivity.
  - reflexivity.
Defined.
